(** * kdash-monitor: the multi-cluster polling, aggregation and alerting core

    A shallow embedding of the Go sources
      - cmd/server/main.go               (startup, collector, threshold alerts)
      - internal/services/kubernetes.go  (registry, inventory, age and role helpers)
      - internal/services/prometheus.go  (metrics probe, scalar extraction)
      - internal/store (MetricsStore)    (snapshots and alerts over gorm)
      - internal/handlers (APIHandler)   (determineClusterStatus)
    followed by the properties of the specification that were checked
    against it.

    Conventions.  Go's [int] and [time.Duration] are 64-bit: they are
    modelled in [Z] with the wrap-around written out.  [float64] is the
    IEEE-754 binary64 format of the standard library's [SpecFloat].
    [error] is the message of the Go error; [nil] is [None].  Everything
    outside the process (the clock, the database engine, the cluster API,
    the metrics endpoint, the file system) is an oracle that the model
    reads; nothing is assumed about what the oracles answer. *)

From Stdlib Require Import ZArith List String Ascii Lia DecimalString.
From Stdlib Require Import Floats.SpecFloat.
From stdpp Require Import gmap strings list sorting.

Open Scope Z_scope.

(* ===================================================================== *)
(** * Go values *)
(* ===================================================================== *)

Module Go.

(** ** int (64-bit, two's complement) *)

Definition int_min : Z := - 2 ^ 63.
Definition int_max : Z := 2 ^ 63 - 1.

(** The value an arithmetic result has once stored in an [int]. *)
Definition wrap (z : Z) : Z := (z + 2 ^ 63) mod 2 ^ 64 - 2 ^ 63.

Definition in_int (z : Z) : Prop := int_min <= z <= int_max.

(** [x++] *)
Definition incr (x : Z) : Z := wrap (x + 1).
(** [-x] *)
Definition neg (x : Z) : Z := wrap (- x).

(** ** error *)

Definition error : Type := string.

(** [fmt.Errorf] with a trailing [%w] or [%v] verb: the wrapped message
    is appended. *)
Definition Errorf (msg : string) (err : error) : error := msg +:+ err.

(** A Go result pair [(v, err)] whose [v] is meaningful only when
    [err == nil]. *)
Definition result (A : Type) : Type := (error + A)%type.

(** ** float64 *)

Definition float64 : Type := spec_float.

Definition prec : Z := 53.
Definition emax : Z := 1024.

(** Conversion [float64(n)] of an integer (round to nearest, ties to
    even); also the value of an integer constant used as a float64. *)
Definition float64_of_int (n : Z) : float64 := binary_normalize prec emax n 0 false.

Definition fadd (x y : float64) : float64 := SFadd prec emax x y.
Definition fdiv (x y : float64) : float64 := SFdiv prec emax x y.

(** [x > y] and [x >= y]; false as soon as one side is NaN. *)
Definition fgt (x y : float64) : bool := SFltb y x.
Definition fge (x y : float64) : bool := SFleb y x.

(** The zero value of a float64 variable. *)
Definition fzero : float64 := S754_zero false.

(** Conversion [int(f)]: the fraction is discarded (truncation towards
    zero).  For NaN, the infinities and values outside the range of
    [int] Go leaves the result to the implementation; amd64 yields the
    minimal int, which is what is written here. *)
Definition int_of_float64 (f : float64) : Z :=
  match f with
  | S754_zero _ => 0
  | S754_finite s m e =>
      let a := if 0 <=? e then Z.pos m * 2 ^ e else Z.pos m / 2 ^ (- e) in
      let v := if s then - a else a in
      if (int_min <=? v) && (v <=? int_max) then v else int_min
  | _ => int_min
  end.

(** ** interface{} as produced by encoding/json *)

#[warnings="-register-all"]
Inductive any : Type :=
| AnyNil
| AnyBool (b : bool)
| AnyFloat64 (f : float64)
| AnyString (s : string)
| AnySlice (l : list any)
| AnyMap (m : list (string * any)).

(** The type assertion [v.(string)]. *)
Definition as_string (v : any) : option string :=
  match v with
  | AnyString s => Some s
  | _ => None
  end.

(** ** fmt *)

(** The verb [%d] on an int. *)
Definition itoa (z : Z) : string := NilZero.string_of_int (Z.to_int z).

(** The double quote character, for messages and queries that contain it. *)
Definition dquote : string := String (ascii_of_nat 34) EmptyString.

End Go.

(* ===================================================================== *)
(** * Package time *)
(* ===================================================================== *)

Module Time.

(** A [time.Duration] is an int64 count of nanoseconds. *)
Definition Duration : Type := Z.

Definition Nanosecond : Duration := 1.
Definition Second : Duration := 1000000000.
Definition Minute : Duration := 60 * Second.
Definition Hour : Duration := 60 * Minute.

(** A [time.Time] is kept as its count of nanoseconds since the epoch. *)
Definition Time : Type := Z.

(** [t.Add(d)] *)
Definition Add (t : Time) (d : Duration) : Time := t + d.

(** [t.Sub(u)]: the difference, saturated to the range of Duration. *)
Definition Sub (t u : Time) : Duration :=
  let d := t - u in
  if d <? Go.int_min then Go.int_min
  else if Go.int_max <? d then Go.int_max
  else d.

(** [d.Hours()], [d.Minutes()], [d.Seconds()]: integer part and fraction
    are converted separately and added, as package time does.  Go's [/]
    and [%] truncate towards zero. *)
Definition Hours (d : Duration) : Go.float64 :=
  let hour := Z.quot d Hour in
  let nsec := Z.rem d Hour in
  Go.fadd (Go.float64_of_int hour)
          (Go.fdiv (Go.float64_of_int nsec) (Go.float64_of_int (60 * 60 * 1000000000))).

Definition Minutes (d : Duration) : Go.float64 :=
  let min := Z.quot d Minute in
  let nsec := Z.rem d Minute in
  Go.fadd (Go.float64_of_int min)
          (Go.fdiv (Go.float64_of_int nsec) (Go.float64_of_int (60 * 1000000000))).

Definition Seconds (d : Duration) : Go.float64 :=
  let sec := Z.quot d Second in
  let nsec := Z.rem d Second in
  Go.fadd (Go.float64_of_int sec)
          (Go.fdiv (Go.float64_of_int nsec) (Go.float64_of_int 1000000000)).

End Time.

(* ===================================================================== *)
(** * internal/models *)
(* ===================================================================== *)

Module Models.

(** ClusterConfig: the configuration for connecting to a cluster. *)
Module ClusterConfig.
Record t : Type := mk {
  Name : string;
  DisplayName : string;
  Context : string;
  PrometheusURL : string;
  Enabled : bool
}.
End ClusterConfig.

(** ClustersConfig: the full clusters configuration file. *)
Module ClustersConfig.
Record t : Type := mk { Clusters : list ClusterConfig.t }.
End ClustersConfig.

Module Node.
Record t : Type := mk {
  Name : string;
  Status : string;
  CPUUsage : Go.float64;
  MemUsage : Go.float64;
  PodCount : Z;
  Roles : list string;
  Age : string;
  Version : string
}.
End Node.

Module Pod.
Record t : Type := mk {
  Name : string;
  Namespace : string;
  Status : string;
  Restarts : Z;
  Age : string;
  Node : string;
  CPUUsage : Go.float64;
  MemUsage : Go.float64
}.
End Pod.

Module Alert.
Record t : Type := mk {
  ID : Z;
  Cluster : string;
  Severity : string;
  Message : string;
  Timestamp : Time.Time;
  Resolved : bool
}.

Definition with_ID (v : Z) (a : t) : t :=
  mk v (Cluster a) (Severity a) (Message a) (Timestamp a) (Resolved a).
Definition with_Timestamp (v : Time.Time) (a : t) : t :=
  mk (ID a) (Cluster a) (Severity a) (Message a) v (Resolved a).
Definition with_Resolved (v : bool) (a : t) : t :=
  mk (ID a) (Cluster a) (Severity a) (Message a) (Timestamp a) v.
End Alert.

Module MetricSnapshot.
Record t : Type := mk {
  ID : Z;
  Cluster : string;
  CPUUsage : Go.float64;
  MemoryUsage : Go.float64;
  PodCount : Z;
  NodeCount : Z;
  Timestamp : Time.Time
}.

Definition with_ID (v : Z) (s : t) : t :=
  mk v (Cluster s) (CPUUsage s) (MemoryUsage s) (PodCount s) (NodeCount s) (Timestamp s).
Definition with_CPUUsage (v : Go.float64) (s : t) : t :=
  mk (ID s) (Cluster s) v (MemoryUsage s) (PodCount s) (NodeCount s) (Timestamp s).
Definition with_MemoryUsage (v : Go.float64) (s : t) : t :=
  mk (ID s) (Cluster s) (CPUUsage s) v (PodCount s) (NodeCount s) (Timestamp s).
Definition with_PodCount (v : Z) (s : t) : t :=
  mk (ID s) (Cluster s) (CPUUsage s) (MemoryUsage s) v (NodeCount s) (Timestamp s).
Definition with_NodeCount (v : Z) (s : t) : t :=
  mk (ID s) (Cluster s) (CPUUsage s) (MemoryUsage s) (PodCount s) v (Timestamp s).
Definition with_Timestamp (v : Time.Time) (s : t) : t :=
  mk (ID s) (Cluster s) (CPUUsage s) (MemoryUsage s) (PodCount s) (NodeCount s) v.
End MetricSnapshot.

(** Cluster represents a Kubernetes cluster with its health metrics. *)
Module Cluster.
Record t : Type := mk {
  Name : string;
  DisplayName : string;
  Status : string;
  CPUUsage : Go.float64;
  MemoryUsage : Go.float64;
  NodeCount : Z;
  PodCount : Z;
  Context : string;
  LastUpdated : Time.Time
}.
End Cluster.

End Models.

(* ===================================================================== *)
(** * The world outside the process, and the monad of effects *)
(* ===================================================================== *)

(** The two tables that gorm keeps for the store, with the row ids that
    SQLite last handed out.  Rows are kept in insertion order. *)
Module Gorm.
Record DB : Type := mk {
  metric_snapshots : list Models.MetricSnapshot.t;
  alerts : list Models.Alert.t;
  metric_snapshots_seq : Z;
  alerts_seq : Z
}.

Definition empty : DB := mk [] [] 0 0.
End Gorm.

(** What the process can observe and change.  [clock k] is what the k-th
    reading of [time.Now] returns; [db_fault k] is the failure, if any,
    with which the database engine answers the k-th statement sent to it
    (disk full, locked file, closed handle); [ticks] and [stmts] count the
    readings and statements so far.  [logs] collects the lines written by
    package log and by [fmt.Printf], oldest first. *)
Record World : Type := mkWorld {
  clock : nat -> Time.Time;
  ticks : nat;
  db_fault : nat -> option Go.error;
  stmts : nat;
  db : Gorm.DB;
  logs : list string
}.

Definition M (A : Type) : Type := World -> A * World.

Definition ret {A : Type} (a : A) : M A := fun w => (a, w).

Definition bind {A B : Type} (c : M A) (k : A -> M B) : M B :=
  fun w => let (a, w') := c w in k a w'.

Notation "x <- c ;; k" := (bind c (fun x => k))
  (at level 20, c at level 99, k at level 200, only parsing).
Notation "' x <- c ;; k" := (bind c (fun x => k))
  (at level 20, x pattern, c at level 99, k at level 200, only parsing).
Notation "c ;; k" := (bind c (fun _ => k))
  (at level 100, k at level 200, right associativity, only parsing).

(** [for _, x := range l { body }] over a slice. *)
Fixpoint for_range {A : Type} (l : list A) (body : A -> M unit) : M unit :=
  match l with
  | [] => ret tt
  | x :: l' => body x ;; for_range l' body
  end.

(** [time.Now()] *)
Definition time_Now : M Time.Time :=
  fun w => (clock w (ticks w),
            mkWorld (clock w) (S (ticks w)) (db_fault w) (stmts w) (db w) (logs w)).

(** [time.Since(t)] *)
Definition time_Since (t : Time.Time) : M Time.Duration :=
  now <- time_Now ;; ret (Time.Sub now t).

(** [log.Printf] and [fmt.Printf]: one more line of output. *)
Definition Printf (line : string) : M unit :=
  fun w => (tt, mkWorld (clock w) (ticks w) (db_fault w) (stmts w) (db w) (logs w ++ [line])).

(** One statement sent to the database.  The engine either refuses it
    with an error of its own ([db_fault]), or runs it: [run] is what the
    statement does to the tables, and may itself end in an error (a
    violated constraint).  On an error the tables stay as they are and the
    caller keeps [failed]. *)
Definition db_exec {A : Type} (run : Gorm.DB -> Go.result (A * Gorm.DB)) (failed : A)
  : M (A * option Go.error) :=
  fun w =>
    let w1 := mkWorld (clock w) (ticks w) (db_fault w) (S (stmts w)) (db w) (logs w) in
    match db_fault w (stmts w) with
    | Some err => ((failed, Some err), w1)
    | None =>
        match run (db w) with
        | inl err => ((failed, Some err), w1)
        | inr (a, d) =>
            ((a, None), mkWorld (clock w) (ticks w) (db_fault w) (S (stmts w)) d (logs w))
        end
    end.

(* ===================================================================== *)
(** * The cluster API (k8s.io/api/core/v1 and client-go), as far as used *)
(* ===================================================================== *)

Module Corev1.

Module NodeCondition.
Record t : Type := mk { Type_ : string; Status : string }.
End NodeCondition.

Module Node.
Record t : Type := mk {
  Name : string;
  Labels : gmap string string;
  CreationTimestamp : Time.Time;
  Conditions : list NodeCondition.t;
  KubeletVersion : string
}.
End Node.

Module ContainerStatus.
Record t : Type := mk { RestartCount : Z }.
End ContainerStatus.

Module Pod.
Record t : Type := mk {
  Name : string;
  Namespace : string;
  Phase : string;
  ContainerStatuses : list ContainerStatus.t;
  CreationTimestamp : Time.Time;
  NodeName : string
}.
End Pod.

Definition NodeReady : string := "Ready".
Definition ConditionTrue : string := "True".
Definition NamespaceAll : string := EmptyString.

End Corev1.

(** A [*kubernetes.Clientset]: what the cluster answers to the two
    listings the service asks for. *)
Module Clientset.
Record t : Type := mk {
  Nodes_List : Go.result (list Corev1.Node.t);
  Pods_List : string -> Go.result (list Corev1.Pod.t)
}.
End Clientset.

(** The host the process starts on: environment, file system, and the
    libraries that read the configuration, build cluster clients and open
    the database.  Each field is what the corresponding call answers. *)
Module Host.
Record t : Type := mk {
  Getenv : string -> string;
  UserHomeDir : string;
  MkdirAll : string -> option Go.error;
  ReadFile : string -> Go.result string;
  filepath_Dir : string -> string;
  filepath_Join : list string -> string;
  yaml_Unmarshal : string -> Go.result Models.ClustersConfig.t;
  (** [clientcmd...ClientConfig()] for a kubeconfig path and a context:
      the name of the REST configuration, or the failure. *)
  ClientConfig : string -> string -> Go.result string;
  NewForConfig : string -> Go.result Clientset.t;
  (** [gorm.Open(sqlite.Open(path))]: the tables found in the file. *)
  gorm_Open : string -> Go.result Gorm.DB;
  AutoMigrate : Gorm.DB -> Go.result Gorm.DB
}.
End Host.

(** Package strings. *)
Module Strings.
Definition HasPrefix (s prefix : string) : bool := String.prefix prefix s.

Definition TrimPrefix (s prefix : string) : string :=
  if HasPrefix s prefix
  then String.substring (String.length prefix)
                        (String.length s - String.length prefix) s
  else s.
End Strings.

(* ===================================================================== *)
(** * internal/services/kubernetes.go *)
(* ===================================================================== *)

Module KubernetesService.

(** KubernetesService manages connections to multiple clusters.  The
    read-write lock of the Go struct guards [clients] between
    goroutines; the model runs one call at a time. *)
Record t : Type := mk {
  clients : gmap string Clientset.t;
  configs : list Models.ClusterConfig.t;
  configPath : string
}.

Definition GetConfigs (s : t) : list Models.ClusterConfig.t := configs s.

Definition GetClient (s : t) (clusterName : string) : option Clientset.t :=
  clients s !! clusterName.

(** loadConfigs loads cluster configurations from the YAML file. *)
Definition loadConfigs (h : Host.t) (s : t) : t * option Go.error :=
  match Host.ReadFile h (configPath s) with
  | inl err => (s, Some err)
  | inr data =>
      match Host.yaml_Unmarshal h data with
      | inl err => (s, Some err)
      | inr config =>
          (mk (clients s) (Models.ClustersConfig.Clusters config) (configPath s), None)
      end
  end.

Fixpoint initializeClients_range (h : Host.t) (kubeconfig : string)
  (cfgs : list Models.ClusterConfig.t) (s : t) : M t :=
  match cfgs with
  | [] => ret s
  | clusterCfg :: rest =>
      if negb (Models.ClusterConfig.Enabled clusterCfg) then
        initializeClients_range h kubeconfig rest s
      else
        match Host.ClientConfig h kubeconfig (Models.ClusterConfig.Context clusterCfg) with
        | inl err =>
            Printf ("Warning: Failed to create config for cluster "
                      +:+ Models.ClusterConfig.Name clusterCfg +:+ ": " +:+ err) ;;
            initializeClients_range h kubeconfig rest s
        | inr config =>
            match Host.NewForConfig h config with
            | inl err =>
                Printf ("Warning: Failed to create clientset for cluster "
                          +:+ Models.ClusterConfig.Name clusterCfg +:+ ": " +:+ err) ;;
                initializeClients_range h kubeconfig rest s
            | inr clientset =>
                initializeClients_range h kubeconfig rest
                  (mk (<[Models.ClusterConfig.Name clusterCfg := clientset]> (clients s))
                      (configs s) (configPath s))
            end
        end
  end.

(** initializeClients creates clients for each configured cluster; it
    always returns a nil error. *)
Definition initializeClients (h : Host.t) (s : t) : M (t * option Go.error) :=
  let kubeconfig := Host.Getenv h "KUBECONFIG" in
  let kubeconfig :=
    if String.eqb kubeconfig EmptyString
    then Host.filepath_Join h [Host.UserHomeDir h; ".kube"; "config"]
    else kubeconfig in
  s' <- initializeClients_range h kubeconfig (configs s) s ;;
  ret (s', None).

(** NewKubernetesService creates a new Kubernetes service: [inl err] is
    the Go result [(nil, err)]. *)
Definition NewKubernetesService (h : Host.t) (configPath : string) : M (Go.result t) :=
  let svc := mk ∅ [] configPath in
  match loadConfigs h svc with
  | (_, Some err) => ret (inl (Go.Errorf "failed to load cluster configs: " err))
  | (svc, None) =>
      '(svc, err) <- initializeClients h svc ;;
      match err with
      | Some err => ret (inl (Go.Errorf "failed to initialize clients: " err))
      | None => ret (inr svc)
      end
  end.

(** ** Helper functions *)

Fixpoint getNodeStatus_range (conditions : list Corev1.NodeCondition.t) : string :=
  match conditions with
  | [] => "Unknown"
  | condition :: rest =>
      if String.eqb (Corev1.NodeCondition.Type_ condition) Corev1.NodeReady then
        if String.eqb (Corev1.NodeCondition.Status condition) Corev1.ConditionTrue
        then "Ready"
        else "NotReady"
      else getNodeStatus_range rest
  end.

Definition getNodeStatus (node : Corev1.Node.t) : string :=
  getNodeStatus_range (Corev1.Node.Conditions node).

Definition role_prefix : string := "node-role.kubernetes.io/".

(** The loop of [getNodeRoles] over the label keys in the order in which
    [range] happens to deliver them. *)
Fixpoint getNodeRoles_range (labels : list (string * string)) (roles : list string)
  : list string :=
  match labels with
  | [] => roles
  | (label, _) :: rest =>
      if Strings.HasPrefix label role_prefix then
        let role := Strings.TrimPrefix label role_prefix in
        if negb (String.eqb role EmptyString)
        then getNodeRoles_range rest (roles ++ [role])
        else getNodeRoles_range rest roles
      else getNodeRoles_range rest roles
  end.

(** [getNodeRoles] for one delivery order of the label map.  Go does not
    fix the order of [range] over a map: every permutation of the
    entries is a possible [order]. *)
Definition getNodeRoles_in (order : list (string * string)) : list string :=
  let roles := getNodeRoles_range order [] in
  if (Z.of_nat (length roles) =? 0) then roles ++ ["worker"] else roles.

Definition getNodeRoles (node : Corev1.Node.t) : list string :=
  getNodeRoles_in (map_to_list (Corev1.Node.Labels node)).

(** The body of [formatAge] once [time.Since(t)] has been read. *)
Definition formatAge_since (duration : Time.Duration) : string :=
  if Go.fgt (Time.Hours duration) (Go.float64_of_int 24) then
    let days := Go.int_of_float64 (Go.fdiv (Time.Hours duration) (Go.float64_of_int 24)) in
    Go.itoa days +:+ "d"
  else if Go.fge (Time.Hours duration) (Go.float64_of_int 1) then
    Go.itoa (Go.int_of_float64 (Time.Hours duration)) +:+ "h"
  else if Go.fge (Time.Minutes duration) (Go.float64_of_int 1) then
    Go.itoa (Go.int_of_float64 (Time.Minutes duration)) +:+ "m"
  else
    Go.itoa (Go.int_of_float64 (Time.Seconds duration)) +:+ "s".

Definition formatAge (t : Time.Time) : M string :=
  duration <- time_Since t ;;
  ret (formatAge_since duration).

(** ** Inventory *)

Fixpoint GetNodes_range (items : list Corev1.Node.t) (nodes : list Models.Node.t)
  : M (list Models.Node.t) :=
  match items with
  | [] => ret nodes
  | n :: rest =>
      age <- formatAge (Corev1.Node.CreationTimestamp n) ;;
      let node :=
        Models.Node.mk (Corev1.Node.Name n) (getNodeStatus n) Go.fzero Go.fzero 0
                       (getNodeRoles n) age (Corev1.Node.KubeletVersion n) in
      GetNodes_range rest (nodes ++ [node])
  end.

(** GetNodes returns all nodes for a cluster. *)
Definition GetNodes (s : t) (clusterName : string) : M (Go.result (list Models.Node.t)) :=
  match GetClient s clusterName with
  | None => ret (inl ("cluster " +:+ clusterName +:+ " not found"))
  | Some client =>
      match Clientset.Nodes_List client with
      | inl err => ret (inl err)
      | inr items =>
          nodes <- GetNodes_range items [] ;;
          ret (inr nodes)
      end
  end.

Fixpoint restarts_range (statuses : list Corev1.ContainerStatus.t) (restarts : Z) : Z :=
  match statuses with
  | [] => restarts
  | cs :: rest =>
      restarts_range rest (Go.wrap (restarts + Corev1.ContainerStatus.RestartCount cs))
  end.

Fixpoint GetPods_range (items : list Corev1.Pod.t) (pods : list Models.Pod.t)
  : M (list Models.Pod.t) :=
  match items with
  | [] => ret pods
  | p :: rest =>
      let restarts := restarts_range (Corev1.Pod.ContainerStatuses p) 0 in
      age <- formatAge (Corev1.Pod.CreationTimestamp p) ;;
      let pod :=
        Models.Pod.mk (Corev1.Pod.Name p) (Corev1.Pod.Namespace p) (Corev1.Pod.Phase p)
                      restarts age (Corev1.Pod.NodeName p) Go.fzero Go.fzero in
      GetPods_range rest (pods ++ [pod])
  end.

(** GetPods returns all pods for a cluster (optionally filtered by
    namespace). *)
Definition GetPods (s : t) (clusterName namespace : string)
  : M (Go.result (list Models.Pod.t)) :=
  match GetClient s clusterName with
  | None => ret (inl ("cluster " +:+ clusterName +:+ " not found"))
  | Some client =>
      let namespace :=
        if String.eqb namespace EmptyString then Corev1.NamespaceAll else namespace in
      match Clientset.Pods_List client namespace with
      | inl err => ret (inl err)
      | inr items =>
          pods <- GetPods_range items [] ;;
          ret (inr pods)
      end
  end.

(** The counters of [GetPodSummary], in the order of its results. *)
Definition counts : Type := (Z * Z * Z * Z)%type.

Fixpoint GetPodSummary_range (pods : list Models.Pod.t) (c : counts) : counts :=
  match pods with
  | [] => c
  | pod :: rest =>
      let '(running, pending, failed, total) := c in
      let '(running, pending, failed) :=
        if String.eqb (Models.Pod.Status pod) "Running" then (Go.incr running, pending, failed)
        else if String.eqb (Models.Pod.Status pod) "Pending" then (running, Go.incr pending, failed)
        else if String.eqb (Models.Pod.Status pod) "Failed" then (running, pending, Go.incr failed)
        else (running, pending, failed) in
      GetPodSummary_range rest (running, pending, failed, Go.incr total)
  end.

(** GetPodSummary returns pod counts by status:
    (running, pending, failed, total, err). *)
Definition GetPodSummary (s : t) (clusterName : string) : M (counts * option Go.error) :=
  r <- GetPods s clusterName EmptyString ;;
  match r with
  | inl err => ret ((0, 0, 0, 0), Some err)
  | inr pods => ret (GetPodSummary_range pods (0, 0, 0, 0), None)
  end.

(** GetNodeCount returns the number of nodes in a cluster. *)
Definition GetNodeCount (s : t) (clusterName : string) : M (Go.result Z) :=
  r <- GetNodes s clusterName ;;
  match r with
  | inl err => ret (inl err)
  | inr nodes => ret (inr (Z.of_nat (length nodes)))
  end.

Section Probe.

(** [client.CoreV1().Nodes().List(ctx, metav1.ListOptions{Limit: 1})]
    under the five-second timeout of CheckConnectivity: the error of
    that request, if any.  It is a request of its own, so its outcome is
    not tied to that of the full listing. *)
Variable Nodes_List_limit1 : Clientset.t -> option Go.error.

(** CheckConnectivity verifies if a cluster is reachable. *)
Definition CheckConnectivity (s : t) (clusterName : string) : bool :=
  match GetClient s clusterName with
  | None => false
  | Some client =>
      match Nodes_List_limit1 client with
      | None => true
      | Some _ => false
      end
  end.

End Probe.

End KubernetesService.

(* ===================================================================== *)
(** * internal/services/prometheus.go *)
(* ===================================================================== *)

Module PrometheusService.

(** One element of [data.result]. *)
Module Sample.
Record t : Type := mk {
  Metric : gmap string string;
  Value : list Go.any
}.
End Sample.

(** PrometheusResult represents a Prometheus query result. *)
Module PrometheusResult.
Record t : Type := mk {
  Status : string;
  ResultType : string;
  Result : list Sample.t
}.
End PrometheusResult.

(** What comes of the GET that [Query] sends: the request cannot be
    built, the transport fails, the body cannot be read, the body is not
    the expected JSON, or a result is decoded. *)
Inductive Reply : Type :=
| RequestError (err : Go.error)
| TransportError (err : Go.error)
| ReadError (err : Go.error)
| JSONError (err : Go.error)
| Decoded (result : PrometheusResult.t).

(** PrometheusService handles querying Prometheus for metrics.
    [httpClient endpoint query] is the reply to
    [GET endpoint?query=<query>]. *)
Record t : Type := mk {
  httpClient : string -> string -> Reply
}.

(** Query executes a PromQL query against the given endpoint. *)
Definition Query (s : t) (prometheusURL query : string) : Go.result PrometheusResult.t :=
  let endpoint := prometheusURL +:+ "/api/v1/query" in
  match httpClient s endpoint query with
  | RequestError err => inl (Go.Errorf "failed to create request: " err)
  | TransportError err => inl (Go.Errorf "failed to query Prometheus: " err)
  | ReadError err => inl (Go.Errorf "failed to read response: " err)
  | JSONError err => inl (Go.Errorf "failed to parse response: " err)
  | Decoded result =>
      if negb (String.eqb (PrometheusResult.Status result) "success")
      then inl ("Prometheus query failed: " +:+ PrometheusResult.Status result)
      else inr result
  end.

(** CheckConnectivity checks if Prometheus is reachable. *)
Definition CheckConnectivity (s : t) (prometheusURL : string) : bool :=
  match Query s prometheusURL "up" with
  | inl _ => false
  | inr _ => true
  end.

Section Extraction.

(** [fmt.Sscanf(str, "%f", &value)]: the float scanned at the head of
    [str], or the scanning error.  It is a function of package fmt and
    stays a parameter. *)
Variable Sscanf_f : string -> Go.result Go.float64.

(** extractFirstValue extracts the first numeric value from a
    Prometheus result: [(value, err)]. *)
Definition extractFirstValue (result : PrometheusResult.t) : Go.float64 * option Go.error :=
  match PrometheusResult.Result result with
  | [] => (Go.fzero, None)
  | first :: _ =>
      if Z.of_nat (length (Sample.Value first)) <? 2 then
        (Go.fzero, Some "unexpected result format")
      else
        match nth_error (Sample.Value first) 1 with
        | None => (Go.fzero, Some "unexpected result format")
        | Some v =>
            match Go.as_string v with
            | None => (Go.fzero, Some "unexpected value type")
            | Some valueStr =>
                match Sscanf_f valueStr with
                | inl err => (Go.fzero, Some (Go.Errorf "failed to parse value: " err))
                | inr value => (value, None)
                end
            end
        end
  end.

Definition cpu_query : string :=
  "100 - (avg(irate(node_cpu_seconds_total{mode=" +:+ Go.dquote +:+ "idle"
    +:+ Go.dquote +:+ "}[5m])) * 100)".

Definition memory_query : string :=
  "100 * (1 - sum(node_memory_MemAvailable_bytes) / sum(node_memory_MemTotal_bytes))".

(** GetCPUUsage returns the cluster CPU usage percentage. *)
Definition GetCPUUsage (s : t) (prometheusURL : string) : Go.float64 * option Go.error :=
  match Query s prometheusURL cpu_query with
  | inl err => (Go.fzero, Some err)
  | inr result => extractFirstValue result
  end.

(** GetMemoryUsage returns the cluster memory usage percentage. *)
Definition GetMemoryUsage (s : t) (prometheusURL : string) : Go.float64 * option Go.error :=
  match Query s prometheusURL memory_query with
  | inl err => (Go.fzero, Some err)
  | inr result => extractFirstValue result
  end.

Definition pod_cpu_query (namespace podName : string) : string :=
  "sum(rate(container_cpu_usage_seconds_total{namespace=" +:+ Go.dquote +:+ namespace
    +:+ Go.dquote +:+ ",pod=" +:+ Go.dquote +:+ podName +:+ Go.dquote +:+ "}[5m])) * 100".

Definition pod_memory_query (namespace podName : string) : string :=
  "sum(container_memory_working_set_bytes{namespace=" +:+ Go.dquote +:+ namespace
    +:+ Go.dquote +:+ ",pod=" +:+ Go.dquote +:+ podName +:+ Go.dquote +:+ "})".

Definition node_cpu_query (nodeName : string) : string :=
  "100 - (avg(irate(node_cpu_seconds_total{mode=" +:+ Go.dquote +:+ "idle" +:+ Go.dquote
    +:+ ",instance=~" +:+ Go.dquote +:+ nodeName +:+ ".*" +:+ Go.dquote
    +:+ "}[5m])) * 100)".

Definition node_memory_query (nodeName : string) : string :=
  "100 * (1 - node_memory_MemAvailable_bytes{instance=~" +:+ Go.dquote +:+ nodeName +:+ ".*"
    +:+ Go.dquote +:+ "} / node_memory_MemTotal_bytes{instance=~" +:+ Go.dquote
    +:+ nodeName +:+ ".*" +:+ Go.dquote +:+ "})".

(** GetPodCPUUsage returns CPU usage for a specific pod. *)
Definition GetPodCPUUsage (s : t) (prometheusURL namespace podName : string)
  : Go.float64 * option Go.error :=
  match Query s prometheusURL (pod_cpu_query namespace podName) with
  | inl err => (Go.fzero, Some err)
  | inr result => extractFirstValue result
  end.

(** GetPodMemoryUsage returns memory usage for a specific pod in bytes. *)
Definition GetPodMemoryUsage (s : t) (prometheusURL namespace podName : string)
  : Go.float64 * option Go.error :=
  match Query s prometheusURL (pod_memory_query namespace podName) with
  | inl err => (Go.fzero, Some err)
  | inr result => extractFirstValue result
  end.

(** GetNodeCPUUsage returns CPU usage for a specific node. *)
Definition GetNodeCPUUsage (s : t) (prometheusURL nodeName : string)
  : Go.float64 * option Go.error :=
  match Query s prometheusURL (node_cpu_query nodeName) with
  | inl err => (Go.fzero, Some err)
  | inr result => extractFirstValue result
  end.

(** GetNodeMemoryUsage returns memory usage for a specific node. *)
Definition GetNodeMemoryUsage (s : t) (prometheusURL nodeName : string)
  : Go.float64 * option Go.error :=
  match Query s prometheusURL (node_memory_query nodeName) with
  | inl err => (Go.fzero, Some err)
  | inr result => extractFirstValue result
  end.

End Extraction.

End PrometheusService.

(* ===================================================================== *)
(** * internal/store: MetricsStore over gorm and SQLite *)
(* ===================================================================== *)

Module Store.

Import Models.

(** MetricsStore handles database operations for metrics and alerts.
    The handle names the database file; the tables live in the world. *)
Record MetricsStore : Type := mk { dbPath : string }.

(** ** The statements gorm builds *)

(** Rows compared by their timestamp column, for [ORDER BY timestamp]. *)
Definition snapshot_asc (x y : MetricSnapshot.t) : Prop :=
  MetricSnapshot.Timestamp x <= MetricSnapshot.Timestamp y.
Definition alert_desc (x y : Alert.t) : Prop :=
  Alert.Timestamp y <= Alert.Timestamp x.

#[export] Instance snapshot_asc_dec : RelDecision snapshot_asc.
Proof. intros x y. unfold snapshot_asc. apply Z.le_dec. Defined.

#[export] Instance alert_desc_dec : RelDecision alert_desc.
Proof. intros x y. unfold alert_desc. apply Z.le_dec. Defined.

(** [db.Create(row)].  A zero primary key is replaced by the next row id
    of the table; a given one is kept, and the insert fails when a row
    already carries it. *)
Definition create_snapshot (row : MetricSnapshot.t) (d : Gorm.DB)
  : Go.result (MetricSnapshot.t * Gorm.DB) :=
  if MetricSnapshot.ID row =? 0 then
    let id := Gorm.metric_snapshots_seq d + 1 in
    let row' := MetricSnapshot.with_ID id row in
    inr (row', Gorm.mk (Gorm.metric_snapshots d ++ [row']) (Gorm.alerts d)
                       id (Gorm.alerts_seq d))
  else if existsb (fun r => MetricSnapshot.ID r =? MetricSnapshot.ID row) (Gorm.metric_snapshots d) then
    inl "UNIQUE constraint failed: metric_snapshots.id"
  else
    inr (row, Gorm.mk (Gorm.metric_snapshots d ++ [row]) (Gorm.alerts d)
                      (Z.max (Gorm.metric_snapshots_seq d) (MetricSnapshot.ID row))
                      (Gorm.alerts_seq d)).

Definition create_alert (row : Alert.t) (d : Gorm.DB) : Go.result (Alert.t * Gorm.DB) :=
  if Alert.ID row =? 0 then
    let id := Gorm.alerts_seq d + 1 in
    let row' := Alert.with_ID id row in
    inr (row', Gorm.mk (Gorm.metric_snapshots d) (Gorm.alerts d ++ [row'])
                       (Gorm.metric_snapshots_seq d) id)
  else if existsb (fun r => Alert.ID r =? Alert.ID row) (Gorm.alerts d) then
    inl "UNIQUE constraint failed: alerts.id"
  else
    inr (row, Gorm.mk (Gorm.metric_snapshots d) (Gorm.alerts d ++ [row])
                      (Gorm.metric_snapshots_seq d)
                      (Z.max (Gorm.alerts_seq d) (Alert.ID row))).

(** [Where("cluster = ? AND timestamp > ?", cluster, cutoff).Order("timestamp ASC").Find] *)
Definition select_snapshots (cluster : string) (cutoff : Time.Time) (d : Gorm.DB)
  : list MetricSnapshot.t :=
  merge_sort snapshot_asc
    (filter (fun r => MetricSnapshot.Cluster r = cluster /\ cutoff < MetricSnapshot.Timestamp r)
            (Gorm.metric_snapshots d)).

(** [Where("timestamp < ?", cutoff).Delete(&models.MetricSnapshot{})] *)
Definition delete_snapshots (cutoff : Time.Time) (d : Gorm.DB) : Gorm.DB :=
  Gorm.mk (filter (fun r => ~ MetricSnapshot.Timestamp r < cutoff) (Gorm.metric_snapshots d))
          (Gorm.alerts d) (Gorm.metric_snapshots_seq d) (Gorm.alerts_seq d).

(** [Where("resolved = ?", false).Order("timestamp DESC").Find] *)
Definition select_active_alerts (d : Gorm.DB) : list Alert.t :=
  merge_sort alert_desc (filter (fun r => Alert.Resolved r = false) (Gorm.alerts d)).

(** [Model(&models.Alert{}).Where("id = ?", id).Update("resolved", true)] *)
Definition update_resolved (id : Z) (d : Gorm.DB) : Gorm.DB :=
  Gorm.mk (Gorm.metric_snapshots d)
          (map (fun r => if Alert.ID r =? id then Alert.with_Resolved true r else r)
               (Gorm.alerts d))
          (Gorm.metric_snapshots_seq d) (Gorm.alerts_seq d).

(** ** The methods of the store *)

(** SaveSnapshot saves a metrics snapshot.  The snapshot is passed by
    pointer: the first component of the result is what the caller sees
    in it afterwards. *)
Definition SaveSnapshot (s : MetricsStore) (snapshot : MetricSnapshot.t)
  : M (MetricSnapshot.t * option Go.error) :=
  now <- time_Now ;;
  let snapshot := MetricSnapshot.with_Timestamp now snapshot in
  db_exec (create_snapshot snapshot) snapshot.

(** GetSnapshots retrieves snapshots for a cluster within a time range. *)
Definition GetSnapshots (s : MetricsStore) (cluster : string) (since : Time.Duration)
  : M (list MetricSnapshot.t * option Go.error) :=
  now <- time_Now ;;
  let cutoff := Time.Add now (Go.neg since) in
  db_exec (fun d => inr (select_snapshots cluster cutoff d, d)) [].

(** CleanupOldSnapshots removes snapshots older than the specified
    duration. *)
Definition CleanupOldSnapshots (s : MetricsStore) (olderThan : Time.Duration)
  : M (option Go.error) :=
  now <- time_Now ;;
  let cutoff := Time.Add now (Go.neg olderThan) in
  '(_, err) <- db_exec (fun d => inr (tt, delete_snapshots cutoff d)) tt ;;
  ret err.

(** SaveAlert saves a new alert. *)
Definition SaveAlert (s : MetricsStore) (alert : Alert.t) : M (Alert.t * option Go.error) :=
  now <- time_Now ;;
  let alert := Alert.with_Timestamp now alert in
  db_exec (create_alert alert) alert.

(** GetActiveAlerts retrieves all unresolved alerts. *)
Definition GetActiveAlerts (s : MetricsStore) : M (list Alert.t * option Go.error) :=
  db_exec (fun d => inr (select_active_alerts d, d)) [].

(** ResolveAlert marks an alert as resolved. *)
Definition ResolveAlert (s : MetricsStore) (id : Z) : M (option Go.error) :=
  '(_, err) <- db_exec (fun d => inr (tt, update_resolved id d)) tt ;;
  ret err.


(** [Where("timestamp > ?", cutoff).Order("timestamp DESC").Find] *)
Definition select_recent_alerts (cutoff : Time.Time) (d : Gorm.DB) : list Alert.t :=
  merge_sort alert_desc (filter (fun r => cutoff < Alert.Timestamp r) (Gorm.alerts d)).


(** GetRecentAlerts retrieves alerts from the last n hours.  The cutoff
    is [time.Now().Add(-time.Duration(hours) * time.Hour)]: the negation
    and the product are int64 operations. *)
Definition GetRecentAlerts (s : MetricsStore) (hours : Z)
  : M (list Alert.t * option Go.error) :=
  now <- time_Now ;;
  let cutoff := Time.Add now (Go.wrap (Go.neg hours * Time.Hour)) in
  db_exec (fun d => inr (select_recent_alerts cutoff d, d)) [].

(** NewMetricsStore creates a new metrics store with SQLite. *)
Definition NewMetricsStore (h : Host.t) (path : string) : M (Go.result MetricsStore) :=
  match Host.gorm_Open h path with
  | inl err => ret (inl err)
  | inr d =>
      match Host.AutoMigrate h d with
      | inl err => ret (inl err)
      | inr d' =>
          fun w => (inr (mk path),
                    mkWorld (clock w) (ticks w) (db_fault w) (stmts w) d' (logs w))
      end
  end.

End Store.

(* ===================================================================== *)
(** * internal/handlers: the health tier *)
(* ===================================================================== *)

Module Handlers.

(** Helper function to determine cluster health status. *)
Definition determineClusterStatus (cpuUsage memUsage : Go.float64) (pending failed : Z)
  : string :=
  (* Critical conditions *)
  if Go.fgt cpuUsage (Go.float64_of_int 95) || Go.fgt memUsage (Go.float64_of_int 95)
     || (0 <? failed) then "Critical"
  (* Warning conditions *)
  else if Go.fgt cpuUsage (Go.float64_of_int 80) || Go.fgt memUsage (Go.float64_of_int 80)
     || (5 <? pending) then "Warning"
  else "Healthy".

(** APIHandler handles all API requests.  [k8sService] is [None] for the
    nil pointer that [main] hands over when the Kubernetes service could
    not be initialised. *)
Record APIHandler : Type := mkAPIHandler {
  k8sService : option KubernetesService.t;
  promService : PrometheusService.t;
  store : Store.MetricsStore
}.

(** The objects that the handlers serialise. *)
Inductive Body : Type :=
| ErrorBody (error : string)
| ClustersBody (clusters : list Models.Cluster.t) (count : Z)
| ClusterBody (cluster : Models.Cluster.t)
| ClusterDetailsBody (cluster : Models.Cluster.t) (running pending failed : Z)
| NodesBody (nodes : list Models.Node.t) (count : Z)
| PodsBody (pods : list Models.Pod.t) (count : Z)
| AlertsBody (alerts : list Models.Alert.t) (count : Z)
| SnapshotsBody (snapshots : list Models.MetricSnapshot.t) (count : Z).

(** What a handler does with the request: it answers with [c.JSON(code,
    obj)], or it panics on the nil Kubernetes service (a method of
    KubernetesService reads a field through the nil receiver). *)
Inductive Response : Type :=
| JSON (code : Z) (obj : Body)
| Panic.

Definition StatusOK : Z := 200.
Definition StatusNotFound : Z := 404.
Definition StatusInternalServerError : Z := 500.

Section API.

Variable Sscanf_f : string -> Go.result Go.float64.
Variable Nodes_List_limit1 : Clientset.t -> option Go.error.

(** The loop of GetClusters. *)
Fixpoint GetClusters_range (k8s : KubernetesService.t) (prom : PrometheusService.t)
  (configs : list Models.ClusterConfig.t) (clusters : list Models.Cluster.t)
  : M (list Models.Cluster.t) :=
  match configs with
  | [] => ret clusters
  | cfg :: rest =>
      if negb (Models.ClusterConfig.Enabled cfg) then GetClusters_range k8s prom rest clusters
      else
        lastUpdated <- time_Now ;;
        (* Check connectivity *)
        if negb (KubernetesService.CheckConnectivity Nodes_List_limit1 k8s
                   (Models.ClusterConfig.Name cfg)) then
          let cluster :=
            Models.Cluster.mk (Models.ClusterConfig.Name cfg)
              (Models.ClusterConfig.DisplayName cfg) "Critical" Go.fzero Go.fzero 0 0
              (Models.ClusterConfig.Context cfg) lastUpdated in
          GetClusters_range k8s prom rest (clusters ++ [cluster])
        else
          (* Get node count *)
          r <- KubernetesService.GetNodeCount k8s (Models.ClusterConfig.Name cfg) ;;
          let nodeCount := match r with inr nodeCount => nodeCount | inl _ => 0 end in
          (* Get pod summary *)
          ' (_, pending, failed, total, err) <-
            KubernetesService.GetPodSummary k8s (Models.ClusterConfig.Name cfg) ;;
          let podCount := match err with None => total | Some _ => 0 end in
          (* Get metrics from Prometheus *)
          let '(cpuUsage, memUsage) :=
            if PrometheusService.CheckConnectivity prom (Models.ClusterConfig.PrometheusURL cfg)
            then
              (match PrometheusService.GetCPUUsage Sscanf_f prom
                       (Models.ClusterConfig.PrometheusURL cfg) with
               | (cpu, None) => cpu
               | (_, Some _) => Go.fzero
               end,
               match PrometheusService.GetMemoryUsage Sscanf_f prom
                       (Models.ClusterConfig.PrometheusURL cfg) with
               | (mem, None) => mem
               | (_, Some _) => Go.fzero
               end)
            else (Go.fzero, Go.fzero) in
          (* Determine health status *)
          let cluster :=
            Models.Cluster.mk (Models.ClusterConfig.Name cfg)
              (Models.ClusterConfig.DisplayName cfg)
              (determineClusterStatus cpuUsage memUsage pending failed)
              cpuUsage memUsage nodeCount podCount
              (Models.ClusterConfig.Context cfg) lastUpdated in
          GetClusters_range k8s prom rest (clusters ++ [cluster])
  end.

(** GetClusters returns all clusters with their health status. *)
Definition GetClusters (h : APIHandler) : M Response :=
  match k8sService h with
  | None => ret Panic
  | Some k8s =>
      clusters <- GetClusters_range k8s (promService h) (KubernetesService.GetConfigs k8s) [] ;;
      ret (JSON StatusOK (ClustersBody clusters (Z.of_nat (length clusters))))
  end.

(** The first configuration with the given name. *)
Fixpoint find_config (configs : list Models.ClusterConfig.t) (clusterName : string)
  : option Models.ClusterConfig.t :=
  match configs with
  | [] => None
  | clusterCfg :: rest =>
      if String.eqb (Models.ClusterConfig.Name clusterCfg) clusterName then Some clusterCfg
      else find_config rest clusterName
  end.

(** GetClusterDetails returns detailed info for a specific cluster;
    [clusterName] is [c.Param("name")]. *)
Definition GetClusterDetails (h : APIHandler) (clusterName : string) : M Response :=
  match k8sService h with
  | None => ret Panic
  | Some k8s =>
      (* Find cluster config *)
      match find_config (KubernetesService.GetConfigs k8s) clusterName with
      | None => ret (JSON StatusNotFound (ErrorBody "cluster not found"))
      | Some cfg =>
          lastUpdated <- time_Now ;;
          (* Check connectivity *)
          if negb (KubernetesService.CheckConnectivity Nodes_List_limit1 k8s
                     (Models.ClusterConfig.Name cfg)) then
            ret (JSON StatusOK
                   (ClusterBody
                      (Models.Cluster.mk (Models.ClusterConfig.Name cfg)
                         (Models.ClusterConfig.DisplayName cfg) "Critical" Go.fzero Go.fzero
                         0 0 (Models.ClusterConfig.Context cfg) lastUpdated)))
          else
            (* Get detailed metrics *)
            r <- KubernetesService.GetNodeCount k8s (Models.ClusterConfig.Name cfg) ;;
            let nodeCount := match r with inr nodeCount => nodeCount | inl _ => 0 end in
            ' (running, pending, failed, total, _) <-
              KubernetesService.GetPodSummary k8s (Models.ClusterConfig.Name cfg) ;;
            let '(cpuUsage, memUsage) :=
              if PrometheusService.CheckConnectivity (promService h)
                   (Models.ClusterConfig.PrometheusURL cfg)
              then
                ((PrometheusService.GetCPUUsage Sscanf_f (promService h)
                    (Models.ClusterConfig.PrometheusURL cfg)).1,
                 (PrometheusService.GetMemoryUsage Sscanf_f (promService h)
                    (Models.ClusterConfig.PrometheusURL cfg)).1)
              else (Go.fzero, Go.fzero) in
            ret (JSON StatusOK
                   (ClusterDetailsBody
                      (Models.Cluster.mk (Models.ClusterConfig.Name cfg)
                         (Models.ClusterConfig.DisplayName cfg)
                         (determineClusterStatus cpuUsage memUsage pending failed)
                         cpuUsage memUsage nodeCount total
                         (Models.ClusterConfig.Context cfg) lastUpdated)
                      running pending failed))
      end
  end.

(** The Prometheus URL of the first configuration with the given name,
    empty when there is none. *)
Definition find_promURL (configs : list Models.ClusterConfig.t) (clusterName : string)
  : string :=
  match find_config configs clusterName with
  | Some cfg => Models.ClusterConfig.PrometheusURL cfg
  | None => EmptyString
  end.

(** GetClusterNodes returns nodes for a specific cluster. *)
Definition GetClusterNodes (h : APIHandler) (clusterName : string) : M Response :=
  match k8sService h with
  | None => ret Panic
  | Some k8s =>
      r <- KubernetesService.GetNodes k8s clusterName ;;
      match r with
      | inl err => ret (JSON StatusInternalServerError (ErrorBody err))
      | inr nodes =>
          (* Find cluster config for Prometheus URL *)
          let promURL := find_promURL (KubernetesService.GetConfigs k8s) clusterName in
          (* Enrich with metrics if Prometheus is available *)
          let nodes :=
            if negb (String.eqb promURL EmptyString)
               && PrometheusService.CheckConnectivity (promService h) promURL
            then
              map (fun node =>
                     Models.Node.mk (Models.Node.Name node) (Models.Node.Status node)
                       (PrometheusService.GetNodeCPUUsage Sscanf_f (promService h) promURL
                          (Models.Node.Name node)).1
                       (PrometheusService.GetNodeMemoryUsage Sscanf_f (promService h) promURL
                          (Models.Node.Name node)).1
                       (Models.Node.PodCount node) (Models.Node.Roles node)
                       (Models.Node.Age node) (Models.Node.Version node))
                  nodes
            else nodes in
          ret (JSON StatusOK (NodesBody nodes (Z.of_nat (length nodes))))
      end
  end.

(** GetClusterPods returns pods for a specific cluster; [namespace] is
    [c.Query("namespace")]. *)
Definition GetClusterPods (h : APIHandler) (clusterName namespace : string) : M Response :=
  match k8sService h with
  | None => ret Panic
  | Some k8s =>
      r <- KubernetesService.GetPods k8s clusterName namespace ;;
      match r with
      | inl err => ret (JSON StatusInternalServerError (ErrorBody err))
      | inr pods => ret (JSON StatusOK (PodsBody pods (Z.of_nat (length pods))))
      end
  end.

(** GetAlerts returns active alerts. *)
Definition GetAlerts (h : APIHandler) : M Response :=
  ' (alerts, err) <- Store.GetActiveAlerts (store h) ;;
  match err with
  | Some err => ret (JSON StatusInternalServerError (ErrorBody err))
  | None => ret (JSON StatusOK (AlertsBody alerts (Z.of_nat (length alerts))))
  end.

(** GetClusterHistory returns historical metrics for a cluster. *)
Definition GetClusterHistory (h : APIHandler) (clusterName : string) : M Response :=
  ' (snapshots, err) <- Store.GetSnapshots (store h) clusterName (24 * Time.Hour) ;;
  match err with
  | Some err => ret (JSON StatusInternalServerError (ErrorBody err))
  | None => ret (JSON StatusOK (SnapshotsBody snapshots (Z.of_nat (length snapshots))))
  end.

End API.

End Handlers.

(* ===================================================================== *)
(** * cmd/server/main.go *)
(* ===================================================================== *)

Module Server.

Import Models.

(** [if err := call; err != nil { log.Printf(msg, err) }] *)
Definition log_if_err {A : Type} (call : M (A * option Go.error)) (msg : string) : M A :=
  '(a, err) <- call ;;
  match err with
  | Some err => Printf (msg +:+ err) ;; ret a
  | None => ret a
  end.

Definition getEnv (h : Host.t) (key defaultVal : string) : string :=
  let val := Host.Getenv h key in
  if negb (String.eqb val EmptyString) then val else defaultVal.

Section Collector.

(** Package fmt: the scanner behind [extractFirstValue] and the verb
    [%.1f] of the alert messages. *)
Variable Sscanf_f : string -> Go.result Go.float64.
Variable Sprintf_1f : Go.float64 -> string.

(** checkAndCreateAlerts creates alerts when thresholds are breached. *)
Definition checkAndCreateAlerts (metricsStore : Store.MetricsStore) (cluster : string)
  (cpuUsage memUsage : Go.float64) (failedPods : Z) : M unit :=
  (* CPU alerts *)
  (if Go.fgt cpuUsage (Go.float64_of_int 95) then
     let alert := Alert.mk 0 cluster "Critical"
                    ("CPU usage is critically high at " +:+ Sprintf_1f cpuUsage +:+ "%")
                    0 false in
     log_if_err (Store.SaveAlert metricsStore alert) "Failed to save CPU critical alert: " ;;
     ret tt
   else if Go.fgt cpuUsage (Go.float64_of_int 80) then
     let alert := Alert.mk 0 cluster "Warning"
                    ("CPU usage is elevated at " +:+ Sprintf_1f cpuUsage +:+ "%")
                    0 false in
     log_if_err (Store.SaveAlert metricsStore alert) "Failed to save CPU warning alert: " ;;
     ret tt
   else ret tt) ;;
  (* Memory alerts *)
  (if Go.fgt memUsage (Go.float64_of_int 95) then
     let alert := Alert.mk 0 cluster "Critical"
                    ("Memory usage is critically high at " +:+ Sprintf_1f memUsage +:+ "%")
                    0 false in
     log_if_err (Store.SaveAlert metricsStore alert) "Failed to save memory critical alert: " ;;
     ret tt
   else if Go.fgt memUsage (Go.float64_of_int 80) then
     let alert := Alert.mk 0 cluster "Warning"
                    ("Memory usage is elevated at " +:+ Sprintf_1f memUsage +:+ "%")
                    0 false in
     log_if_err (Store.SaveAlert metricsStore alert) "Failed to save memory warning alert: " ;;
     ret tt
   else ret tt) ;;
  (* Failed pods alert *)
  (if 0 <? failedPods then
     let alert := Alert.mk 0 cluster "Warning"
                    (Go.itoa failedPods +:+ " pod(s) in failed state")
                    0 false in
     log_if_err (Store.SaveAlert metricsStore alert) "Failed to save pod failure alert: " ;;
     ret tt
   else ret tt).

(** The body of the loop of [collectMetrics] for one configuration. *)
Definition collectMetrics_body (k8s : KubernetesService.t) (prom : PrometheusService.t)
  (metricsStore : Store.MetricsStore) (cfg : ClusterConfig.t) : M unit :=
  if negb (ClusterConfig.Enabled cfg) then ret tt (* continue *)
  else
    let snapshot := MetricSnapshot.mk 0 (ClusterConfig.Name cfg) Go.fzero Go.fzero 0 0 0 in
    let failed := 0 in
    (* Get node count *)
    r <- KubernetesService.GetNodeCount k8s (ClusterConfig.Name cfg) ;;
    let snapshot :=
      match r with
      | inr nodeCount => MetricSnapshot.with_NodeCount nodeCount snapshot
      | inl _ => snapshot
      end in
    (* Get pod count and failed pods *)
    r <- KubernetesService.GetPodSummary k8s (ClusterConfig.Name cfg) ;;
    let '(snapshot, failed) :=
      match r with
      | ((_, _, failedPods, podCount), None) =>
          (MetricSnapshot.with_PodCount podCount snapshot, failedPods)
      | (_, Some _) => (snapshot, failed)
      end in
    (* Get CPU/Memory from Prometheus *)
    let snapshot :=
      if PrometheusService.CheckConnectivity prom (ClusterConfig.PrometheusURL cfg) then
        let snapshot :=
          match PrometheusService.GetCPUUsage Sscanf_f prom (ClusterConfig.PrometheusURL cfg) with
          | (cpu, None) => MetricSnapshot.with_CPUUsage cpu snapshot
          | (_, Some _) => snapshot
          end in
        match PrometheusService.GetMemoryUsage Sscanf_f prom (ClusterConfig.PrometheusURL cfg) with
        | (mem, None) => MetricSnapshot.with_MemoryUsage mem snapshot
        | (_, Some _) => snapshot
        end
      else snapshot in
    snapshot <- log_if_err (Store.SaveSnapshot metricsStore snapshot)
                  ("Failed to save snapshot for " +:+ ClusterConfig.Name cfg +:+ ": ") ;;
    (* Generate alerts based on thresholds *)
    checkAndCreateAlerts metricsStore (ClusterConfig.Name cfg)
      (MetricSnapshot.CPUUsage snapshot) (MetricSnapshot.MemoryUsage snapshot) failed.

(** collectMetrics gathers current metrics and stores them.  [k8s] is
    [None] for the nil service that [main] passes on when the
    Kubernetes service could not be initialised. *)
Definition collectMetrics (k8s : option KubernetesService.t) (prom : PrometheusService.t)
  (metricsStore : Store.MetricsStore) : M unit :=
  match k8s with
  | None => ret tt
  | Some k8s =>
      for_range (KubernetesService.GetConfigs k8s)
                (collectMetrics_body k8s prom metricsStore)
  end.

(** The two tickers of [startMetricsCollector]. *)
Inductive Tick : Type := ticker | cleanupTicker.

(** startMetricsCollector periodically collects and stores metrics:
    the [for { select { ... } }] loop, run on the ticks that arrive. *)
Fixpoint startMetricsCollector (k8s : option KubernetesService.t)
  (prom : PrometheusService.t) (store : Store.MetricsStore) (ticks : list Tick) : M unit :=
  match ticks with
  | [] => ret tt
  | ticker :: rest =>
      collectMetrics k8s prom store ;;
      startMetricsCollector k8s prom store rest
  | cleanupTicker :: rest =>
      log_if_err (err <- Store.CleanupOldSnapshots store (24 * Time.Hour) ;; ret (tt, err))
                 "Failed to cleanup old snapshots: " ;;
      startMetricsCollector k8s prom store rest
  end.

End Collector.

(** How the start of [main] ends: [log.Fatalf] has ended the process
    with status 1, or the services are up and the server is started. *)
Inductive Startup : Type :=
| Exited (status : Z)
| Serving (k8sService : option KubernetesService.t) (metricsStore : Store.MetricsStore).

(** [main], from its first line to the point where the router is set up. *)
Definition main (h : Host.t) : M Startup :=
  (* Configuration *)
  let port := getEnv h "PORT" "8080" in
  let configPath := getEnv h "CLUSTER_CONFIG" "k8s-configs/clusters.yaml" in
  let dbPath := getEnv h "DB_PATH" "data/metrics.db" in
  (* Ensure data directory exists *)
  match Host.MkdirAll h (Host.filepath_Dir h dbPath) with
  | Some err =>
      Printf ("Failed to create data directory: " +:+ err) ;;
      ret (Exited 1)
  | None =>
      (* Initialize services *)
      Printf "Initializing Kubernetes service..." ;;
      r <- KubernetesService.NewKubernetesService h configPath ;;
      k8sService <-
        match r with
        | inl err =>
            Printf ("Warning: Kubernetes service initialization failed: " +:+ err) ;;
            Printf "Dashboard will run with limited functionality" ;;
            ret None
        | inr svc => ret (Some svc)
        end ;;
      Printf "Initializing Prometheus service..." ;;
      Printf "Initializing metrics store..." ;;
      r <- Store.NewMetricsStore h dbPath ;;
      match r with
      | inl err =>
          Printf ("Failed to initialize metrics store: " +:+ err) ;;
          ret (Exited 1)
      | inr metricsStore =>
          ret (Serving k8sService metricsStore)
      end
  end.

End Server.

(* ===================================================================== *)
(** * Vocabulary of the properties *)
(* ===================================================================== *)

Section Vocabulary.

Import Models KubernetesService.

(** The critical and the warning condition, as the rule words them. *)
Definition critical_condition (cpu mem : Go.float64) (failed : Z) : Prop :=
  Go.fgt cpu (Go.float64_of_int 95) = true \/ Go.fgt mem (Go.float64_of_int 95) = true
  \/ 0 < failed.

Definition warning_condition (cpu mem : Go.float64) (pending : Z) : Prop :=
  Go.fgt cpu (Go.float64_of_int 80) = true \/ Go.fgt mem (Go.float64_of_int 80) = true
  \/ 5 < pending.

(** The float64 nearest to 42.5 (it is exact): 85 * 2^-1. *)
Definition f42_5 : Go.float64 :=
  Go.fdiv (Go.float64_of_int 425) (Go.float64_of_int 10).

(** A scanner for the examples: it reads a plain decimal numeral
    (digits, optionally a point and more digits) and fails on anything
    else.  The properties below hold for every scanner. *)
Fixpoint scan_digits (s : string) (acc : Z) (n : nat) : option (Z * nat * string) :=
  match s with
  | String c rest =>
      let d := Z.of_nat (nat_of_ascii c) - 48 in
      if (0 <=? d) && (d <=? 9) then scan_digits rest (10 * acc + d) (S n)
      else Some (acc, n, s)
  | EmptyString => Some (acc, n, s)
  end.

Definition scan_decimal (s : string) : Go.result Go.float64 :=
  match scan_digits s 0 0 with
  | Some (i, S _, String "."%char frac) =>
      match scan_digits frac i 0 with
      | Some (m, k, _) =>
          inr (Go.fdiv (Go.float64_of_int m) (Go.float64_of_int (10 ^ Z.of_nat k)))
      | None => inl "expected integer"
      end
  | Some (i, S _, _) => inr (Go.float64_of_int i)
  | _ => inl "expected integer"
  end.

(** The phases that have a counter of their own. *)
Definition counted (pod : Models.Pod.t) : bool :=
  String.eqb (Models.Pod.Status pod) "Running"
  || String.eqb (Models.Pod.Status pod) "Pending"
  || String.eqb (Models.Pod.Status pod) "Failed".

(** The role that one label key contributes, if any. *)
Definition role_of_label (label : string) : option string :=
  if Strings.HasPrefix label role_prefix then
    let role := Strings.TrimPrefix label role_prefix in
    if negb (String.eqb role EmptyString) then Some role else None
  else None.

(** What the node's labels say about a role [r]: [r] is the non-empty
    rest of a label key that starts with the role prefix. *)
Definition has_role (node : Corev1.Node.t) (r : string) : Prop :=
  r <> EmptyString /\ is_Some (Corev1.Node.Labels node !! (role_prefix +:+ r)).

(** What the update does to one row. *)
Definition resolve_row (id : Z) (r : Alert.t) : Alert.t :=
  if Alert.ID r =? id then Alert.with_Resolved true r else r.

(** The database runs every statement it is sent. *)
Definition db_sound (w : World) : Prop := forall k, db_fault w k = None.

(** From [w] to [w'] the snapshot table has gained the rows [snaps], the
    alert table the rows [als], and the behaviour of the database engine
    is the same. *)
Record grows (w w' : World) (snaps : list Models.MetricSnapshot.t)
  (als : list Models.Alert.t) : Prop := mk_grows {
  grows_fault : db_fault w' = db_fault w;
  grows_snapshots :
    Gorm.metric_snapshots (db w') = Gorm.metric_snapshots (db w) ++ snaps;
  grows_alerts : Gorm.alerts (db w') = Gorm.alerts (db w) ++ als
}.

(** [l] is one new alert with the given columns, unresolved. *)
Definition raised (cluster severity message : string) (l : list Alert.t) : Prop :=
  exists a, l = [a] /\ Alert.Cluster a = cluster /\ Alert.Severity a = severity
            /\ Alert.Message a = message /\ Alert.Resolved a = false.

(** The alerts of one utilisation figure: Critical above 95, otherwise
    Warning above 80, otherwise none. *)
Definition usage_alerts (cluster critical elevated : string) (usage : Go.float64)
  (l : list Alert.t) : Prop :=
  if Go.fgt usage (Go.float64_of_int 95) then raised cluster "Critical" critical l
  else if Go.fgt usage (Go.float64_of_int 80) then raised cluster "Warning" elevated l
  else l = [].

(** From [w] to [w'] nothing but the number of clock readings changed. *)
Definition ticks_only (w w' : World) : Prop :=
  clock w' = clock w /\ db_fault w' = db_fault w /\ stmts w' = stmts w
  /\ db w' = db w /\ logs w' = logs w.

(** What a snapshot written for [cfg] holds: the name of the cluster;
    the node count when the node-count call succeeds and zero when it
    fails; the pod total when the pod-summary call succeeds and zero
    when it fails; zero percentages when the metrics endpoint is not
    reachable. *)
Definition snapshot_of (k8s : KubernetesService.t) (prom : PrometheusService.t)
  (cfg : ClusterConfig.t) (snapshot : MetricSnapshot.t) : Prop :=
  MetricSnapshot.Cluster snapshot = ClusterConfig.Name cfg
  /\ (forall w0,
        match (KubernetesService.GetNodeCount k8s (ClusterConfig.Name cfg) w0).1 with
        | inr nodeCount => MetricSnapshot.NodeCount snapshot = nodeCount
        | inl _ => MetricSnapshot.NodeCount snapshot = 0
        end)
  /\ (forall w0,
        match (KubernetesService.GetPodSummary k8s (ClusterConfig.Name cfg) w0).1 with
        | ((_, _, _, podCount), None) => MetricSnapshot.PodCount snapshot = podCount
        | (_, Some _) => MetricSnapshot.PodCount snapshot = 0
        end)
  /\ (PrometheusService.CheckConnectivity prom (ClusterConfig.PrometheusURL cfg) = false ->
      MetricSnapshot.CPUUsage snapshot = Go.fzero
      /\ MetricSnapshot.MemoryUsage snapshot = Go.fzero).

(** The configuration file can be read and parsed. *)
Definition config_loads (h : Host.t) (configPath : string) : Prop :=
  exists data config,
    Host.ReadFile h configPath = inr data /\ Host.yaml_Unmarshal h data = inr config.

(** The database file can be opened and migrated. *)
Definition store_opens (h : Host.t) (dbPath : string) : Prop :=
  exists d d', Host.gorm_Open h dbPath = inr d /\ Host.AutoMigrate h d = inr d'.

(** An invariant of the tables, possibly relative to how the engine
    answers, kept by a computation whatever world it starts in. *)
Definition preserves {A : Type} (J : (nat -> option Go.error) -> Gorm.DB -> Prop)
  (c : M A) : Prop :=
  forall w, J (db_fault w) (db w) -> J (db_fault (c w).2) (db (c w).2).

(** An invariant kept by the three statements that the collector sends:
    the insert of a snapshot and of an alert with a zero primary key, and
    the delete of old snapshots.  A statement only runs when the engine
    accepts at least one statement. *)
Record collector_inv (J : (nat -> option Go.error) -> Gorm.DB -> Prop) : Prop :=
  mk_collector_inv {
  inv_create_snapshot : forall f d row row' d',
    J f d -> (exists k, f k = None) -> MetricSnapshot.ID row = 0 ->
    Store.create_snapshot row d = inr (row', d') -> J f d';
  inv_create_alert : forall f d row row' d',
    J f d -> (exists k, f k = None) -> Alert.ID row = 0 ->
    Store.create_alert row d = inr (row', d') -> J f d';
  inv_delete_snapshots : forall f d cutoff,
    J f d -> (exists k, f k = None) -> J f (Store.delete_snapshots cutoff d)
}.

(** The keys of one table: the last row id handed out is not negative,
    and the ids of the rows are pairwise distinct, positive and not
    above it. *)
Definition table_keys {A : Type} (key : A -> Z) (rows : list A) (seq : Z) : Prop :=
  0 <= seq /\ NoDup (map key rows) /\ Forall (fun r => 0 < key r <= seq) rows.

(** Primary keys: both tables have well-formed keys. *)
Definition keys_wf (d : Gorm.DB) : Prop :=
  table_keys MetricSnapshot.ID (Gorm.metric_snapshots d) (Gorm.metric_snapshots_seq d)
  /\ table_keys Alert.ID (Gorm.alerts d) (Gorm.alerts_seq d).

(** No condition of the list is of type Ready. *)
Definition no_ready_condition (conditions : list Corev1.NodeCondition.t) : Prop :=
  Forall (fun c => Corev1.NodeCondition.Type_ c <> Corev1.NodeReady) conditions.

(** [c] is the first condition of type Ready in the list. *)
Definition first_ready_condition (conditions : list Corev1.NodeCondition.t)
  (c : Corev1.NodeCondition.t) : Prop :=
  exists before after,
    conditions = before ++ c :: after /\ no_ready_condition before
    /\ Corev1.NodeCondition.Type_ c = Corev1.NodeReady.

(** The sum of the restart counts of the containers of a pod. *)
Definition total_restarts (statuses : list Corev1.ContainerStatus.t) : Z :=
  fold_right Z.add 0 (map Corev1.ContainerStatus.RestartCount statuses).

(** The restart counts are int32 values that are not negative, and there
    are fewer than 2^31 of them. *)
Definition restart_counts_in_range (statuses : list Corev1.ContainerStatus.t) : Prop :=
  Forall (fun cs => 0 <= Corev1.ContainerStatus.RestartCount cs < 2 ^ 31) statuses
  /\ Z.of_nat (length statuses) < 2 ^ 31.

(** What GetNodes makes of one listed node. *)
Definition node_listed (n : Corev1.Node.t) (node : Models.Node.t) : Prop :=
  Models.Node.Name node = Corev1.Node.Name n
  /\ Models.Node.Version node = Corev1.Node.KubeletVersion n
  /\ Models.Node.Status node = getNodeStatus n
  /\ Models.Node.Roles node = getNodeRoles n
  /\ Models.Node.Roles node <> []
  /\ (Models.Node.Status node = "Ready" \/ Models.Node.Status node = "NotReady"
      \/ Models.Node.Status node = "Unknown")
  /\ Models.Node.CPUUsage node = Go.fzero /\ Models.Node.MemUsage node = Go.fzero
  /\ Models.Node.PodCount node = 0.

(** What GetPods makes of one listed pod. *)
Definition pod_listed (p : Corev1.Pod.t) (pod : Models.Pod.t) : Prop :=
  Models.Pod.Name pod = Corev1.Pod.Name p
  /\ Models.Pod.Namespace pod = Corev1.Pod.Namespace p
  /\ Models.Pod.Status pod = Corev1.Pod.Phase p
  /\ Models.Pod.Node pod = Corev1.Pod.NodeName p
  /\ (restart_counts_in_range (Corev1.Pod.ContainerStatuses p) ->
      Models.Pod.Restarts pod = total_restarts (Corev1.Pod.ContainerStatuses p))
  /\ Models.Pod.CPUUsage pod = Go.fzero /\ Models.Pod.MemUsage pod = Go.fzero.

(** The kubeconfig file that initializeClients reads: $KUBECONFIG, or
    .kube/config in the home directory when the variable is empty. *)
Definition kubeconfig_path (h : Host.t) : string :=
  if String.eqb (Host.Getenv h "KUBECONFIG") EmptyString
  then Host.filepath_Join h [Host.UserHomeDir h; ".kube"; "config"]
  else Host.Getenv h "KUBECONFIG".

(** The client that the host builds for the context of a configuration,
    if both of its steps succeed. *)
Definition client_built (h : Host.t) (kubeconfig : string) (cfg : ClusterConfig.t)
  : option Clientset.t :=
  match Host.ClientConfig h kubeconfig (ClusterConfig.Context cfg) with
  | inl _ => None
  | inr config =>
      match Host.NewForConfig h config with
      | inl _ => None
      | inr clientset => Some clientset
      end
  end.

(** An enabled configuration for which no client can be built. *)
Definition client_fails (h : Host.t) (kubeconfig : string) (cfg : ClusterConfig.t) : bool :=
  ClusterConfig.Enabled cfg
  && match client_built h kubeconfig cfg with Some _ => false | None => true end.

(** The six readings of the metrics endpoint, each with its query. *)
Definition readings (Sscanf_f : string -> Go.result Go.float64) (s : PrometheusService.t)
  (prometheusURL namespace podName nodeName : string)
  : list (string * (Go.float64 * option Go.error)) :=
  [ (PrometheusService.cpu_query,
     PrometheusService.GetCPUUsage Sscanf_f s prometheusURL);
    (PrometheusService.memory_query,
     PrometheusService.GetMemoryUsage Sscanf_f s prometheusURL);
    (PrometheusService.pod_cpu_query namespace podName,
     PrometheusService.GetPodCPUUsage Sscanf_f s prometheusURL namespace podName);
    (PrometheusService.pod_memory_query namespace podName,
     PrometheusService.GetPodMemoryUsage Sscanf_f s prometheusURL namespace podName);
    (PrometheusService.node_cpu_query nodeName,
     PrometheusService.GetNodeCPUUsage Sscanf_f s prometheusURL nodeName);
    (PrometheusService.node_memory_query nodeName,
     PrometheusService.GetNodeMemoryUsage Sscanf_f s prometheusURL nodeName) ].

(** The endpoint answers the query with a decoded result of status
    success. *)
Definition answers (s : PrometheusService.t) (prometheusURL query : string)
  (result : PrometheusService.PrometheusResult.t) : Prop :=
  PrometheusService.httpClient s (prometheusURL +:+ "/api/v1/query") query
  = PrometheusService.Decoded result
  /\ PrometheusService.PrometheusResult.Status result = "success".

(** [cfg] is the first configuration of the list with the given name. *)
Definition first_named (configs : list ClusterConfig.t) (clusterName : string)
  (cfg : ClusterConfig.t) : Prop :=
  exists before after,
    configs = before ++ cfg :: after
    /\ Forall (fun c => ClusterConfig.Name c <> clusterName) before
    /\ ClusterConfig.Name cfg = clusterName.

(** What the dashboard reports for the cluster of a configuration, for a
    request that arrives in world [w]: identity from the configuration,
    a time stamp read off the clock, and either the fixed report of an
    unreachable cluster or the counts and percentages gathered from the
    cluster and its metrics endpoint, with the status computed from
    them. *)
Definition cluster_entry (Sscanf_f : string -> Go.result Go.float64)
  (Nodes_List_limit1 : Clientset.t -> option Go.error)
  (k8s : KubernetesService.t) (prom : PrometheusService.t) (w : World)
  (cfg : ClusterConfig.t) (c : Cluster.t) : Prop :=
  Cluster.Name c = ClusterConfig.Name cfg
  /\ Cluster.DisplayName c = ClusterConfig.DisplayName cfg
  /\ Cluster.Context c = ClusterConfig.Context cfg
  /\ (exists k, Cluster.LastUpdated c = clock w k)
  /\ (Cluster.Status c = "Healthy" \/ Cluster.Status c = "Warning"
      \/ Cluster.Status c = "Critical")
  /\ if KubernetesService.CheckConnectivity Nodes_List_limit1 k8s (ClusterConfig.Name cfg)
     then
       let '(_, pending, failed, total, _) :=
         (KubernetesService.GetPodSummary k8s (ClusterConfig.Name cfg) w).1 in
       Cluster.NodeCount c
       = match (KubernetesService.GetNodeCount k8s (ClusterConfig.Name cfg) w).1 with
         | inr nodeCount => nodeCount
         | inl _ => 0
         end
       /\ Cluster.PodCount c = total
       /\ Cluster.CPUUsage c
          = (if PrometheusService.CheckConnectivity prom (ClusterConfig.PrometheusURL cfg)
             then (PrometheusService.GetCPUUsage Sscanf_f prom
                     (ClusterConfig.PrometheusURL cfg)).1
             else Go.fzero)
       /\ Cluster.MemoryUsage c
          = (if PrometheusService.CheckConnectivity prom (ClusterConfig.PrometheusURL cfg)
             then (PrometheusService.GetMemoryUsage Sscanf_f prom
                     (ClusterConfig.PrometheusURL cfg)).1
             else Go.fzero)
       /\ Cluster.Status c
          = Handlers.determineClusterStatus (Cluster.CPUUsage c) (Cluster.MemoryUsage c)
              pending failed
     else
       Cluster.Status c = "Critical" /\ Cluster.NodeCount c = 0 /\ Cluster.PodCount c = 0
       /\ Cluster.CPUUsage c = Go.fzero /\ Cluster.MemoryUsage c = Go.fzero.

(** What the dashboard serves for one listed node: the node as GetNodes
    makes it, with the two percentages read from the metrics endpoint of
    the cluster when it has one that is reachable. *)
Definition node_served (Sscanf_f : string -> Go.result Go.float64)
  (prom : PrometheusService.t) (promURL : string)
  (n : Corev1.Node.t) (node : Models.Node.t) : Prop :=
  Models.Node.Name node = Corev1.Node.Name n
  /\ Models.Node.Version node = Corev1.Node.KubeletVersion n
  /\ Models.Node.Status node = getNodeStatus n
  /\ Models.Node.Roles node = getNodeRoles n
  /\ Models.Node.PodCount node = 0
  /\ if negb (String.eqb promURL EmptyString)
        && PrometheusService.CheckConnectivity prom promURL
     then
       Models.Node.CPUUsage node
       = (PrometheusService.GetNodeCPUUsage Sscanf_f prom promURL (Corev1.Node.Name n)).1
       /\ Models.Node.MemUsage node
          = (PrometheusService.GetNodeMemoryUsage Sscanf_f prom promURL
               (Corev1.Node.Name n)).1
     else Models.Node.CPUUsage node = Go.fzero /\ Models.Node.MemUsage node = Go.fzero.

End Vocabulary.

(* ===================================================================== *)
(** * A worked deployment *)
(* ===================================================================== *)

(** Three enabled clusters and a disabled one.  [production] answers its
    listings; [staging] has a client whose listings fail; [edge] has no
    client at all (its client could not be built at startup); [dev] is
    disabled.  The clock starts at hour 100 and advances by a second per
    reading; the database runs every statement. *)
Module Deployment.

Import Models.

Definition t0 : Time.Time := 100 * Time.Hour.

Definition clock (k : nat) : Time.Time := t0 + Z.of_nat k * Time.Second.

Definition snapshot (id : Z) (cluster : string) (age : Time.Duration) : MetricSnapshot.t :=
  MetricSnapshot.mk id cluster (Go.float64_of_int 40) (Go.float64_of_int 60) 10 3 (t0 - age).

Definition alert (id : Z) (cluster severity : string) (age : Time.Duration)
  (resolved : bool) : Alert.t :=
  Alert.mk id cluster severity "CPU usage high" (t0 - age) resolved.

(** The second row lies exactly one hour before the first reading of
    the clock. *)
Definition tables : Gorm.DB :=
  Gorm.mk
    [ snapshot 1 "production" (30 * Time.Minute);
      snapshot 2 "production" Time.Hour;
      snapshot 3 "staging" (10 * Time.Minute);
      snapshot 4 "production" (2 * Time.Hour);
      snapshot 5 "production" (45 * Time.Minute) ]
    [ alert 1 "production" "Warning" (3 * Time.Hour) false;
      alert 2 "production" "Critical" (2 * Time.Hour) true;
      alert 3 "staging" "Warning" Time.Hour false ]
    5 3.

Definition world : World := mkWorld clock 0 (fun _ => None) 0 tables [].

Definition pod (name phase : string) : Corev1.Pod.t :=
  Corev1.Pod.mk name "default" phase [Corev1.ContainerStatus.mk 2] (t0 - 5 * Time.Hour) "node-1".

Definition node (name : string) (labels : gmap string string) : Corev1.Node.t :=
  Corev1.Node.mk name labels (t0 - 72 * Time.Hour)
                 [Corev1.NodeCondition.mk "Ready" "True"] "v1.29.0".

Definition control_plane_labels : gmap string string :=
  {[ "node-role.kubernetes.io/control-plane" := EmptyString;
     "kubernetes.io/hostname" := "node-1" ]}.

(** A label key that is the role prefix and nothing more. *)
Definition bare_prefix_labels : gmap string string :=
  {[ "node-role.kubernetes.io/" := EmptyString ]}.

Definition production_client : Clientset.t :=
  Clientset.mk
    (inr [node "node-1" control_plane_labels; node "node-2" ∅])
    (fun _ => inr [pod "api" "Running"; pod "web" "Running"; pod "job" "Pending";
                   pod "batch" "Failed"; pod "db" "Running"; pod "migrate" "Succeeded"]).

Definition staging_client : Clientset.t :=
  Clientset.mk (inl "connection refused") (fun _ => inl "connection refused").

Definition configs : list ClusterConfig.t :=
  [ ClusterConfig.mk "production" "Production" "ctx-prod" "http://prom.prod:9090" true;
    ClusterConfig.mk "staging" "Staging" "ctx-staging" "http://prom.staging:9090" true;
    ClusterConfig.mk "dev" "Development" "ctx-dev" "http://prom.dev:9090" false;
    ClusterConfig.mk "edge" "Edge" "ctx-edge" "http://prom.edge:9090" true ].

Definition k8s : KubernetesService.t :=
  KubernetesService.mk
    {[ "production" := production_client; "staging" := staging_client ]}
    configs "k8s-configs/clusters.yaml".

Definition vector (value : string) : PrometheusService.PrometheusResult.t :=
  PrometheusService.PrometheusResult.mk "success" "vector"
    [PrometheusService.Sample.mk ∅ [Go.AnyFloat64 (Go.float64_of_int 1700000000);
                                    Go.AnyString value]].

(** Only the endpoint of production answers: CPU 97.5, memory 42.5. *)
Definition prom : PrometheusService.t :=
  PrometheusService.mk
    (fun endpoint query =>
       if String.eqb endpoint "http://prom.prod:9090/api/v1/query" then
         if String.eqb query PrometheusService.cpu_query then
           PrometheusService.Decoded (vector "97.5")
         else PrometheusService.Decoded (vector "42.5")
       else PrometheusService.TransportError "no route to host").

Definition store : Store.MetricsStore := Store.mk "data/metrics.db".

(** The verb [%.1f] on a finite float64, for the examples: the value
    m * 2^e is scaled by ten and rounded to the nearest integer, ties
    to even. *)
Definition Sprintf_1f (f : Go.float64) : string :=
  match f with
  | S754_zero _ => "0.0"
  | S754_finite s m e =>
      let n := 10 * Z.pos m in
      let tenths :=
        if 0 <=? e then n * 2 ^ e
        else
          let q := n / 2 ^ (- e) in
          let r := n mod 2 ^ (- e) in
          if 2 * r <? 2 ^ (- e) then q
          else if 2 ^ (- e) <? 2 * r then q + 1
          else if Z.even q then q else q + 1 in
      (if s then "-" else EmptyString)
        +:+ Go.itoa (tenths / 10) +:+ "." +:+ Go.itoa (tenths mod 10)
  | S754_infinity s => if s then "-Inf" else "+Inf"
  | S754_nan => "NaN"
  end.

(** A host on which the configuration file is missing. *)
Definition host_without_config : Host.t :=
  Host.mk (fun _ => EmptyString) "/root" (fun _ => None)
          (fun _ => inl "open k8s-configs/clusters.yaml: no such file or directory")
          (fun _ => "data") (fun _ => "/root/.kube/config")
          (fun _ => inr (ClustersConfig.mk [])) (fun _ _ => inl "no kubeconfig")
          (fun _ => inl "no configuration") (fun _ => inr Gorm.empty) (fun d => inr d).

(** A host with a configuration that loads and a database that does not
    open. *)
Definition host_without_database : Host.t :=
  Host.mk (fun _ => EmptyString) "/root" (fun _ => None)
          (fun _ => inr "clusters: []")
          (fun _ => "data") (fun _ => "/root/.kube/config")
          (fun _ => inr (ClustersConfig.mk configs)) (fun _ _ => inr "rest")
          (fun _ => inr production_client)
          (fun _ => inl "unable to open database file") (fun d => inr d).

End Deployment.

(* ===================================================================== *)
(** * Properties *)
(* ===================================================================== *)

(** ** Arithmetic of int *)

Lemma wrap_small (z : Z) : Go.int_min <= z <= Go.int_max -> Go.wrap z = z.
Proof.
  unfold Go.wrap, Go.int_min, Go.int_max. intros Hz.
  rewrite Z.mod_small by lia. lia.
Qed.

Lemma neg_small (z : Z) : Go.int_min < z <= Go.int_max -> Go.neg z = - z.
Proof.
  unfold Go.neg. intros Hz. apply wrap_small.
  unfold Go.int_min, Go.int_max in *. lia.
Qed.

Lemma incr_small (z : Z) : 0 <= z < Go.int_max -> Go.incr z = z + 1.
Proof.
  unfold Go.incr. intros Hz. apply wrap_small.
  unfold Go.int_min, Go.int_max in *. lia.
Qed.

(** ** The health tier *)

Section HealthTier.

Import Handlers.

Lemma critical_condition_test cpu mem failed :
  critical_condition cpu mem failed <->
  Go.fgt cpu (Go.float64_of_int 95) || Go.fgt mem (Go.float64_of_int 95) || (0 <? failed) = true.
Proof.
  unfold critical_condition.
  rewrite !orb_true_iff, Z.ltb_lt. tauto.
Qed.

Lemma warning_condition_test cpu mem pending :
  warning_condition cpu mem pending <->
  Go.fgt cpu (Go.float64_of_int 80) || Go.fgt mem (Go.float64_of_int 80) || (5 <? pending) = true.
Proof.
  unfold warning_condition.
  rewrite !orb_true_iff, Z.ltb_lt. tauto.
Qed.

(** C1.  determineClusterStatus is a total function of its four
    arguments that applies the rule in priority order: the result is
    Critical exactly when cpu > 95 or mem > 95 or failed > 0; otherwise
    it is Warning exactly when cpu > 80 or mem > 80 or pending > 5;
    otherwise it is Healthy.  The five sample points of the
    specification evaluate as stated there. *)
Theorem determineClusterStatus_priority :
  (forall cpu mem pending failed,
      let status := determineClusterStatus cpu mem pending failed in
      (status = "Critical" <-> critical_condition cpu mem failed)
      /\ (status = "Warning" <->
          ~ critical_condition cpu mem failed /\ warning_condition cpu mem pending)
      /\ (status = "Healthy" <->
          ~ critical_condition cpu mem failed /\ ~ warning_condition cpu mem pending)
      /\ (status = "Critical" \/ status = "Warning" \/ status = "Healthy"))
  /\ determineClusterStatus (Go.float64_of_int 96) (Go.float64_of_int 0) 0 0 = "Critical"
  /\ determineClusterStatus (Go.float64_of_int 85) (Go.float64_of_int 0) 0 0 = "Warning"
  /\ determineClusterStatus (Go.float64_of_int 50) (Go.float64_of_int 50) 0 0 = "Healthy"
  /\ determineClusterStatus (Go.float64_of_int 10) (Go.float64_of_int 10) 0 1 = "Critical"
  /\ determineClusterStatus (Go.float64_of_int 10) (Go.float64_of_int 10) 6 0 = "Warning".
Proof.
  split; [| repeat split; vm_compute; reflexivity].
  intros cpu mem pending failed status. subst status.
  rewrite critical_condition_test, warning_condition_test.
  unfold determineClusterStatus.
  destruct (_ || _ || (0 <? failed)); [| destruct (_ || _ || (5 <? pending))];
    repeat split; intros; try discriminate; intuition (auto; discriminate).
Qed.

End HealthTier.

(** ** Age buckets *)

Section AgeBuckets.

Import KubernetesService.

(** The four durations that the repository's test of [formatAge] uses
    come out as the test expects. *)
Lemma formatAge_since_examples :
  formatAge_since (30 * Time.Second) = "30s"
  /\ formatAge_since (15 * Time.Minute) = "15m"
  /\ formatAge_since (5 * Time.Hour) = "5h"
  /\ formatAge_since (3 * 24 * Time.Hour) = "3d".
Proof. repeat split; vm_compute; reflexivity. Qed.

(** Around the other boundaries the label changes where the buckets say
    it should. *)
Lemma formatAge_since_boundaries :
  formatAge_since (60 * Time.Second - 1) = "59s"
  /\ formatAge_since (60 * Time.Second) = "1m"
  /\ formatAge_since (Time.Hour - 1) = "59m"
  /\ formatAge_since Time.Hour = "1h"
  /\ formatAge_since (24 * Time.Hour - 1) = "23h"
  /\ formatAge_since (24 * Time.Hour + 1) = "1d".
Proof. repeat split; vm_compute; reflexivity. Qed.

(** C4.  At a duration of exactly 24 hours [formatAge] answers with the
    hours label 24h, not with a days label: the first test of the
    function is [duration.Hours() > 24], strict, while the buckets put
    every d >= 24h under days.  This holds whatever the clock reads: a
    creation time 24 hours before the reading is labelled 24h. *)
Theorem formatAge_24h_is_hours_label :
  formatAge_since (24 * Time.Hour) = "24h"
  /\ formatAge_since (24 * Time.Hour) <> "1d"
  /\ forall w : World,
       fst (formatAge (Time.Add (clock w (ticks w)) (- (24 * Time.Hour))) w) = "24h".
Proof.
  assert (H24 : formatAge_since (24 * Time.Hour) = "24h") by (vm_compute; reflexivity).
  split; [exact H24 |]. split; [rewrite H24; discriminate |].
  intros w. unfold formatAge, time_Since, time_Now, bind, ret. simpl.
  replace (Time.Sub _ _) with (24 * Time.Hour); [exact H24 |].
  unfold Time.Sub, Time.Add.
  replace (clock w (ticks w) - (clock w (ticks w) + - (24 * Time.Hour)))
    with (24 * Time.Hour) by lia.
  reflexivity.
Qed.

End AgeBuckets.

(** ** Scalar extraction *)

Section ScalarExtraction.

Import PrometheusService.

Variable Sscanf_f : string -> Go.result Go.float64.

(** C5.  [extractFirstValue] returns 0 and no error on an empty result
    set; it returns an error when the value pair of the first result
    has fewer than two elements, when its second element is not a
    string, and when the string cannot be scanned as a number; and it
    returns the scanned number otherwise, so the pair [epoch, 42.5
    as a string] yields 42.5 as soon as the scanner reads that string
    as 42.5.  Later results are never looked at. *)
Theorem extractFirstValue_rule :
  (forall r, PrometheusResult.Result r = [] ->
             extractFirstValue Sscanf_f r = (Go.fzero, None))
  /\ (forall r first rest, PrometheusResult.Result r = first :: rest ->
        (length (Sample.Value first) < 2)%nat ->
        extractFirstValue Sscanf_f r = (Go.fzero, Some "unexpected result format"))
  /\ (forall r first rest epoch v more,
        PrometheusResult.Result r = first :: rest ->
        Sample.Value first = epoch :: v :: more ->
        Go.as_string v = None ->
        extractFirstValue Sscanf_f r = (Go.fzero, Some "unexpected value type"))
  /\ (forall r first rest epoch valueStr more err,
        PrometheusResult.Result r = first :: rest ->
        Sample.Value first = epoch :: Go.AnyString valueStr :: more ->
        Sscanf_f valueStr = inl err ->
        extractFirstValue Sscanf_f r
        = (Go.fzero, Some (Go.Errorf "failed to parse value: " err)))
  /\ (forall r first rest epoch valueStr more value,
        PrometheusResult.Result r = first :: rest ->
        Sample.Value first = epoch :: Go.AnyString valueStr :: more ->
        Sscanf_f valueStr = inr value ->
        extractFirstValue Sscanf_f r = (value, None))
  /\ (forall status kind metric epoch rest,
        Sscanf_f "42.5" = inr f42_5 ->
        extractFirstValue Sscanf_f
          (PrometheusResult.mk status kind
             (Sample.mk metric [Go.AnyFloat64 epoch; Go.AnyString "42.5"] :: rest))
        = (f42_5, None)).
Proof.
  assert (Hlen2 : forall (a b : Go.any) l, (Z.of_nat (length (a :: b :: l)) <? 2) = false).
  { intros a b l. apply Z.ltb_ge. simpl length. lia. }
  unfold extractFirstValue.
  repeat split.
  - intros r ->. reflexivity.
  - intros r first rest -> Hlen.
    destruct (Sample.Value first) as [| a [| b l]]; simpl in *; try reflexivity; lia.
  - intros r first rest epoch v more -> -> Hv.
    rewrite Hlen2. simpl. rewrite Hv. reflexivity.
  - intros r first rest epoch valueStr more err -> -> Hs.
    rewrite Hlen2. simpl. rewrite Hs. reflexivity.
  - intros r first rest epoch valueStr more value -> -> Hs.
    rewrite Hlen2. simpl. rewrite Hs. reflexivity.
  - intros status kind metric epoch rest Hs. simpl. rewrite Hs. reflexivity.
Qed.

End ScalarExtraction.

(** The three tests of the repository, run with the decimal scanner:
    empty result, well-formed pair, pair with its second element missing. *)
Lemma extractFirstValue_tests :
  let run := PrometheusService.extractFirstValue scan_decimal in
  let result samples := PrometheusService.PrometheusResult.mk "success" "vector" samples in
  run (result []) = (Go.fzero, None)
  /\ run (result [PrometheusService.Sample.mk ∅
                    [Go.AnyFloat64 (Go.float64_of_int 1234567890); Go.AnyString "42.5"]])
     = (f42_5, None)
  /\ run (result [PrometheusService.Sample.mk ∅
                    [Go.AnyFloat64 (Go.float64_of_int 1234567890)]])
     = (Go.fzero, Some "unexpected result format").
Proof. repeat split; vm_compute; reflexivity. Qed.

(** ** Pod summary *)

Section PodSummary.

Import KubernetesService.

Lemma counted_iff pod :
  counted pod = true <->
  Models.Pod.Status pod = "Running" \/ Models.Pod.Status pod = "Pending"
  \/ Models.Pod.Status pod = "Failed".
Proof.
  unfold counted. rewrite !orb_true_iff, !String.eqb_eq. tauto.
Qed.

(** The loop adds one to the total for every pod and one to the three
    other counters together for every counted pod, as long as no
    counter leaves the range of int. *)
Lemma GetPodSummary_range_counts pods :
  forall running pending failed total,
    0 <= running -> 0 <= pending -> 0 <= failed ->
    running + pending + failed <= total ->
    total + Z.of_nat (length pods) <= Go.int_max ->
    exists running' pending' failed' total',
      GetPodSummary_range pods (running, pending, failed, total)
      = (running', pending', failed', total')
      /\ 0 <= running' /\ 0 <= pending' /\ 0 <= failed'
      /\ total' = total + Z.of_nat (length pods)
      /\ running' + pending' + failed'
         = running + pending + failed + Z.of_nat (length (List.filter counted pods)).
Proof.
  induction pods as [| pod pods IH]; intros running pending failed total Hr Hp Hf Hle Hmax.
  - exists running, pending, failed, total. simpl. repeat split; lia.
  - cbn [GetPodSummary_range]. cbn [length] in Hmax.
    rewrite (incr_small total) by lia.
    change (List.filter counted (pod :: pods))
      with (if counted pod then pod :: List.filter counted pods
            else List.filter counted pods).
    replace (counted pod)
      with (String.eqb (Models.Pod.Status pod) "Running"
            || String.eqb (Models.Pod.Status pod) "Pending"
            || String.eqb (Models.Pod.Status pod) "Failed") by reflexivity.
    destruct (String.eqb (Models.Pod.Status pod) "Running");
      [| destruct (String.eqb (Models.Pod.Status pod) "Pending");
         [| destruct (String.eqb (Models.Pod.Status pod) "Failed")]];
      cbn [orb];
      try rewrite (incr_small running) by lia;
      try rewrite (incr_small pending) by lia;
      try rewrite (incr_small failed) by lia.
    all: match goal with
         | |- context [GetPodSummary_range _ (?r, ?p, ?f, ?t)] =>
             destruct (IH r p f t) as (r' & p' & f' & t' & Heq & ? & ? & ? & Ht & Hsum);
             try lia; exists r', p', f', t'; rewrite Heq; cbn [length];
             repeat split; lia
         end.
Qed.

Lemma filter_length_all {A : Type} (f : A -> bool) (l : list A) :
  length (List.filter f l) = length l <-> Forall (fun x => f x = true) l.
Proof.
  induction l as [| x l IH]; simpl.
  - split; [constructor | reflexivity].
  - pose proof (List.filter_length_le f l) as Hle.
    destruct (f x) eqn:Hx; simpl.
    + rewrite Forall_cons. split.
      * intros H. split; [exact Hx |]. apply IH. lia.
      * intros [_ H]. f_equal. apply IH. exact H.
    + rewrite Forall_cons. split; [lia |]. intros [H _]. congruence.
Qed.

(** C10.  Whenever the pod listing succeeds, GetPodSummary returns no
    error and counters with total = number of pods and
    running + pending + failed <= total; the two sides are equal
    exactly when every pod has phase Running, Pending or Failed: a pod
    in any other phase (Succeeded, Unknown) is counted in the total
    only.  The number of pods is within the range of int, as the length
    of a Go slice is. *)
Theorem GetPodSummary_counts (s : t) (clusterName : string) (w w' : World)
  (pods : list Models.Pod.t) :
  GetPods s clusterName EmptyString w = (inr pods, w') ->
  Z.of_nat (length pods) <= Go.int_max ->
  exists running pending failed total,
    GetPodSummary s clusterName w = ((running, pending, failed, total), None, w')
    /\ total = Z.of_nat (length pods)
    /\ running + pending + failed <= total
    /\ (running + pending + failed = total <->
        Forall (fun pod => Models.Pod.Status pod = "Running"
                           \/ Models.Pod.Status pod = "Pending"
                           \/ Models.Pod.Status pod = "Failed") pods).
Proof.
  intros Hpods Hlen.
  destruct (GetPodSummary_range_counts pods 0 0 0 0) as
    (r & p & f & t & Heq & Hr & Hp & Hf & Ht & Hsum); try lia.
  exists r, p, f, t.
  pose proof (List.filter_length_le counted pods) as Hle.
  split; [| split; [| split]].
  - unfold GetPodSummary, bind. rewrite Hpods. unfold ret. rewrite Heq. reflexivity.
  - lia.
  - lia.
  - rewrite Hsum, Ht. simpl.
    assert (HF : Forall (fun pod => counted pod = true) pods <->
                 Forall (fun pod => Models.Pod.Status pod = "Running"
                                    \/ Models.Pod.Status pod = "Pending"
                                    \/ Models.Pod.Status pod = "Failed") pods).
    { split; apply List.Forall_impl; intros pod; apply counted_iff. }
    rewrite <- HF, <- filter_length_all. lia.
Qed.

End PodSummary.

(** ** Node roles *)

Section NodeRoles.

Import KubernetesService.

Lemma append_nil_l (s : string) : EmptyString +:+ s = s.
Proof. reflexivity. Qed.

Lemma append_cons (a : ascii) (s r : string) : String a s +:+ r = String a (s +:+ r).
Proof. reflexivity. Qed.

Lemma substring_all (s : string) : substring 0 (String.length s) s = s.
Proof.
  induction s as [| c s IHs]; [reflexivity |].
  cbn [String.length substring]. f_equal. exact IHs.
Qed.

Lemma HasPrefix_inv (prefix s : string) :
  Strings.HasPrefix s prefix = true ->
  s = prefix +:+ Strings.TrimPrefix s prefix.
Proof.
  unfold Strings.TrimPrefix. intros H. rewrite H. unfold Strings.HasPrefix in H.
  revert s H. induction prefix as [| a prefix IH]; intros s H.
  - rewrite append_nil_l. cbn [String.length]. rewrite Nat.sub_0_r.
    symmetry. apply substring_all.
  - destruct s as [| b s]; [discriminate |].
    simpl in H. destruct (ascii_dec a b) as [-> |]; [| discriminate].
    rewrite append_cons. cbn [String.length substring Nat.sub]. f_equal.
    apply IH. exact H.
Qed.

Lemma HasPrefix_app (prefix r : string) : Strings.HasPrefix (prefix +:+ r) prefix = true.
Proof.
  unfold Strings.HasPrefix. induction prefix as [| a prefix IH].
  - rewrite append_nil_l. destruct r; reflexivity.
  - rewrite append_cons. simpl. destruct (ascii_dec a a); [exact IH | congruence].
Qed.

Lemma append_inj_r (p r1 r2 : string) : p +:+ r1 = p +:+ r2 -> r1 = r2.
Proof.
  induction p as [| a p IH]; intros H; [exact H |].
  rewrite !append_cons in H. injection H. exact IH.
Qed.

Lemma role_of_label_Some (label r : string) :
  role_of_label label = Some r <-> label = role_prefix +:+ r /\ r <> EmptyString.
Proof.
  unfold role_of_label. split.
  - destruct (Strings.HasPrefix label role_prefix) eqn:Hp; [| discriminate].
    apply HasPrefix_inv in Hp.
    destruct (String.eqb _ EmptyString) eqn:He; simpl; [discriminate |].
    intros [= <-]. split; [exact Hp |]. apply String.eqb_neq. exact He.
  - intros [-> Hr]. rewrite HasPrefix_app.
    pose proof (HasPrefix_inv role_prefix (role_prefix +:+ r) (HasPrefix_app _ _)) as Hs.
    apply append_inj_r in Hs. rewrite <- Hs.
    apply String.eqb_neq in Hr. rewrite Hr. reflexivity.
Qed.

Lemma getNodeRoles_range_omap (order : list (string * string)) (roles : list string) :
  getNodeRoles_range order roles = roles ++ omap (fun kv => role_of_label kv.1) order.
Proof.
  revert roles. induction order as [| [label v] order IH]; intros roles; simpl.
  - rewrite app_nil_r. reflexivity.
  - unfold role_of_label.
    destruct (Strings.HasPrefix label role_prefix); [| apply IH].
    destruct (negb _); [| apply IH].
    rewrite IH, <- app_assoc. reflexivity.
Qed.

Lemma omap_keys (order : list (string * string)) :
  omap (fun kv => role_of_label kv.1) order = omap role_of_label (order.*1).
Proof.
  induction order as [| [k v] order IH]; [reflexivity |].
  cbn [omap list_omap fmap list_fmap fst]. rewrite <- IH. reflexivity.
Qed.

Lemma NoDup_roles (keys : list string) :
  NoDup keys -> NoDup (omap role_of_label keys).
Proof.
  induction 1 as [| k keys Hk Hnd IH]; simpl; [constructor |].
  destruct (role_of_label k) as [r |] eqn:Hr; [| exact IH].
  constructor; [| exact IH].
  rewrite list_elem_of_omap. intros (k' & Hin & Hr').
  apply role_of_label_Some in Hr as [-> _].
  apply role_of_label_Some in Hr' as [-> _]. contradiction.
Qed.

Lemma getNodeRoles_range_elem (node : Corev1.Node.t) (order : list (string * string)) r :
  order ≡ₚ map_to_list (Corev1.Node.Labels node) ->
  r ∈ getNodeRoles_range order [] <-> has_role node r.
Proof.
  intros Hperm. rewrite getNodeRoles_range_omap. simpl.
  rewrite list_elem_of_omap. unfold has_role. split.
  - intros ([label v] & Hin & Hr). simpl in Hr.
    apply role_of_label_Some in Hr as [-> Hne]. split; [exact Hne |].
    rewrite Hperm in Hin. apply elem_of_map_to_list in Hin. eauto.
  - intros [Hne [v Hv]]. exists (role_prefix +:+ r, v). split.
    + rewrite Hperm. apply elem_of_map_to_list. exact Hv.
    + simpl. apply role_of_label_Some. auto.
Qed.

(** C6 (as the code has it).  Whatever order [range] delivers the
    labels in, the roles of a node are never empty and without
    repetition; they are exactly the non-empty suffixes of the label
    keys that start with node-role.kubernetes.io/, and when there is no
    such suffix they are exactly the single role worker; worker is not
    added once a role is found. *)
Theorem getNodeRoles_in_roles (node : Corev1.Node.t) (order : list (string * string)) :
  order ≡ₚ map_to_list (Corev1.Node.Labels node) ->
  let roles := getNodeRoles_in order in
  roles <> []
  /\ NoDup roles
  /\ (forall r, r ∈ roles <->
                has_role node r \/ (r = "worker" /\ forall r', ~ has_role node r'))
  /\ ((forall r', ~ has_role node r') -> roles = ["worker"])
  /\ ((exists r', has_role node r') -> forall r, r ∈ roles -> has_role node r).
Proof.
  intros Hperm roles. subst roles. unfold getNodeRoles_in.
  pose proof (getNodeRoles_range_elem node order) as Helem.
  assert (Hnd : NoDup (getNodeRoles_range order [])).
  { rewrite getNodeRoles_range_omap. simpl.
    rewrite omap_keys. apply NoDup_roles. rewrite Hperm. apply NoDup_fst_map_to_list. }
  destruct (getNodeRoles_range order []) as [| r0 rs] eqn:Hroles; simpl.
  - assert (Hnone : forall r', ~ has_role node r').
    { intros r' Hr'. apply Helem in Hr'; [| exact Hperm]. inversion Hr'. }
    split; [discriminate |].
    split; [apply NoDup_singleton |].
    split; [| split].
    + intros r. rewrite list_elem_of_singleton. split.
      * intros ->. right. auto.
      * intros [Hr | [-> _]]; [exfalso; eapply Hnone; eauto | reflexivity].
    + reflexivity.
    + intros [r' Hr'] r _. exfalso. eapply Hnone; eauto.
  - assert (Hsome : has_role node r0).
    { apply Helem; [exact Hperm | constructor]. }
    split; [discriminate |].
    split; [exact Hnd |].
    split; [| split].
    + intros r. split.
      * intros Hr. left. apply Helem; assumption.
      * intros [Hr | [_ Hnone]]; [apply Helem; assumption | exfalso; eapply Hnone; eauto].
    + intros Hnone. exfalso. eapply Hnone; eauto.
    + intros _ r Hr. apply Helem; assumption.
Qed.

End NodeRoles.

(** ** The snapshot store: range query and pruning *)

Section SnapshotWindow.

Import Models Store.

#[local] Instance snapshot_asc_total : Total snapshot_asc.
Proof. intros x y. unfold snapshot_asc. lia. Qed.

#[local] Instance alert_desc_total : Total alert_desc.
Proof. intros x y. unfold alert_desc. lia. Qed.

Lemma cutoff_minus (now : Time.Time) (d : Time.Duration) :
  Go.int_min < d <= Go.int_max -> Time.Add now (Go.neg d) = now - d.
Proof. intros Hd. unfold Time.Add. rewrite neg_small by exact Hd. lia. Qed.

Lemma filter_ext_in {A : Type} (P Q : A -> Prop)
  `{!forall x, Decision (P x)} `{!forall x, Decision (Q x)} (l : list A) :
  (forall x, P x <-> Q x) -> filter P l = filter Q l.
Proof.
  intros HPQ. induction l as [| x l IH]; [reflexivity |].
  rewrite !filter_cons, IH.
  destruct (decide (P x)) as [HP | HP], (decide (Q x)) as [HQ | HQ];
    try reflexivity; exfalso; apply HPQ in HP || apply HPQ in HQ; contradiction.
Qed.

(** C7.  For a duration d that is an int64 other than the minimal one,
    and a database that runs the statement: GetSnapshots returns, in
    ascending order of timestamp, exactly the rows of the cluster whose
    timestamp is strictly newer than now - d, and leaves the tables
    alone; CleanupOldSnapshots deletes exactly the rows whose timestamp
    is strictly older than now - d, so every row at or after the
    boundary remains, in place, and no alert is touched.  Here now is
    the reading of the clock that the call makes. *)
Theorem snapshot_window (s : MetricsStore) (cluster : string) (d : Time.Duration)
  (w : World) :
  Go.int_min < d <= Go.int_max ->
  db_fault w (stmts w) = None ->
  let now := clock w (ticks w) in
  let rows := Gorm.metric_snapshots (db w) in
  (let '(snapshots, err, w') := GetSnapshots s cluster d w in
   err = None
   /\ db w' = db w
   /\ Sorted snapshot_asc snapshots
   /\ snapshots ≡ₚ
        filter (fun r => MetricSnapshot.Cluster r = cluster
                         /\ now - d < MetricSnapshot.Timestamp r) rows
   /\ forall r, r ∈ snapshots <->
                r ∈ rows /\ MetricSnapshot.Cluster r = cluster
                /\ now - d < MetricSnapshot.Timestamp r)
  /\ (let '(err, w') := CleanupOldSnapshots s d w in
      err = None
      /\ Gorm.alerts (db w') = Gorm.alerts (db w)
      /\ Gorm.metric_snapshots (db w')
         = filter (fun r => now - d <= MetricSnapshot.Timestamp r) rows
      /\ forall r, r ∈ Gorm.metric_snapshots (db w') <->
                   r ∈ rows /\ ~ MetricSnapshot.Timestamp r < now - d).
Proof.
  intros Hd Hdb now rows. split.
  - unfold GetSnapshots, bind, time_Now, db_exec, ret. cbn [stmts db_fault db].
    rewrite Hdb. cbn [db]. rewrite cutoff_minus by exact Hd.
    fold now. fold rows. unfold select_snapshots. cbn [db]. fold rows.
    split; [reflexivity |]. split; [reflexivity |].
    split; [apply Sorted_merge_sort; apply _ |].
    split; [apply merge_sort_Permutation |].
    intros r. rewrite merge_sort_Permutation, list_elem_of_filter. tauto.
  - unfold CleanupOldSnapshots, bind, time_Now, db_exec, ret. cbn [stmts db_fault db].
    rewrite Hdb. cbn [db]. rewrite cutoff_minus by exact Hd.
    fold now. unfold delete_snapshots. cbn [Gorm.alerts Gorm.metric_snapshots]. fold rows.
    split; [reflexivity |]. split; [reflexivity |].
    split.
    + apply filter_ext_in. intros r. lia.
    + intros r. rewrite list_elem_of_filter. tauto.
Qed.

End SnapshotWindow.

(** ** The alert log: resolving *)

Section ResolveAlerts.

Import Models Store.

Lemma with_Resolved_id (r : Alert.t) :
  Alert.Resolved r = true -> Alert.with_Resolved true r = r.
Proof. destruct r as [i c sv m t rs]. simpl. intros ->. reflexivity. Qed.

Lemma resolve_row_ID id r : Alert.ID (resolve_row id r) = Alert.ID r.
Proof. unfold resolve_row. destruct (Alert.ID r =? id); reflexivity. Qed.

Lemma resolve_row_Resolved id r :
  Alert.Resolved (resolve_row id r) = (Alert.ID r =? id) || Alert.Resolved r.
Proof. unfold resolve_row. destruct (Alert.ID r =? id); reflexivity. Qed.

Lemma resolve_row_other id r : Alert.ID r <> id -> resolve_row id r = r.
Proof. unfold resolve_row. intros H. apply Z.eqb_neq in H. rewrite H. reflexivity. Qed.

Lemma resolve_row_resolved id r : Alert.Resolved r = true -> resolve_row id r = r.
Proof.
  unfold resolve_row. intros H. destruct (Alert.ID r =? id); [| reflexivity].
  apply with_Resolved_id. exact H.
Qed.

Lemma resolve_row_idem id r : resolve_row id (resolve_row id r) = resolve_row id r.
Proof.
  destruct (Z.eq_dec (Alert.ID r) id) as [He | Hne].
  - apply resolve_row_resolved. rewrite resolve_row_Resolved.
    apply Z.eqb_eq in He. rewrite He. reflexivity.
  - rewrite (resolve_row_other id r Hne). apply resolve_row_other. exact Hne.
Qed.

Lemma update_resolved_noop id (d : Gorm.DB) :
  (forall a, a ∈ Gorm.alerts d -> Alert.ID a = id -> Alert.Resolved a = true) ->
  update_resolved id d = d.
Proof.
  intros H. unfold update_resolved. destruct d as [snaps als sseq aseq]. simpl in *.
  f_equal. induction als as [| a als IH]; [reflexivity |]. simpl. f_equal.
  - fold (resolve_row id a).
    destruct (Z.eq_dec (Alert.ID a) id) as [He | Hne].
    + apply resolve_row_resolved. apply H; [left | exact He].
    + apply resolve_row_other. exact Hne.
  - apply IH. intros a' Ha'. apply H. right. exact Ha'.
Qed.

(** C8.  On a database that runs the statements: ResolveAlert returns
    no error, whether or not a row carries the id.  Afterwards every
    row with that id has resolved = true and no other column of any row
    has changed; GetActiveAlerts returns exactly the rows with
    resolved = false, so none with that id, and for the other ids the
    same rows as before.  When no row carries the id, or every row that
    does is already resolved, the tables are left exactly as they were;
    in particular a second ResolveAlert of the same id changes nothing. *)
Theorem ResolveAlert_idempotent (s : MetricsStore) (id : Z) (w : World) :
  db_fault w (stmts w) = None ->
  db_fault w (S (stmts w)) = None ->
  let '(err, w1) := ResolveAlert s id w in
  let '(active, err_active, _) := GetActiveAlerts s w1 in
  let '(err_again, w2) := ResolveAlert s id w1 in
  err = None
  /\ Gorm.alerts (db w1) = map (resolve_row id) (Gorm.alerts (db w))
  /\ Gorm.metric_snapshots (db w1) = Gorm.metric_snapshots (db w)
  /\ (forall a, a ∈ Gorm.alerts (db w1) -> Alert.ID a = id -> Alert.Resolved a = true)
  /\ err_active = None
  /\ (forall a, a ∈ active <-> a ∈ Gorm.alerts (db w1) /\ Alert.Resolved a = false)
  /\ (forall a, a ∈ active -> Alert.ID a <> id)
  /\ (forall a, Alert.ID a <> id ->
                (a ∈ active <-> a ∈ Gorm.alerts (db w) /\ Alert.Resolved a = false))
  /\ ((forall a, a ∈ Gorm.alerts (db w) -> Alert.ID a = id -> Alert.Resolved a = true) ->
      db w1 = db w)
  /\ err_again = None
  /\ db w2 = db w1.
Proof.
  intros Hdb Hdb'.
  unfold ResolveAlert, GetActiveAlerts, bind, db_exec, ret.
  cbn [stmts db_fault db]. rewrite Hdb. cbn [stmts db_fault db]. rewrite Hdb'.
  cbn [stmts db_fault db].
  set (d := db w). set (d1 := update_resolved id d).
  assert (Hmap : Gorm.alerts d1 = map (resolve_row id) (Gorm.alerts d)) by reflexivity.
  assert (Hres : forall a, a ∈ Gorm.alerts d1 -> Alert.ID a = id -> Alert.Resolved a = true).
  { intros a Ha Hid. rewrite Hmap in Ha.
    apply list_elem_of_fmap in Ha as (a0 & -> & _).
    rewrite resolve_row_ID in Hid. rewrite resolve_row_Resolved.
    apply Z.eqb_eq in Hid. rewrite Hid. reflexivity. }
  assert (Hact : forall a, a ∈ select_active_alerts d1 <->
                           a ∈ Gorm.alerts d1 /\ Alert.Resolved a = false).
  { intros a. unfold select_active_alerts.
    rewrite merge_sort_Permutation, list_elem_of_filter. tauto. }
  split; [reflexivity |]. split; [exact Hmap |]. split; [reflexivity |].
  split; [exact Hres |]. split; [reflexivity |]. split; [exact Hact |].
  split; [| split; [| split; [| split]]].
  - intros a Ha Hid. apply Hact in Ha as [Hin Hfalse].
    rewrite (Hres a Hin Hid) in Hfalse. discriminate.
  - intros a Hne. rewrite Hact, Hmap. split.
    + intros [Hin Hfalse]. split; [| exact Hfalse].
      apply list_elem_of_fmap in Hin as (a0 & -> & Hin0).
      rewrite resolve_row_ID in Hne. rewrite (resolve_row_other id a0 Hne). exact Hin0.
    + intros [Hin Hfalse]. split; [| exact Hfalse].
      apply list_elem_of_fmap. exists a. split; [| exact Hin].
      symmetry. apply resolve_row_other. exact Hne.
  - intros Hnoop. apply update_resolved_noop. exact Hnoop.
  - reflexivity.
  - apply update_resolved_noop. exact Hres.
Qed.

End ResolveAlerts.

(** ** Running the monad *)

Lemma bind_run {A B : Type} (c : M A) (k : A -> M B) (w : World) :
  bind c k w = k (c w).1 (c w).2.
Proof. unfold bind. destruct (c w). reflexivity. Qed.

Lemma grows_refl (w : World) : grows w w [] [].
Proof. split; rewrite ?app_nil_r; reflexivity. Qed.

Lemma grows_trans (w w1 w2 : World) s1 s2 a1 a2 :
  grows w w1 s1 a1 -> grows w1 w2 s2 a2 -> grows w w2 (s1 ++ s2) (a1 ++ a2).
Proof.
  intros [Hf1 Hs1 Ha1] [Hf2 Hs2 Ha2]. split.
  - congruence.
  - rewrite Hs2, Hs1, app_assoc. reflexivity.
  - rewrite Ha2, Ha1, app_assoc. reflexivity.
Qed.

Lemma grows_sound (w w' : World) s a : grows w w' s a -> db_sound w -> db_sound w'.
Proof. intros [Hf _ _] H k. rewrite Hf. apply H. Qed.

Section StoreWrites.

Import Models Store.

Lemma SaveAlert_run (s : MetricsStore) (alert : Alert.t) (w : World) :
  db_fault w (stmts w) = None -> Alert.ID alert = 0 ->
  let alert' := Alert.with_ID (Gorm.alerts_seq (db w) + 1)
                  (Alert.with_Timestamp (clock w (ticks w)) alert) in
  exists w', SaveAlert s alert w = ((alert', None), w') /\ grows w w' [] [alert'].
Proof.
  intros Hdb Hid alert'. subst alert'.
  unfold SaveAlert, bind, time_Now, db_exec, create_alert.
  cbn [stmts db_fault db Alert.ID Alert.with_Timestamp]. rewrite Hdb, Hid.
  cbn [Z.eqb]. eexists. split; [reflexivity |].
  split; cbn [db db_fault Gorm.alerts Gorm.metric_snapshots]; rewrite ?app_nil_r; reflexivity.
Qed.

Lemma SaveSnapshot_run (s : MetricsStore) (snapshot : MetricSnapshot.t) (w : World) :
  db_fault w (stmts w) = None -> MetricSnapshot.ID snapshot = 0 ->
  let snapshot' := MetricSnapshot.with_ID (Gorm.metric_snapshots_seq (db w) + 1)
                     (MetricSnapshot.with_Timestamp (clock w (ticks w)) snapshot) in
  exists w', SaveSnapshot s snapshot w = ((snapshot', None), w')
             /\ grows w w' [snapshot'] [].
Proof.
  intros Hdb Hid snapshot'. subst snapshot'.
  unfold SaveSnapshot, bind, time_Now, db_exec, create_snapshot.
  cbn [stmts db_fault db MetricSnapshot.ID MetricSnapshot.with_Timestamp]. rewrite Hdb, Hid.
  cbn [Z.eqb]. eexists. split; [reflexivity |].
  split; cbn [db db_fault Gorm.alerts Gorm.metric_snapshots]; rewrite ?app_nil_r; reflexivity.
Qed.

Lemma log_if_err_ok {A : Type} (call : M (A * option Go.error)) (msg : string)
  (w w' : World) (a : A) :
  call w = ((a, None), w') -> Server.log_if_err call msg w = (a, w').
Proof. intros H. unfold Server.log_if_err, bind. rewrite H. reflexivity. Qed.

End StoreWrites.

(** ** Threshold alerts *)

Section ThresholdAlerts.

Import Models Server.

Variable Sprintf_1f : Go.float64 -> string.

Lemma usage_alerts_length cluster critical elevated usage l :
  usage_alerts cluster critical elevated usage l -> (length l <= 1)%nat.
Proof.
  unfold usage_alerts, raised.
  destruct (Go.fgt usage _); [| destruct (Go.fgt usage _)].
  - intros (a & -> & _). simpl. lia.
  - intros (a & -> & _). simpl. lia.
  - intros ->. simpl. lia.
Qed.

(** One [if cond { alert := ...; save, log on error }]. *)
Lemma save_block_run (store : Store.MetricsStore) (cond : bool)
  (cluster severity message msg : string) (w : World) :
  db_sound w ->
  exists l w',
    (if cond
     then (log_if_err (Store.SaveAlert store (Alert.mk 0 cluster severity message 0 false)) msg ;;
           ret tt)
     else ret tt) w = (tt, w')
    /\ grows w w' [] l
    /\ (if cond then raised cluster severity message l else l = []).
Proof.
  intros Hdb. destruct cond.
  - destruct (SaveAlert_run store (Alert.mk 0 cluster severity message 0 false) w
                (Hdb _) eq_refl) as (w' & Hrun & Hg).
    eexists _, w'. split; [| split; [exact Hg |]].
    + rewrite bind_run, (log_if_err_ok _ _ _ _ _ Hrun). reflexivity.
    + eexists. split; [reflexivity |]. repeat split.
  - exists [], w. split; [reflexivity |]. split; [apply grows_refl | reflexivity].
Qed.

(** The whole of [checkAndCreateAlerts] on a database that runs the
    statements. *)
Lemma checkAndCreateAlerts_run (metricsStore : Store.MetricsStore) (cluster : string)
  (cpuUsage memUsage : Go.float64) (failedPods : Z) (w : World) :
  db_sound w ->
  exists w' cpuAlerts memAlerts podAlerts,
    checkAndCreateAlerts Sprintf_1f metricsStore cluster cpuUsage memUsage failedPods w
    = (tt, w')
    /\ grows w w' [] (cpuAlerts ++ memAlerts ++ podAlerts)
    /\ usage_alerts cluster
         ("CPU usage is critically high at " +:+ Sprintf_1f cpuUsage +:+ "%")
         ("CPU usage is elevated at " +:+ Sprintf_1f cpuUsage +:+ "%")
         cpuUsage cpuAlerts
    /\ usage_alerts cluster
         ("Memory usage is critically high at " +:+ Sprintf_1f memUsage +:+ "%")
         ("Memory usage is elevated at " +:+ Sprintf_1f memUsage +:+ "%")
         memUsage memAlerts
    /\ (if 0 <? failedPods
        then raised cluster "Warning" (Go.itoa failedPods +:+ " pod(s) in failed state")
               podAlerts
        else podAlerts = []).
Proof.
  intros Hdb. unfold checkAndCreateAlerts, usage_alerts. cbv zeta.
  rewrite bind_run.
  assert (Hcpu : exists l w1,
             (if Go.fgt cpuUsage (Go.float64_of_int 95)
              then (log_if_err (Store.SaveAlert metricsStore
                      (Alert.mk 0 cluster "Critical"
                         ("CPU usage is critically high at " +:+ Sprintf_1f cpuUsage +:+ "%")
                         0 false)) "Failed to save CPU critical alert: " ;; ret tt)
              else if Go.fgt cpuUsage (Go.float64_of_int 80)
              then (log_if_err (Store.SaveAlert metricsStore
                      (Alert.mk 0 cluster "Warning"
                         ("CPU usage is elevated at " +:+ Sprintf_1f cpuUsage +:+ "%")
                         0 false)) "Failed to save CPU warning alert: " ;; ret tt)
              else ret tt) w = (tt, w1)
             /\ grows w w1 [] l
             /\ (if Go.fgt cpuUsage (Go.float64_of_int 95)
                 then raised cluster "Critical"
                        ("CPU usage is critically high at " +:+ Sprintf_1f cpuUsage +:+ "%") l
                 else if Go.fgt cpuUsage (Go.float64_of_int 80)
                 then raised cluster "Warning"
                        ("CPU usage is elevated at " +:+ Sprintf_1f cpuUsage +:+ "%") l
                 else l = [])).
  { destruct (Go.fgt cpuUsage (Go.float64_of_int 95)).
    - apply (save_block_run metricsStore true). exact Hdb.
    - apply (save_block_run metricsStore (Go.fgt cpuUsage (Go.float64_of_int 80))). exact Hdb. }
  destruct Hcpu as (cpuAlerts & w1 & Hrun1 & Hg1 & Hcpu).
  rewrite Hrun1. cbn [fst snd].
  pose proof (grows_sound _ _ _ _ Hg1 Hdb) as Hdb1.
  rewrite bind_run.
  assert (Hmem : exists l w2,
             (if Go.fgt memUsage (Go.float64_of_int 95)
              then (log_if_err (Store.SaveAlert metricsStore
                      (Alert.mk 0 cluster "Critical"
                         ("Memory usage is critically high at " +:+ Sprintf_1f memUsage +:+ "%")
                         0 false)) "Failed to save memory critical alert: " ;; ret tt)
              else if Go.fgt memUsage (Go.float64_of_int 80)
              then (log_if_err (Store.SaveAlert metricsStore
                      (Alert.mk 0 cluster "Warning"
                         ("Memory usage is elevated at " +:+ Sprintf_1f memUsage +:+ "%")
                         0 false)) "Failed to save memory warning alert: " ;; ret tt)
              else ret tt) w1 = (tt, w2)
             /\ grows w1 w2 [] l
             /\ (if Go.fgt memUsage (Go.float64_of_int 95)
                 then raised cluster "Critical"
                        ("Memory usage is critically high at " +:+ Sprintf_1f memUsage +:+ "%") l
                 else if Go.fgt memUsage (Go.float64_of_int 80)
                 then raised cluster "Warning"
                        ("Memory usage is elevated at " +:+ Sprintf_1f memUsage +:+ "%") l
                 else l = [])).
  { destruct (Go.fgt memUsage (Go.float64_of_int 95)).
    - apply (save_block_run metricsStore true). exact Hdb1.
    - apply (save_block_run metricsStore (Go.fgt memUsage (Go.float64_of_int 80))). exact Hdb1. }
  destruct Hmem as (memAlerts & w2 & Hrun2 & Hg2 & Hmem).
  rewrite Hrun2. cbn [fst snd].
  pose proof (grows_sound _ _ _ _ Hg2 Hdb1) as Hdb2.
  destruct (save_block_run metricsStore (0 <? failedPods) cluster "Warning"
              (Go.itoa failedPods +:+ " pod(s) in failed state")
              "Failed to save pod failure alert: " w2 Hdb2)
    as (podAlerts & w3 & Hrun3 & Hg3 & Hpod).
  rewrite Hrun3.
  exists w3, cpuAlerts, memAlerts, podAlerts.
  split; [reflexivity |]. split; [| auto].
  pose proof (grows_trans _ _ _ _ _ _ _ Hg1 (grows_trans _ _ _ _ _ _ _ Hg2 Hg3)) as Hg.
  exact Hg.
Qed.

(** C9.  On a database that runs the statements, one call of
    checkAndCreateAlerts appends to the alert table, in this order, at
    most one CPU alert, at most one memory alert and at most one
    failed-pod alert, and changes nothing else in the tables.  The CPU
    (memory) alert is Critical when the figure exceeds 95, otherwise
    Warning when it exceeds 80, otherwise absent: the two branches
    exclude each other.  Whenever failedPods > 0 exactly one failed-pod
    alert is raised and its severity is Warning, although
    determineClusterStatus answers Critical for every such call. *)
Theorem checkAndCreateAlerts_raises (metricsStore : Store.MetricsStore)
  (cluster : string) (cpuUsage memUsage : Go.float64) (failedPods : Z) (w : World) :
  db_sound w ->
  let w' := snd (checkAndCreateAlerts Sprintf_1f metricsStore cluster
                   cpuUsage memUsage failedPods w) in
  exists cpuAlerts memAlerts podAlerts,
    Gorm.alerts (db w') = Gorm.alerts (db w) ++ cpuAlerts ++ memAlerts ++ podAlerts
    /\ Gorm.metric_snapshots (db w') = Gorm.metric_snapshots (db w)
    /\ (length cpuAlerts <= 1)%nat
    /\ (length memAlerts <= 1)%nat
    /\ usage_alerts cluster
         ("CPU usage is critically high at " +:+ Sprintf_1f cpuUsage +:+ "%")
         ("CPU usage is elevated at " +:+ Sprintf_1f cpuUsage +:+ "%")
         cpuUsage cpuAlerts
    /\ usage_alerts cluster
         ("Memory usage is critically high at " +:+ Sprintf_1f memUsage +:+ "%")
         ("Memory usage is elevated at " +:+ Sprintf_1f memUsage +:+ "%")
         memUsage memAlerts
    /\ (0 < failedPods ->
        raised cluster "Warning" (Go.itoa failedPods +:+ " pod(s) in failed state") podAlerts
        /\ forall pending,
             Handlers.determineClusterStatus cpuUsage memUsage pending failedPods
             = "Critical")
    /\ (failedPods <= 0 -> podAlerts = []).
Proof.
  intros Hdb w'. subst w'.
  destruct (checkAndCreateAlerts_run metricsStore cluster cpuUsage memUsage failedPods w Hdb)
    as (w' & cpuAlerts & memAlerts & podAlerts & Hrun & [_ Hs Ha] & Hcpu & Hmem & Hpod).
  rewrite Hrun. cbn [snd].
  exists cpuAlerts, memAlerts, podAlerts.
  split; [exact Ha |].
  split; [rewrite Hs, app_nil_r; reflexivity |].
  split; [eapply usage_alerts_length; exact Hcpu |].
  split; [eapply usage_alerts_length; exact Hmem |].
  split; [exact Hcpu |]. split; [exact Hmem |].
  split.
  - intros Hf. apply Z.ltb_lt in Hf. rewrite Hf in Hpod. split; [exact Hpod |].
    intros pending. unfold Handlers.determineClusterStatus. rewrite Hf.
    rewrite orb_true_r. reflexivity.
  - intros Hf. apply Z.ltb_ge in Hf. rewrite Hf in Hpod. exact Hpod.
Qed.

End ThresholdAlerts.

(** ** The inventory calls only read the clock *)

Section InventoryFrame.

Import KubernetesService.

Lemma ticks_only_refl w : ticks_only w w.
Proof. repeat split. Qed.

Lemma ticks_only_trans w w1 w2 : ticks_only w w1 -> ticks_only w1 w2 -> ticks_only w w2.
Proof. unfold ticks_only. intuition congruence. Qed.

Lemma ticks_only_grows w w' : ticks_only w w' -> grows w w' [] [].
Proof.
  intros (_ & Hf & _ & Hd & _). split; rewrite ?Hd, ?app_nil_r; auto.
Qed.

Lemma formatAge_frame t w : ticks_only w (formatAge t w).2.
Proof. repeat split. Qed.

Lemma GetNodes_range_frame items : forall nodes w,
  ticks_only w (GetNodes_range items nodes w).2.
Proof.
  induction items as [| n items IH]; intros nodes w; [apply ticks_only_refl |].
  cbn [GetNodes_range]. rewrite bind_run.
  eapply ticks_only_trans; [apply (formatAge_frame (Corev1.Node.CreationTimestamp n)) |].
  apply IH.
Qed.

Lemma GetNodes_range_length items : forall nodes w,
  length (GetNodes_range items nodes w).1 = (length nodes + length items)%nat.
Proof.
  induction items as [| n items IH]; intros nodes w.
  - simpl. lia.
  - cbn [GetNodes_range]. rewrite bind_run, IH, length_app. simpl. lia.
Qed.

Lemma GetPods_range_frame items : forall pods w,
  ticks_only w (GetPods_range items pods w).2.
Proof.
  induction items as [| p items IH]; intros pods w; [apply ticks_only_refl |].
  cbn [GetPods_range]. cbv zeta. rewrite bind_run.
  eapply ticks_only_trans; [apply (formatAge_frame (Corev1.Pod.CreationTimestamp p)) |].
  apply IH.
Qed.

Lemma GetPods_range_status items : forall pods w,
  map Models.Pod.Status (GetPods_range items pods w).1
  = map Models.Pod.Status pods ++ map Corev1.Pod.Phase items.
Proof.
  induction items as [| p items IH]; intros pods w.
  - simpl. rewrite app_nil_r. reflexivity.
  - cbn [GetPods_range]. cbv zeta. rewrite bind_run, IH, map_app, <- app_assoc.
    reflexivity.
Qed.

Lemma GetPodSummary_range_status (l1 l2 : list Models.Pod.t) :
  map Models.Pod.Status l1 = map Models.Pod.Status l2 ->
  forall c, GetPodSummary_range l1 c = GetPodSummary_range l2 c.
Proof.
  revert l2. induction l1 as [| p1 l1 IH]; intros [| p2 l2] H c; try discriminate.
  - reflexivity.
  - injection H as Hs Hl. destruct c as [[[running pending] failed] total].
    cbn [GetPodSummary_range]. rewrite Hs.
    destruct (if String.eqb (Models.Pod.Status p2) "Running" then _ else _)
      as [[running' pending'] failed'].
    apply IH. exact Hl.
Qed.

Lemma GetNodeCount_frame s name w : ticks_only w (GetNodeCount s name w).2.
Proof.
  unfold GetNodeCount, GetNodes. rewrite bind_run.
  destruct (GetClient s name) as [client |]; [| apply ticks_only_refl].
  destruct (Clientset.Nodes_List client) as [err | items]; [apply ticks_only_refl |].
  rewrite bind_run. cbn [fst snd ret]. apply GetNodes_range_frame.
Qed.

(** The answer of GetNodeCount does not depend on the world it runs in. *)
Lemma GetNodeCount_result s name w w0 :
  (GetNodeCount s name w).1 = (GetNodeCount s name w0).1.
Proof.
  unfold GetNodeCount, GetNodes. rewrite !bind_run.
  destruct (GetClient s name) as [client |]; [| reflexivity].
  destruct (Clientset.Nodes_List client) as [err | items]; [reflexivity |].
  rewrite !bind_run. cbn [fst snd ret]. rewrite !GetNodes_range_length. reflexivity.
Qed.

Lemma GetPodSummary_frame s name w : ticks_only w (GetPodSummary s name w).2.
Proof.
  unfold GetPodSummary, GetPods. rewrite bind_run.
  destruct (GetClient s name) as [client |]; [| apply ticks_only_refl].
  cbv zeta.
  destruct (Clientset.Pods_List client _) as [err | items]; [apply ticks_only_refl |].
  rewrite bind_run. cbn [fst snd ret]. apply GetPods_range_frame.
Qed.

(** Nor does the answer of GetPodSummary. *)
Lemma GetPodSummary_result s name w w0 :
  (GetPodSummary s name w).1 = (GetPodSummary s name w0).1.
Proof.
  unfold GetPodSummary, GetPods. rewrite !bind_run.
  destruct (GetClient s name) as [client |]; [| reflexivity].
  cbv zeta.
  destruct (Clientset.Pods_List client _) as [err | items]; [reflexivity |].
  rewrite !bind_run. cbn [fst snd ret]. f_equal.
  apply GetPodSummary_range_status. rewrite !GetPods_range_status. reflexivity.
Qed.

End InventoryFrame.

(** ** One collection cycle *)

Section CollectionCycle.

Import Models Server.

Variable Sscanf_f : string -> Go.result Go.float64.
Variable Sprintf_1f : Go.float64 -> string.

Lemma collectMetrics_body_run (k8s : KubernetesService.t) (prom : PrometheusService.t)
  (metricsStore : Store.MetricsStore) (cfg : ClusterConfig.t) (w : World) :
  db_sound w ->
  exists w' snaps als,
    collectMetrics_body Sscanf_f Sprintf_1f k8s prom metricsStore cfg w = (tt, w')
    /\ grows w w' snaps als
    /\ (if ClusterConfig.Enabled cfg
        then exists snapshot, snaps = [snapshot] /\ snapshot_of k8s prom cfg snapshot
        else snaps = [] /\ als = []).
Proof.
  intros Hdb. unfold collectMetrics_body.
  destruct (ClusterConfig.Enabled cfg) eqn:Hen; cbn [negb].
  2: { exists w, [], []. split; [reflexivity |]. split; [apply grows_refl | auto]. }
  cbv zeta. rewrite bind_run.
  pose proof (GetNodeCount_frame k8s (ClusterConfig.Name cfg) w) as Hfr1.
  pose proof (GetNodeCount_result k8s (ClusterConfig.Name cfg) w) as Hres1.
  destruct (KubernetesService.GetNodeCount k8s (ClusterConfig.Name cfg) w) as [r1 w1].
  cbn [fst snd] in *.
  rewrite bind_run.
  pose proof (GetPodSummary_frame k8s (ClusterConfig.Name cfg) w1) as Hfr2.
  pose proof (GetPodSummary_result k8s (ClusterConfig.Name cfg) w1) as Hres2.
  destruct (KubernetesService.GetPodSummary k8s (ClusterConfig.Name cfg) w1) as [r2 w2].
  cbn [fst snd] in *.
  assert (Hg2 : grows w w2 [] []).
  { apply ticks_only_grows. eapply ticks_only_trans; eassumption. }
  pose proof (grows_sound _ _ _ _ Hg2 Hdb) as Hdb2.
  destruct r2 as [[[[running pending] failedPods] podCount] [err2 |]];
    destruct r1 as [err1 | nodeCount];
    (destruct (PrometheusService.CheckConnectivity prom (ClusterConfig.PrometheusURL cfg))
       eqn:Hconn;
     [ destruct (PrometheusService.GetMemoryUsage Sscanf_f prom
                   (ClusterConfig.PrometheusURL cfg)) as [mem [errm |]];
       destruct (PrometheusService.GetCPUUsage Sscanf_f prom
                   (ClusterConfig.PrometheusURL cfg)) as [cpu [errc |]]
     | ]).
  all: rewrite bind_run.
  all: match goal with
       | |- context [Store.SaveSnapshot _ ?snap] =>
           destruct (SaveSnapshot_run metricsStore snap w2 (Hdb2 _) eq_refl)
             as (w3 & Hrun3 & Hg3)
       end.
  all: rewrite (log_if_err_ok _ _ _ _ _ Hrun3); cbn [fst snd].
  all: pose proof (grows_sound _ _ _ _ Hg3 Hdb2) as Hdb3.
  all: match goal with
       | |- context [checkAndCreateAlerts _ _ ?c ?cpuU ?memU ?f ?w0] =>
           destruct (checkAndCreateAlerts_run Sprintf_1f metricsStore c cpuU memU f w0 Hdb3)
             as (w4 & cA & mA & pA & Hrun4 & Hg4 & _)
       end.
  all: rewrite Hrun4.
  all: eexists w4, [_], (cA ++ mA ++ pA).
  all: split; [reflexivity |].
  all: split; [exact (grows_trans _ _ _ _ _ _ _ Hg2 (grows_trans _ _ _ _ _ _ _ Hg3 Hg4)) |].
  all: eexists; split; [reflexivity |].
  all: unfold snapshot_of; split; [reflexivity |].
  all: split; [intros w0; rewrite <- (Hres1 w0); reflexivity |].
  all: split; [intros w0; rewrite <- (Hres2 w0); reflexivity |].
  all: intros Hc; first [congruence | split; reflexivity].
Qed.

Lemma for_range_run (k8s : KubernetesService.t) (prom : PrometheusService.t)
  (metricsStore : Store.MetricsStore) (cfgs : list ClusterConfig.t) :
  forall w, db_sound w ->
  exists w' snaps als,
    for_range cfgs (collectMetrics_body Sscanf_f Sprintf_1f k8s prom metricsStore) w
    = (tt, w')
    /\ grows w w' snaps als
    /\ Forall2 (snapshot_of k8s prom) (List.filter ClusterConfig.Enabled cfgs) snaps.
Proof.
  induction cfgs as [| cfg cfgs IH]; intros w Hdb.
  - exists w, [], []. split; [reflexivity |]. split; [apply grows_refl | constructor].
  - cbn [for_range]. rewrite bind_run.
    destruct (collectMetrics_body_run k8s prom metricsStore cfg w Hdb)
      as (w1 & s1 & a1 & Hrun1 & Hg1 & Hs1).
    rewrite Hrun1. cbn [fst snd].
    destruct (IH w1 (grows_sound _ _ _ _ Hg1 Hdb)) as (w2 & s2 & a2 & Hrun2 & Hg2 & Hs2).
    exists w2, (s1 ++ s2), (a1 ++ a2).
    split; [exact Hrun2 |]. split; [exact (grows_trans _ _ _ _ _ _ _ Hg1 Hg2) |].
    cbn [List.filter]. destruct (ClusterConfig.Enabled cfg).
    + destruct Hs1 as (snapshot & -> & Hsnap). constructor; assumption.
    + destruct Hs1 as [-> _]. exact Hs2.
Qed.

Lemma Forall2_pick {A B : Type} (P : A -> B -> Prop) (l : list A) (l' : list B) (x : A) :
  Forall2 P l l' -> x ∈ l -> exists y, y ∈ l' /\ P x y.
Proof.
  induction 1 as [| a b l l' Hab _ IH]; intros Hx.
  - inversion Hx.
  - apply elem_of_cons in Hx as [-> | Hx].
    + exists b. split; [left | exact Hab].
    + destruct (IH Hx) as (y & Hy & HP). exists y. split; [right; exact Hy | exact HP].
Qed.

(** C2.  On a database that runs the statements, one collection cycle
    appends to the snapshot table exactly one row for every enabled
    configuration, in the order of the configuration, and none for a
    disabled one.  The row of a cluster carries its name, its node
    count when the node-count call succeeds and zero when it fails, its
    pod total when the pod-summary call succeeds and zero when it
    fails, and zero percentages when the metrics endpoint is not
    reachable.  Nothing is assumed about which calls fail: the row of
    one cluster is written whatever happens to the calls of another. *)
Theorem collectMetrics_appends (k8s : KubernetesService.t) (prom : PrometheusService.t)
  (metricsStore : Store.MetricsStore) (w : World) :
  db_sound w ->
  let w' := (collectMetrics Sscanf_f Sprintf_1f (Some k8s) prom metricsStore w).2 in
  let enabled := List.filter ClusterConfig.Enabled (KubernetesService.GetConfigs k8s) in
  exists snapshots,
    Gorm.metric_snapshots (db w') = Gorm.metric_snapshots (db w) ++ snapshots
    /\ Forall2 (snapshot_of k8s prom) enabled snapshots
    /\ length snapshots = length enabled
    /\ map MetricSnapshot.Cluster snapshots = map ClusterConfig.Name enabled
    /\ (forall cfg, cfg ∈ KubernetesService.GetConfigs k8s ->
                    ClusterConfig.Enabled cfg = true ->
                    exists snapshot, snapshot ∈ snapshots /\ snapshot_of k8s prom cfg snapshot).
Proof.
  intros Hdb w' enabled. subst w'. unfold collectMetrics.
  destruct (for_range_run k8s prom metricsStore (KubernetesService.GetConfigs k8s) w Hdb)
    as (w' & snaps & als & Hrun & [_ Hs _] & Hall).
  rewrite Hrun. cbn [snd]. fold enabled in Hall.
  exists snaps. split; [exact Hs |]. split; [exact Hall |].
  split; [symmetry; eapply Forall2_length; exact Hall |].
  split.
  - clear -Hall. induction Hall as [| cfg snap l l' Hsnap _ IH]; [reflexivity |].
    cbn [map]. rewrite IH. destruct Hsnap as [-> _]. reflexivity.
  - intros cfg Hin Hen. apply (Forall2_pick _ _ _ cfg Hall).
    subst enabled. apply list_elem_of_In, List.filter_In.
    split; [apply list_elem_of_In; exact Hin | exact Hen].
Qed.

End CollectionCycle.

(** ** Startup *)

Section Startup.

Import Models Server.

Lemma initializeClients_range_configs h kubeconfig cfgs : forall s w,
  KubernetesService.configs
    (KubernetesService.initializeClients_range h kubeconfig cfgs s w).1
  = KubernetesService.configs s.
Proof.
  induction cfgs as [| cfg cfgs IH]; intros s w; [reflexivity |].
  cbn [KubernetesService.initializeClients_range].
  destruct (negb (ClusterConfig.Enabled cfg)); [apply IH |].
  destruct (Host.ClientConfig h kubeconfig _) as [err | config].
  - rewrite bind_run. apply IH.
  - destruct (Host.NewForConfig h config) as [err | clientset].
    + rewrite bind_run. apply IH.
    + rewrite IH. reflexivity.
Qed.

(** NewKubernetesService fails exactly when the configuration cannot be
    loaded; a client that cannot be built never makes it fail. *)
Lemma NewKubernetesService_result h configPath w :
  match (KubernetesService.NewKubernetesService h configPath w).1 with
  | inl _ => ~ config_loads h configPath
  | inr svc =>
      exists data config,
        Host.ReadFile h configPath = inr data /\ Host.yaml_Unmarshal h data = inr config
        /\ KubernetesService.configs svc = ClustersConfig.Clusters config
  end.
Proof.
  unfold KubernetesService.NewKubernetesService, KubernetesService.loadConfigs, config_loads.
  cbn [KubernetesService.configPath].
  destruct (Host.ReadFile h configPath) as [err | data] eqn:Hread.
  - cbn. intros (data & config & [=] & _).
  - destruct (Host.yaml_Unmarshal h data) as [err | config] eqn:Hyaml.
    + cbn. intros (data' & config & [= <-] & Hy). congruence.
    + rewrite bind_run. unfold KubernetesService.initializeClients.
      rewrite bind_run. cbn [fst snd ret].
      exists data, config. split; [reflexivity |]. split; [exact Hyaml |].
      rewrite initializeClients_range_configs. reflexivity.
Qed.

Lemma NewMetricsStore_result h dbPath w :
  match (Store.NewMetricsStore h dbPath w).1 with
  | inl _ => ~ store_opens h dbPath
  | inr metricsStore => store_opens h dbPath /\ metricsStore = Store.mk dbPath
  end.
Proof.
  unfold Store.NewMetricsStore, store_opens.
  destruct (Host.gorm_Open h dbPath) as [err | d] eqn:Hopen.
  - cbn. intros (d & d' & [=] & _).
  - destruct (Host.AutoMigrate h d) as [err | d'] eqn:Hmig.
    + cbn. intros (d0 & d' & [= <-] & Hm). congruence.
    + cbn. split; [eauto | reflexivity].
Qed.

Lemma NewMetricsStore_logs h dbPath w :
  logs (Store.NewMetricsStore h dbPath w).2 = logs w.
Proof.
  unfold Store.NewMetricsStore.
  destruct (Host.gorm_Open h dbPath) as [err | d]; [reflexivity |].
  destruct (Host.AutoMigrate h d) as [err | d']; reflexivity.
Qed.

(** C3 (as the code has it).  The start of [main] ends the process in
    exactly two cases: the data directory cannot be created, or the
    metrics store cannot be opened.  A configuration that cannot be
    loaded does not end it: the failure of NewKubernetesService is
    logged as a warning and the process goes on to serve with a nil
    Kubernetes service; with a configuration that loads it serves with
    a service holding that configuration. *)
Theorem main_startup_outcomes (h : Host.t) (w : World) :
  let configPath := getEnv h "CLUSTER_CONFIG" "k8s-configs/clusters.yaml" in
  let dbPath := getEnv h "DB_PATH" "data/metrics.db" in
  let data_dir_created := Host.MkdirAll h (Host.filepath_Dir h dbPath) = None in
  let outcome := (main h w).1 in
  (outcome = Exited 1 <-> ~ (data_dir_created /\ store_opens h dbPath))
  /\ (data_dir_created -> store_opens h dbPath -> ~ config_loads h configPath ->
      outcome = Serving None (Store.mk dbPath)
      /\ "Dashboard will run with limited functionality" ∈ logs (main h w).2)
  /\ (data_dir_created -> store_opens h dbPath -> config_loads h configPath ->
      exists svc data config,
        outcome = Serving (Some svc) (Store.mk dbPath)
        /\ Host.ReadFile h configPath = inr data
        /\ Host.yaml_Unmarshal h data = inr config
        /\ KubernetesService.configs svc = ClustersConfig.Clusters config).
Proof.
  intros configPath dbPath data_dir_created outcome.
  subst outcome data_dir_created. unfold main. fold configPath. fold dbPath.
  destruct (Host.MkdirAll h (Host.filepath_Dir h dbPath)) as [err |] eqn:Hmk.
  { rewrite bind_run. cbn [fst snd ret].
    split; [| split]; try (intros [=]; fail).
    split; [intros _ [[=] _] | reflexivity]. }
  rewrite bind_run. cbn [Printf fst snd].
  set (w0 := mkWorld _ _ _ _ _ _).
  rewrite bind_run.
  pose proof (NewKubernetesService_result h configPath w0) as Hk.
  destruct (KubernetesService.NewKubernetesService h configPath w0) as [rk wk].
  cbn [fst snd] in *.
  destruct rk as [errk | svc]; rewrite !bind_run; cbn [Printf ret fst snd].
  - set (w3 := mkWorld _ _ _ _ _ _).
    pose proof (NewMetricsStore_result h dbPath w3) as Hs.
    pose proof (NewMetricsStore_logs h dbPath w3) as Hl.
    destruct (Store.NewMetricsStore h dbPath w3) as [rs ws].
    cbn [fst snd] in *.
    destruct rs as [errs | metricsStore].
    + rewrite bind_run. cbn [Printf ret fst snd].
      split; [split; [intros _ [_ Ho]; contradiction | reflexivity] |].
      split; intros _ Ho; contradiction.
    + destruct Hs as [Ho ->]. cbn [ret fst snd].
      split; [split; [intros [=] | intros Hn; exfalso; apply Hn; auto] |].
      split.
      * intros _ _ _. split; [reflexivity |].
        rewrite Hl. subst w3. cbn [logs]. set_solver.
      * intros _ _ Hc. contradiction.
  - set (w3 := mkWorld _ _ _ _ _ _).
    pose proof (NewMetricsStore_result h dbPath w3) as Hs.
    destruct (Store.NewMetricsStore h dbPath w3) as [rs ws].
    cbn [fst snd] in *.
    destruct Hk as (data & config & Hread & Hyaml & Hcfg).
    destruct rs as [errs | metricsStore].
    + rewrite bind_run. cbn [Printf ret fst snd].
      split; [split; [intros _ [_ Ho]; contradiction | reflexivity] |].
      split; intros _ Ho; contradiction.
    + destruct Hs as [Ho ->]. cbn [ret fst snd].
      split; [split; [intros [=] | intros Hn; exfalso; apply Hn; auto] |].
      split.
      * intros _ _ Hn. exfalso. apply Hn. exists data, config. auto.
      * intros _ _ _. exists svc, data, config. auto.
Qed.

End Startup.

Lemma deployment_cycle_rows :
  map (fun s => (Models.MetricSnapshot.Cluster s, Models.MetricSnapshot.NodeCount s, Models.MetricSnapshot.PodCount s))
      (drop 5 (Gorm.metric_snapshots
                 (db (Server.collectMetrics scan_decimal Deployment.Sprintf_1f
                        (Some Deployment.k8s) Deployment.prom Deployment.store
                        Deployment.world).2)))
  = [("production", 2, 6); ("staging", 0, 0); ("edge", 0, 0)].
Proof. vm_compute. reflexivity. Qed.

Lemma deployment_cycle_alerts :
  map (fun a => (Models.Alert.Cluster a, Models.Alert.Severity a, Models.Alert.Message a))
      (drop 3 (Gorm.alerts
                 (db (Server.collectMetrics scan_decimal Deployment.Sprintf_1f
                        (Some Deployment.k8s) Deployment.prom Deployment.store
                        Deployment.world).2)))
  = [("production", "Critical", "CPU usage is critically high at 97.5%");
     ("production", "Warning", "1 pod(s) in failed state")].
Proof. vm_compute. reflexivity. Qed.

(* ===================================================================== *)
(** * The properties at work on the deployment *)
(* ===================================================================== *)

(** The node with the control-plane label has exactly that role, in the
    order in which the map lists its labels. *)
Lemma getNodeRoles_in_roles_witness :
  map_to_list Deployment.control_plane_labels
    ≡ₚ map_to_list (Corev1.Node.Labels (Deployment.node "node-1" Deployment.control_plane_labels))
  /\ KubernetesService.getNodeRoles_in (map_to_list Deployment.control_plane_labels) <> []
  /\ NoDup (KubernetesService.getNodeRoles_in (map_to_list Deployment.control_plane_labels))
  /\ forall r, r ∈ KubernetesService.getNodeRoles_in (map_to_list Deployment.control_plane_labels)
               -> has_role (Deployment.node "node-1" Deployment.control_plane_labels) r.
Proof.
  assert (Hperm : map_to_list Deployment.control_plane_labels
                    ≡ₚ map_to_list (Corev1.Node.Labels
                                      (Deployment.node "node-1" Deployment.control_plane_labels)))
    by reflexivity.
  pose proof (getNodeRoles_in_roles
                (Deployment.node "node-1" Deployment.control_plane_labels)
                (map_to_list Deployment.control_plane_labels) Hperm) as H.
  cbv zeta in H. destruct H as (Hne & Hnd & _ & _ & Hno_worker).
  split; [exact Hperm |]. split; [exact Hne |]. split; [exact Hnd |].
  apply Hno_worker. exists "control-plane". split; [discriminate |].
  vm_compute. eauto.
Defined.

Lemma getNodeRoles_examples :
  KubernetesService.getNodeRoles (Deployment.node "node-2" ∅) = ["worker"]
  /\ KubernetesService.getNodeRoles (Deployment.node "node-1" Deployment.control_plane_labels)
     = ["control-plane"].
Proof. split; vm_compute; reflexivity. Qed.

(** C6, as the claim words it, fails on a node whose only label key is
    the role prefix itself: the suffixes of its role-prefixed label keys
    form the non-empty set that holds the empty string, yet getNodeRoles
    answers worker and not that set. *)
Lemma getNodeRoles_bare_prefix_counterexample :
  is_Some (Corev1.Node.Labels (Deployment.node "node-3" Deployment.bare_prefix_labels)
             !! (KubernetesService.role_prefix +:+ EmptyString))
  /\ KubernetesService.getNodeRoles (Deployment.node "node-3" Deployment.bare_prefix_labels)
     = ["worker"]
  /\ ~ (forall r,
          r ∈ KubernetesService.getNodeRoles (Deployment.node "node-3" Deployment.bare_prefix_labels)
          <-> is_Some (Corev1.Node.Labels (Deployment.node "node-3" Deployment.bare_prefix_labels)
                         !! (KubernetesService.role_prefix +:+ r))).
Proof.
  assert (Hsome : is_Some (Corev1.Node.Labels
                             (Deployment.node "node-3" Deployment.bare_prefix_labels)
                             !! (KubernetesService.role_prefix +:+ EmptyString))).
  { vm_compute. eauto. }
  assert (Hroles : KubernetesService.getNodeRoles
                     (Deployment.node "node-3" Deployment.bare_prefix_labels) = ["worker"]).
  { vm_compute. reflexivity. }
  split; [exact Hsome |]. split; [exact Hroles |].
  intros Hclaim.
  pose proof (proj2 (Hclaim EmptyString) Hsome) as Hin.
  rewrite Hroles in Hin.
  apply list_elem_of_singleton in Hin. discriminate Hin.
Qed.

(** The pods of production: three Running, one Pending, one Failed and
    one Succeeded, which raises the total only. *)
Lemma GetPodSummary_counts_witness :
  Z.of_nat 6 <= Go.int_max
  /\ exists pods w',
       KubernetesService.GetPods Deployment.k8s "production" EmptyString Deployment.world
       = (inr pods, w')
       /\ KubernetesService.GetPodSummary Deployment.k8s "production" Deployment.world
          = ((3, 1, 1, 6), None, w')
       /\ ~ Forall (fun pod => Models.Pod.Status pod = "Running"
                               \/ Models.Pod.Status pod = "Pending"
                               \/ Models.Pod.Status pod = "Failed") pods.
Proof.
  assert (Hmax : Z.of_nat 6 <= Go.int_max) by (vm_compute; discriminate).
  split; [exact Hmax |].
  destruct (KubernetesService.GetPods Deployment.k8s "production" EmptyString Deployment.world)
    as [r w'] eqn:Hrun.
  assert (Hr : exists pods, r = inr pods /\ length pods = 6%nat).
  { assert (Hfst : r = (KubernetesService.GetPods Deployment.k8s "production" EmptyString
                          Deployment.world).1) by (rewrite Hrun; reflexivity).
    rewrite Hfst. vm_compute. eexists. split; reflexivity. }
  destruct Hr as (pods & -> & Hlen).
  exists pods, w'. split; [reflexivity |].
  destruct (GetPodSummary_counts Deployment.k8s "production" Deployment.world w' pods Hrun)
    as (running & pending & failed & total & Hsum & Htotal & Hle & Hiff).
  { rewrite Hlen. exact Hmax. }
  assert (Hval : (KubernetesService.GetPodSummary Deployment.k8s "production"
                    Deployment.world).1 = ((3, 1, 1, 6), None)) by (vm_compute; reflexivity).
  rewrite Hsum in Hval. cbn [fst] in Hval. injection Hval as -> -> -> ->.
  split; [exact Hsum |].
  intros Hall. apply Hiff in Hall. discriminate Hall.
Defined.

(** The row that is exactly one hour old at the reading of the clock is
    neither returned by the range query over the last hour nor deleted by
    a pruning with a retention of one hour. *)
Lemma snapshot_window_witness :
  Go.int_min < Time.Hour <= Go.int_max
  /\ db_fault Deployment.world (stmts Deployment.world) = None
  /\ map Models.MetricSnapshot.ID
         (Store.GetSnapshots Deployment.store "production" Time.Hour Deployment.world).1.1
     = [5; 1]
  /\ Sorted Store.snapshot_asc
            (Store.GetSnapshots Deployment.store "production" Time.Hour Deployment.world).1.1
  /\ map Models.MetricSnapshot.ID
         (Gorm.metric_snapshots
            (db (Store.CleanupOldSnapshots Deployment.store Time.Hour Deployment.world).2))
     = [1; 2; 3; 5]
  /\ Gorm.alerts (db (Store.CleanupOldSnapshots Deployment.store Time.Hour Deployment.world).2)
     = Gorm.alerts (db Deployment.world).
Proof.
  assert (Hd : Go.int_min < Time.Hour <= Go.int_max) by (vm_compute; split; congruence).
  assert (Hdb : db_fault Deployment.world (stmts Deployment.world) = None) by reflexivity.
  pose proof (snapshot_window Deployment.store "production" Time.Hour Deployment.world Hd Hdb)
    as H.
  cbv zeta in H. destruct H as [Hget Hclean].
  destruct (Store.GetSnapshots Deployment.store "production" Time.Hour Deployment.world)
    as [[snapshots err] w1] eqn:Hrun1.
  destruct (Store.CleanupOldSnapshots Deployment.store Time.Hour Deployment.world)
    as [err' w2] eqn:Hrun2.
  destruct Hget as (_ & _ & Hsorted & _ & _).
  destruct Hclean as (_ & Halerts & _ & _).
  split; [exact Hd |]. split; [exact Hdb |].
  split; [| split; [exact Hsorted | split; [| exact Halerts]]].
  - replace snapshots
      with (Store.GetSnapshots Deployment.store "production" Time.Hour Deployment.world).1.1
      by (rewrite Hrun1; reflexivity).
    vm_compute. reflexivity.
  - replace w2
      with (Store.CleanupOldSnapshots Deployment.store Time.Hour Deployment.world).2
      by (rewrite Hrun2; reflexivity).
    vm_compute. reflexivity.
Defined.


(** Resolving alert 1 takes it out of the active alerts, which leaves
    alert 3; resolving the unknown id 99 or the resolved alert 2 changes
    nothing. *)
Lemma ResolveAlert_idempotent_witness :
  db_fault Deployment.world (stmts Deployment.world) = None
  /\ db_fault Deployment.world (S (stmts Deployment.world)) = None
  /\ (Store.ResolveAlert Deployment.store 1 Deployment.world).1 = None
  /\ (forall a,
        a ∈ Gorm.alerts (db (Store.ResolveAlert Deployment.store 1 Deployment.world).2) ->
        Models.Alert.ID a = 1 -> Models.Alert.Resolved a = true)
  /\ map Models.Alert.ID
         (Store.GetActiveAlerts Deployment.store
            (Store.ResolveAlert Deployment.store 1 Deployment.world).2).1.1 = [3]
  /\ (Store.ResolveAlert Deployment.store 99 Deployment.world).1 = None
  /\ db (Store.ResolveAlert Deployment.store 99 Deployment.world).2 = db Deployment.world
  /\ db (Store.ResolveAlert Deployment.store 2 Deployment.world).2 = db Deployment.world.
Proof.
  assert (Hdb : db_fault Deployment.world (stmts Deployment.world) = None) by reflexivity.
  assert (Hdb' : db_fault Deployment.world (S (stmts Deployment.world)) = None) by reflexivity.
  pose proof (ResolveAlert_idempotent Deployment.store 1 Deployment.world Hdb Hdb') as H.
  destruct (Store.ResolveAlert Deployment.store 1 Deployment.world) as [err w1] eqn:Hrun.
  destruct (Store.GetActiveAlerts Deployment.store w1) as [[active err_active] w1'].
  destruct (Store.ResolveAlert Deployment.store 1 w1) as [err_again w2].
  destruct H as (Herr & _ & _ & Hres & _).
  split; [exact Hdb |]. split; [exact Hdb' |].
  split; [exact Herr |]. split; [exact Hres |].
  replace w1 with (Store.ResolveAlert Deployment.store 1 Deployment.world).2
    by (rewrite Hrun; reflexivity).
  repeat split; vm_compute; reflexivity.
Defined.


(** A cluster at 97.5 % CPU and 42.5 % memory with one failed pod gets a
    Critical CPU alert, no memory alert and a Warning for the pod. *)
Lemma checkAndCreateAlerts_raises_witness :
  db_sound Deployment.world
  /\ exists cpuAlerts podAlerts,
       Gorm.alerts
         (db (Server.checkAndCreateAlerts Deployment.Sprintf_1f Deployment.store "production"
                (Go.fdiv (Go.float64_of_int 975) (Go.float64_of_int 10)) f42_5 1
                Deployment.world).2)
       = Gorm.alerts (db Deployment.world) ++ cpuAlerts ++ [] ++ podAlerts
       /\ raised "production" "Critical" "CPU usage is critically high at 97.5%" cpuAlerts
       /\ raised "production" "Warning" "1 pod(s) in failed state" podAlerts.
Proof.
  assert (Hdb : db_sound Deployment.world) by (intros k; reflexivity).
  split; [exact Hdb |].
  destruct (checkAndCreateAlerts_raises Deployment.Sprintf_1f Deployment.store "production"
              (Go.fdiv (Go.float64_of_int 975) (Go.float64_of_int 10)) f42_5 1
              Deployment.world Hdb)
    as (cpuAlerts & memAlerts & podAlerts & Halerts & _ & _ & _ & Hcpu & Hmem & Hpod & _).
  unfold usage_alerts in Hcpu, Hmem.
  replace (Go.fgt (Go.fdiv (Go.float64_of_int 975) (Go.float64_of_int 10))
                  (Go.float64_of_int 95)) with true in Hcpu by (vm_compute; reflexivity).
  replace (Go.fgt f42_5 (Go.float64_of_int 95)) with false in Hmem by (vm_compute; reflexivity).
  replace (Go.fgt f42_5 (Go.float64_of_int 80)) with false in Hmem by (vm_compute; reflexivity).
  subst memAlerts.
  destruct Hpod as [Hpod _]; [reflexivity |].
  exists cpuAlerts, podAlerts.
  split; [exact Halerts |]. split; [exact Hcpu | exact Hpod].
Defined.


(** One cycle over the deployment: production, staging and edge get a
    row each, dev gets none; the rows of staging and edge, whose
    inventory calls fail, hold zero counts. *)
Lemma collectMetrics_appends_witness :
  db_sound Deployment.world
  /\ exists snapshots,
       Gorm.metric_snapshots
         (db (Server.collectMetrics scan_decimal Deployment.Sprintf_1f
                (Some Deployment.k8s) Deployment.prom Deployment.store Deployment.world).2)
       = Gorm.metric_snapshots (db Deployment.world) ++ snapshots
       /\ map Models.MetricSnapshot.Cluster snapshots = ["production"; "staging"; "edge"]
       /\ length snapshots = 3%nat.
Proof.
  assert (Hdb : db_sound Deployment.world) by (intros k; reflexivity).
  split; [exact Hdb |].
  destruct (collectMetrics_appends scan_decimal Deployment.Sprintf_1f
              Deployment.k8s Deployment.prom Deployment.store Deployment.world Hdb)
    as (snapshots & Hrows & _ & Hlen & Hnames & _).
  exists snapshots. split; [exact Hrows |]. split; [exact Hnames | exact Hlen].
Defined.


(** C3, as the claim words it, fails on a host where the configuration
    file is missing: NewKubernetesService fails, and [main] goes on to
    serve with a nil Kubernetes service instead of ending the process.
    And a failure that is not one of configuration does end it: with a
    configuration that loads and a database that cannot be opened, [main]
    exits with status 1. *)
Lemma main_missing_config_counterexample :
  ~ config_loads Deployment.host_without_config
      (Server.getEnv Deployment.host_without_config "CLUSTER_CONFIG" "k8s-configs/clusters.yaml")
  /\ (KubernetesService.NewKubernetesService Deployment.host_without_config
        "k8s-configs/clusters.yaml" Deployment.world).1
     = inl "failed to load cluster configs: open k8s-configs/clusters.yaml: no such file or directory"
  /\ (Server.main Deployment.host_without_config Deployment.world).1
     = Server.Serving None (Store.mk "data/metrics.db")
  /\ config_loads Deployment.host_without_database "k8s-configs/clusters.yaml"
  /\ (Server.main Deployment.host_without_database Deployment.world).1 = Server.Exited 1.
Proof.
  split; [| split; [| split; [| split]]].
  - intros (data & config & Hread & _). discriminate Hread.
  - vm_compute. reflexivity.
  - vm_compute. reflexivity.
  - exists "clusters: []", (Models.ClustersConfig.mk Deployment.configs).
    split; reflexivity.
  - vm_compute. reflexivity.
Qed.

(* ===================================================================== *)
(** * Further properties of the code *)
(* ===================================================================== *)

(** ** Invariants along a computation *)

Section Preservation.

Variable J : (nat -> option Go.error) -> Gorm.DB -> Prop.

Lemma preserves_ret {A : Type} (a : A) : preserves J (ret a).
Proof. intros w H. exact H. Qed.

Lemma preserves_bind {A B : Type} (c : M A) (k : A -> M B) :
  preserves J c -> (forall a, preserves J (k a)) -> preserves J (bind c k).
Proof.
  intros Hc Hk w H. rewrite bind_run. apply Hk. apply Hc. exact H.
Qed.

Lemma preserves_Printf (line : string) : preserves J (Printf line).
Proof. intros w H. exact H. Qed.

Lemma preserves_time_Now : preserves J time_Now.
Proof. intros w H. exact H. Qed.

Lemma preserves_ticks_only {A : Type} (c : M A) :
  (forall w, ticks_only w (c w).2) -> preserves J c.
Proof.
  intros Hc w H. destruct (Hc w) as (_ & Hf & _ & Hd & _). rewrite Hf, Hd. exact H.
Qed.

Lemma preserves_db_exec {A : Type} (run : Gorm.DB -> Go.result (A * Gorm.DB)) (failed : A) :
  (forall f d a d', J f d -> (exists k, f k = None) -> run d = inr (a, d') -> J f d') ->
  preserves J (db_exec run failed).
Proof.
  intros Hrun w H. unfold db_exec.
  destruct (db_fault w (stmts w)) as [err |] eqn:Hfault; [exact H |].
  destruct (run (db w)) as [err | [a d']] eqn:Hr; [exact H |].
  cbn [snd db db_fault]. eapply Hrun; eauto.
Qed.

Lemma preserves_log_if_err {A : Type} (call : M (A * option Go.error)) (msg : string) :
  preserves J call -> preserves J (Server.log_if_err call msg).
Proof.
  intros Hc. unfold Server.log_if_err. apply preserves_bind; [exact Hc |].
  intros [a [err |]].
  - apply preserves_bind; [apply preserves_Printf | intros _; apply preserves_ret].
  - apply preserves_ret.
Qed.

Lemma preserves_for_range {A : Type} (l : list A) (body : A -> M unit) :
  (forall x, preserves J (body x)) -> preserves J (for_range l body).
Proof.
  intros Hb. induction l as [| x l IH]; [apply preserves_ret |].
  cbn [for_range]. apply preserves_bind; [apply Hb | intros _; exact IH].
Qed.

Hypothesis HJ : collector_inv J.

Lemma preserves_SaveSnapshot s snapshot :
  Models.MetricSnapshot.ID snapshot = 0 -> preserves J (Store.SaveSnapshot s snapshot).
Proof.
  intros Hid. unfold Store.SaveSnapshot.
  apply preserves_bind; [apply preserves_time_Now | intros now].
  apply preserves_db_exec. intros f d a d' Hd Hk Hrun.
  eapply (inv_create_snapshot J HJ f d (Models.MetricSnapshot.with_Timestamp now snapshot));
    [exact Hd | exact Hk | exact Hid | exact Hrun].
Qed.

Lemma preserves_SaveAlert s alert :
  Models.Alert.ID alert = 0 -> preserves J (Store.SaveAlert s alert).
Proof.
  intros Hid. unfold Store.SaveAlert.
  apply preserves_bind; [apply preserves_time_Now | intros now].
  apply preserves_db_exec. intros f d a d' Hd Hk Hrun.
  eapply (inv_create_alert J HJ f d (Models.Alert.with_Timestamp now alert));
    [exact Hd | exact Hk | exact Hid | exact Hrun].
Qed.

Lemma preserves_CleanupOldSnapshots s olderThan :
  preserves J (Store.CleanupOldSnapshots s olderThan).
Proof.
  unfold Store.CleanupOldSnapshots.
  apply preserves_bind; [apply preserves_time_Now | intros now].
  apply preserves_bind; [| intros [u err]; apply preserves_ret].
  apply preserves_db_exec. intros f d a d' Hd Hk [= _ <-].
  apply (inv_delete_snapshots J HJ); assumption.
Qed.

Variable Sscanf_f : string -> Go.result Go.float64.
Variable Sprintf_1f : Go.float64 -> string.

Lemma preserves_checkAndCreateAlerts store cluster cpuUsage memUsage failedPods :
  preserves J (Server.checkAndCreateAlerts Sprintf_1f store cluster cpuUsage memUsage
                 failedPods).
Proof.
  unfold Server.checkAndCreateAlerts. cbv zeta.
  repeat first
    [ apply preserves_ret
    | apply preserves_log_if_err
    | apply preserves_SaveAlert; reflexivity
    | apply preserves_bind; [| intros ?]
    | match goal with |- preserves _ (if ?b then _ else _) => destruct b end ].
Qed.

Lemma preserves_collectMetrics_body k8s prom store cfg :
  preserves J (Server.collectMetrics_body Sscanf_f Sprintf_1f k8s prom store cfg).
Proof.
  unfold Server.collectMetrics_body.
  destruct (negb (Models.ClusterConfig.Enabled cfg)); [apply preserves_ret |].
  cbv zeta.
  apply preserves_bind; [apply preserves_ticks_only; apply GetNodeCount_frame | intros r1].
  apply preserves_bind; [apply preserves_ticks_only; apply GetPodSummary_frame | intros r2].
  destruct r2 as [[[[running pending] failedPods] podCount] [err2 |]];
    destruct r1 as [err1 | nodeCount];
    (destruct (PrometheusService.CheckConnectivity prom _);
     [ destruct (PrometheusService.GetMemoryUsage Sscanf_f prom _) as [mem [errm |]];
       destruct (PrometheusService.GetCPUUsage Sscanf_f prom _) as [cpu [errc |]]
     | ]).
  all: apply preserves_bind;
    [ apply preserves_log_if_err; apply preserves_SaveSnapshot; reflexivity
    | intros snapshot; apply preserves_checkAndCreateAlerts ].
Qed.

Lemma preserves_collectMetrics k8s prom store :
  preserves J (Server.collectMetrics Sscanf_f Sprintf_1f k8s prom store).
Proof.
  unfold Server.collectMetrics. destruct k8s as [k8s |]; [| apply preserves_ret].
  apply preserves_for_range. intros cfg. apply preserves_collectMetrics_body.
Qed.

Lemma preserves_startMetricsCollector k8s prom store ticks :
  preserves J (Server.startMetricsCollector Sscanf_f Sprintf_1f k8s prom store ticks).
Proof.
  induction ticks as [| [|] ticks IH]; cbn [Server.startMetricsCollector].
  - apply preserves_ret.
  - apply preserves_bind; [apply preserves_collectMetrics | intros _; exact IH].
  - apply preserves_bind; [| intros _; exact IH].
    apply preserves_log_if_err.
    apply preserves_bind; [apply preserves_CleanupOldSnapshots | intros err; apply preserves_ret].
Qed.

End Preservation.

(** ** Primary keys *)

Section PrimaryKeys.

Import Models.

Lemma existsb_false_ids {A : Type} (key : A -> Z) (l : list A) (k : Z) :
  existsb (fun r => key r =? k) l = false -> k ∉ map key l.
Proof.
  intros Hex Hin. apply list_elem_of_fmap in Hin as (r & -> & Hr).
  assert (Ht : existsb (fun r' => key r' =? key r) l = true).
  { apply existsb_exists. exists r. split; [apply list_elem_of_In; exact Hr | apply Z.eqb_refl]. }
  congruence.
Qed.

Lemma table_keys_fresh {A : Type} (key : A -> Z) (l : list A) (seq : Z) :
  table_keys key l seq -> seq + 1 ∉ map key l.
Proof.
  intros (_ & _ & Hall) Hin. apply list_elem_of_fmap in Hin as (r & Heq & Hr).
  rewrite Forall_forall in Hall. specialize (Hall r Hr). cbv beta in Hall. lia.
Qed.

(** Appending a row whose key is positive, not yet used, and covered by
    the new last row id keeps the keys of a table well formed. *)
Lemma table_keys_append {A : Type} (key : A -> Z) (l : list A) (row : A) (seq seq' : Z) :
  table_keys key l seq ->
  key row ∉ map key l -> 0 < key row <= seq' -> seq <= seq' ->
  table_keys key (l ++ [row]) seq'.
Proof.
  intros (Hseq & Hnd & Hall) Hfresh Hrow Hle. split; [lia |]. split.
  - rewrite map_app. apply NoDup_app. split; [exact Hnd |]. split.
    + intros x Hx Hx'. apply list_elem_of_singleton in Hx'. subst x. contradiction.
    + apply NoDup_singleton.
  - apply Forall_app. split.
    + eapply List.Forall_impl; [| exact Hall]. intros r Hr. cbv beta in *. lia.
    + constructor; [exact Hrow | constructor].
Qed.

Lemma table_keys_filter {A : Type} (key : A -> Z) (P : A -> Prop)
  `{!forall x, Decision (P x)} (l : list A) (seq : Z) :
  table_keys key l seq -> table_keys key (filter P l) seq.
Proof.
  intros (Hseq & Hnd & Hall). split; [exact Hseq |]. split.
  - apply (sublist_NoDup (map key (filter P l)) (map key l)); [exact Hnd |].
    apply (fmap_sublist key), sublist_filter.
  - apply Forall_forall. intros r Hr. apply list_elem_of_filter in Hr as [_ Hr].
    rewrite Forall_forall in Hall. apply Hall. exact Hr.
Qed.

Lemma keys_wf_create_snapshot (d d' : Gorm.DB) (row row' : MetricSnapshot.t) :
  keys_wf d -> 0 <= MetricSnapshot.ID row ->
  Store.create_snapshot row d = inr (row', d') ->
  keys_wf d' /\ (MetricSnapshot.ID row' ∉ map MetricSnapshot.ID (Gorm.metric_snapshots d))
  /\ Gorm.metric_snapshots d' = Gorm.metric_snapshots d ++ [row']
  /\ Gorm.alerts d' = Gorm.alerts d.
Proof.
  intros [Hs Ha] Hid. unfold Store.create_snapshot.
  pose proof Hs as (Hseq & _ & _).
  destruct (Z.eqb_spec (MetricSnapshot.ID row) 0) as [H0 | Hn0].
  - intros [= <- <-]. cbn.
    pose proof (table_keys_fresh _ _ _ Hs) as Hfresh.
    split; [| auto].
    split; [| exact Ha]. cbn.
    apply (table_keys_append _ _ _ (Gorm.metric_snapshots_seq d)); cbn; try assumption; lia.
  - destruct (existsb _ _) eqn:Hex; [discriminate |].
    intros [= <- <-]. cbn.
    pose proof (existsb_false_ids _ _ _ Hex) as Hfresh.
    split; [| auto].
    split; [| exact Ha]. cbn.
    apply (table_keys_append _ _ _ (Gorm.metric_snapshots_seq d)); try assumption; lia.
Qed.

Lemma keys_wf_create_alert (d d' : Gorm.DB) (row row' : Alert.t) :
  keys_wf d -> 0 <= Alert.ID row ->
  Store.create_alert row d = inr (row', d') ->
  keys_wf d' /\ (Alert.ID row' ∉ map Alert.ID (Gorm.alerts d))
  /\ Gorm.alerts d' = Gorm.alerts d ++ [row']
  /\ Gorm.metric_snapshots d' = Gorm.metric_snapshots d.
Proof.
  intros [Hs Ha] Hid. unfold Store.create_alert.
  pose proof Ha as (Hseq & _ & _).
  destruct (Z.eqb_spec (Alert.ID row) 0) as [H0 | Hn0].
  - intros [= <- <-]. cbn.
    pose proof (table_keys_fresh _ _ _ Ha) as Hfresh.
    split; [| auto].
    split; [exact Hs |]. cbn.
    apply (table_keys_append _ _ _ (Gorm.alerts_seq d)); cbn; try assumption; lia.
  - destruct (existsb _ _) eqn:Hex; [discriminate |].
    intros [= <- <-]. cbn.
    pose proof (existsb_false_ids _ _ _ Hex) as Hfresh.
    split; [| auto].
    split; [exact Hs |]. cbn.
    apply (table_keys_append _ _ _ (Gorm.alerts_seq d)); try assumption; lia.
Qed.

Lemma keys_wf_delete_snapshots (d : Gorm.DB) (cutoff : Time.Time) :
  keys_wf d -> keys_wf (Store.delete_snapshots cutoff d).
Proof.
  intros [Hs Ha]. split; [| exact Ha]. cbn. apply table_keys_filter. exact Hs.
Qed.

Lemma keys_wf_update_resolved (d : Gorm.DB) (id : Z) :
  keys_wf d -> keys_wf (Store.update_resolved id d).
Proof.
  intros [Hs (Hseq & Hnd & Hall)]. split; [exact Hs |]. cbn.
  assert (Hids : map Alert.ID
                   (map (fun r => if Alert.ID r =? id then Alert.with_Resolved true r else r)
                        (Gorm.alerts d)) = map Alert.ID (Gorm.alerts d)).
  { rewrite map_map. apply map_ext. intros r. destruct (Alert.ID r =? id); reflexivity. }
  split; [exact Hseq |]. split.
  - rewrite Hids. exact Hnd.
  - apply Forall_forall. intros r Hr. apply list_elem_of_fmap in Hr as (r0 & -> & Hr0).
    rewrite Forall_forall in Hall. specialize (Hall r0 Hr0). cbv beta in *.
    destruct (Alert.ID r0 =? id); exact Hall.
Qed.

Lemma keys_wf_collector_inv : collector_inv (fun _ d => keys_wf d).
Proof.
  split.
  - intros f d row row' d' Hd _ Hid Hrun.
    apply (keys_wf_create_snapshot d d' row row' Hd); [lia | exact Hrun].
  - intros f d row row' d' Hd _ Hid Hrun.
    apply (keys_wf_create_alert d d' row row' Hd); [lia | exact Hrun].
  - intros f d cutoff Hd _. apply keys_wf_delete_snapshots. exact Hd.
Qed.

Variable Sscanf_f : string -> Go.result Go.float64.
Variable Sprintf_1f : Go.float64 -> string.

(** X1.  Primary keys stay well formed.  When the ids of both tables
    are pairwise distinct, positive and not above the last row id, they
    are so again after SaveSnapshot and SaveAlert of a row with any
    unsigned id (zero or given), after ResolveAlert, after
    CleanupOldSnapshots, and after any run of the collector, whether the
    engine runs or refuses the statements. *)
Theorem store_keys_kept (s : Store.MetricsStore) (w : World) :
  keys_wf (db w) ->
  (forall snapshot, 0 <= MetricSnapshot.ID snapshot ->
                    keys_wf (db (Store.SaveSnapshot s snapshot w).2))
  /\ (forall alert, 0 <= Alert.ID alert -> keys_wf (db (Store.SaveAlert s alert w).2))
  /\ (forall id, keys_wf (db (Store.ResolveAlert s id w).2))
  /\ (forall olderThan, keys_wf (db (Store.CleanupOldSnapshots s olderThan w).2))
  /\ (forall k8s prom ticks,
        keys_wf (db (Server.startMetricsCollector Sscanf_f Sprintf_1f k8s prom s ticks w).2)).
Proof.
  intros Hw.
  pose (J := fun (_ : nat -> option Go.error) (d : Gorm.DB) => keys_wf d).
  split; [| split; [| split; [| split]]].
  - intros snapshot Hid. unfold Store.SaveSnapshot.
    apply (preserves_bind J); [apply preserves_time_Now | intros now | exact Hw].
    apply preserves_db_exec. intros f d a d' Hd _ Hrun.
    apply (keys_wf_create_snapshot d d' (MetricSnapshot.with_Timestamp now snapshot) a Hd);
      [exact Hid | exact Hrun].
  - intros alert Hid. unfold Store.SaveAlert.
    apply (preserves_bind J); [apply preserves_time_Now | intros now | exact Hw].
    apply preserves_db_exec. intros f d a d' Hd _ Hrun.
    apply (keys_wf_create_alert d d' (Alert.with_Timestamp now alert) a Hd);
      [exact Hid | exact Hrun].
  - intros id. unfold Store.ResolveAlert.
    apply (preserves_bind J); [| intros [u err]; apply preserves_ret | exact Hw].
    apply preserves_db_exec. intros f d a d' Hd _ [= _ <-].
    apply keys_wf_update_resolved. exact Hd.
  - intros olderThan.
    apply (preserves_CleanupOldSnapshots J keys_wf_collector_inv). exact Hw.
  - intros k8s prom ticks.
    apply (preserves_startMetricsCollector J keys_wf_collector_inv). exact Hw.
Qed.

(** X2.  The collector only ever appends to the alert log.  After any
    run of the collector loop, over any sequence of collection and
    cleanup ticks and whatever the engine answers, the alert table is the
    table it started with followed by new rows: no alert is deleted,
    resolved or otherwise changed by the collector. *)
Theorem collector_appends_alerts (k8s : option KubernetesService.t)
  (prom : PrometheusService.t) (s : Store.MetricsStore) (ticks : list Server.Tick)
  (w : World) :
  exists new,
    Gorm.alerts (db (Server.startMetricsCollector Sscanf_f Sprintf_1f k8s prom s ticks w).2)
    = Gorm.alerts (db w) ++ new.
Proof.
  pose (J := fun (_ : nat -> option Go.error) (d : Gorm.DB) =>
               exists new, Gorm.alerts d = Gorm.alerts (db w) ++ new).
  assert (HJ : collector_inv J).
  { split.
    - intros f d row row' d' [new Hd] _ Hid. unfold Store.create_snapshot. rewrite Hid.
      intros [= _ <-]. exists new. exact Hd.
    - intros f d row row' d' [new Hd] _ Hid. unfold Store.create_alert. rewrite Hid.
      intros [= _ <-]. exists (new ++ [Alert.with_ID (Gorm.alerts_seq d + 1) row]).
      cbn. rewrite Hd, app_assoc. reflexivity.
    - intros f d cutoff [new Hd] _. exists new. exact Hd. }
  apply (preserves_startMetricsCollector J HJ).
  exists []. rewrite app_nil_r. reflexivity.
Qed.

End PrimaryKeys.

(** ** The store: writing and reading back *)

Section StoreRoundTrips.

Import Models Store.

#[local] Instance snapshot_asc_total' : Total snapshot_asc.
Proof. intros x y. unfold snapshot_asc. lia. Qed.

#[local] Instance alert_desc_total' : Total alert_desc.
Proof. intros x y. unfold alert_desc. lia. Qed.


Lemma filter_app_singleton {A : Type} (P : A -> Prop) `{!forall x, Decision (P x)}
  (l : list A) (x : A) :
  P x -> filter P (l ++ [x]) = filter P l ++ [x].
Proof.
  intros HP. rewrite filter_app. f_equal.
  rewrite filter_cons. destruct (decide (P x)); [reflexivity | contradiction].
Qed.

(** X3.  A snapshot that was saved is read back.  When the engine runs
    both statements, a snapshot with a zero id is stored with the next
    row id and the time of the call, and a GetSnapshots for its cluster
    whose window reaches back beyond that time returns it; every other
    row returned was in the table before; on a table that was empty the
    result is exactly the saved row. *)
Theorem SaveSnapshot_then_GetSnapshots (s : MetricsStore) (snapshot : MetricSnapshot.t)
  (since : Time.Duration) (w : World) :
  db_fault w (stmts w) = None ->
  db_fault w (S (stmts w)) = None ->
  MetricSnapshot.ID snapshot = 0 ->
  Go.int_min < since <= Go.int_max ->
  clock w (S (ticks w)) - since < clock w (ticks w) ->
  let '(saved, err, w1) := SaveSnapshot s snapshot w in
  let '(found, err', _) := GetSnapshots s (MetricSnapshot.Cluster snapshot) since w1 in
  err = None /\ err' = None
  /\ saved = MetricSnapshot.with_ID (Gorm.metric_snapshots_seq (db w) + 1)
               (MetricSnapshot.with_Timestamp (clock w (ticks w)) snapshot)
  /\ saved ∈ found
  /\ (forall r, r ∈ found -> r = saved \/ r ∈ Gorm.metric_snapshots (db w))
  /\ (Gorm.metric_snapshots (db w) = [] -> found = [saved]).
Proof.
  intros Hdb Hdb' Hid Hsince Hwin.
  unfold SaveSnapshot, GetSnapshots, bind, time_Now, db_exec, create_snapshot.
  cbn [stmts db_fault db ticks clock MetricSnapshot.ID MetricSnapshot.with_Timestamp].
  rewrite Hdb, Hid. cbn [Z.eqb stmts db_fault db ticks clock]. rewrite Hdb'.
  cbn [db Gorm.metric_snapshots]. rewrite cutoff_minus by exact Hsince.
  set (saved := MetricSnapshot.with_ID _ _).
  assert (Hin : forall r, r ∈ select_snapshots (MetricSnapshot.Cluster snapshot)
                                 (clock w (S (ticks w)) - since)
                                 (Gorm.mk (Gorm.metric_snapshots (db w) ++ [saved])
                                    (Gorm.alerts (db w)) (Gorm.metric_snapshots_seq (db w) + 1)
                                    (Gorm.alerts_seq (db w)))
                      <-> (r ∈ Gorm.metric_snapshots (db w) \/ r = saved)
                          /\ MetricSnapshot.Cluster r = MetricSnapshot.Cluster snapshot
                          /\ clock w (S (ticks w)) - since < MetricSnapshot.Timestamp r).
  { intros r. unfold select_snapshots. cbn [Gorm.metric_snapshots].
    rewrite merge_sort_Permutation, list_elem_of_filter, elem_of_app, list_elem_of_singleton.
    tauto. }
  split; [reflexivity |]. split; [reflexivity |]. split; [reflexivity |].
  split; [| split].
  - apply Hin. split; [right; reflexivity |]. split; [reflexivity | exact Hwin].
  - intros r Hr. apply Hin in Hr as [[Hr | Hr] _]; auto.
  - intros Hempty. unfold select_snapshots. cbn [Gorm.metric_snapshots].
    rewrite Hempty. cbn [app].
    rewrite filter_cons. destruct (decide _) as [_ | Hn]; [reflexivity |].
    exfalso. apply Hn. split; [reflexivity | exact Hwin].
Qed.

(** X4.  An alert that was saved is active until it is resolved by the
    id it was given.  On tables with well-formed keys and an engine that
    runs the statements, SaveAlert of an unresolved alert with a zero id
    stores it under an id that no other row carries; GetActiveAlerts
    then returns it together with the alerts that were active before;
    and after ResolveAlert of that id GetActiveAlerts returns exactly
    the alerts that were active before the save, the log holding the
    new row as its last, resolved. *)
Theorem SaveAlert_then_ResolveAlert (s : MetricsStore) (alert : Alert.t) (w : World) :
  keys_wf (db w) ->
  db_fault w (stmts w) = None ->
  db_fault w (S (stmts w)) = None ->
  db_fault w (S (S (stmts w))) = None ->
  Alert.ID alert = 0 ->
  Alert.Resolved alert = false ->
  let '(saved, err, w1) := SaveAlert s alert w in
  let active1 := (GetActiveAlerts s w1).1.1 in
  let '(err2, w2) := ResolveAlert s (Alert.ID saved) w1 in
  let active2 := (GetActiveAlerts s w2).1.1 in
  err = None /\ err2 = None
  /\ (Alert.ID saved ∉ map Alert.ID (Gorm.alerts (db w)))
  /\ (forall a, a ∈ active1 <->
                a = saved \/ (a ∈ Gorm.alerts (db w) /\ Alert.Resolved a = false))
  /\ (forall a, a ∈ active2 <-> a ∈ Gorm.alerts (db w) /\ Alert.Resolved a = false)
  /\ Gorm.alerts (db w2) = Gorm.alerts (db w) ++ [Alert.with_Resolved true saved].
Proof.
  intros Hkeys Hdb Hdb1 Hdb2 Hid Hres.
  unfold SaveAlert, GetActiveAlerts, ResolveAlert, bind, time_Now, db_exec, create_alert, ret.
  cbn [stmts db_fault db ticks clock Alert.ID Alert.with_Timestamp].
  rewrite Hdb, Hid. cbn [Z.eqb stmts db_fault db ticks clock fst snd]. rewrite Hdb1.
  cbn [stmts db_fault db ticks clock fst snd]. rewrite Hdb2.
  cbn [stmts db_fault db ticks clock fst snd Alert.ID Alert.with_ID].
  set (saved := Alert.with_ID _ _).
  set (id := Gorm.alerts_seq (db w) + 1).
  destruct Hkeys as [_ Hkeys].
  pose proof (table_keys_fresh _ _ _ Hkeys) as Hfresh. fold id in Hfresh.
  assert (Hsaved : Alert.Resolved saved = false) by exact Hres.
  assert (Hold : forall a, a ∈ Gorm.alerts (db w) -> Alert.ID a <> id).
  { intros a Ha Heq. apply Hfresh. rewrite <- Heq. apply list_elem_of_fmap. eauto. }
  assert (Hmap : map (fun r => if Alert.ID r =? id then Alert.with_Resolved true r else r)
                     (Gorm.alerts (db w) ++ [saved])
                 = Gorm.alerts (db w) ++ [Alert.with_Resolved true saved]).
  { rewrite map_app. cbn [map]. f_equal.
    - rewrite <- (map_id (Gorm.alerts (db w))) at 2. apply map_ext_in. intros a Ha.
      apply list_elem_of_In, Hold, Z.eqb_neq in Ha. rewrite Ha. reflexivity.
    - replace (Alert.ID saved =? id) with true by (symmetry; apply Z.eqb_refl).
      reflexivity. }
  split; [reflexivity |]. split; [reflexivity |]. split; [exact Hfresh |].
  unfold select_active_alerts, update_resolved. cbn [Gorm.alerts].
  split; [| split].
  - intros a. rewrite merge_sort_Permutation, list_elem_of_filter, elem_of_app,
      list_elem_of_singleton.
    split; [intros [Hr [Ha | ->]]; auto | intros [-> | [Ha Hr]]; auto].
  - intros a. rewrite Hmap.
    rewrite merge_sort_Permutation, list_elem_of_filter, elem_of_app, list_elem_of_singleton.
    split; [intros [Hr [Ha | ->]]; [auto | discriminate Hr] | intros [Ha Hr]; auto].
  - exact Hmap.
Qed.


(** X6.  GetRecentAlerts for a number of hours between 0 and 2562047
    (beyond which the product with time.Hour leaves int64): when the
    engine runs the statement it returns, newest first, exactly the
    alerts whose timestamp is strictly newer than now minus that many
    hours, resolved or not, and leaves the tables as they are. *)
Theorem GetRecentAlerts_window (s : MetricsStore) (hours : Z) (w : World) :
  0 <= hours <= 2562047 ->
  db_fault w (stmts w) = None ->
  let '(alerts, err, w') := GetRecentAlerts s hours w in
  err = None /\ db w' = db w
  /\ Sorted alert_desc alerts
  /\ alerts ≡ₚ filter (fun r => clock w (ticks w) - hours * Time.Hour < Alert.Timestamp r)
                      (Gorm.alerts (db w)).
Proof.
  intros Hh Hdb.
  unfold GetRecentAlerts, bind, time_Now, db_exec.
  cbn [stmts db_fault db ticks clock]. rewrite Hdb. cbn [db].
  assert (Hcut : Time.Add (clock w (ticks w)) (Go.wrap (Go.neg hours * Time.Hour))
                 = clock w (ticks w) - hours * Time.Hour).
  { unfold Time.Add, Go.neg.
    rewrite (wrap_small (- hours)) by (unfold Go.int_min, Go.int_max; lia).
    rewrite wrap_small; [lia |].
    unfold Go.int_min, Go.int_max, Time.Hour, Time.Minute, Time.Second. lia. }
  rewrite Hcut. unfold select_recent_alerts.
  split; [reflexivity |]. split; [reflexivity |].
  split; [apply Sorted_merge_sort; apply _ | apply merge_sort_Permutation].
Qed.


Lemma select_snapshots_rows cluster cutoff d :
  Sorted snapshot_asc (select_snapshots cluster cutoff d)
  /\ forall r, r ∈ select_snapshots cluster cutoff d
                <-> r ∈ Gorm.metric_snapshots d /\ MetricSnapshot.Cluster r = cluster
                    /\ cutoff < MetricSnapshot.Timestamp r.
Proof.
  unfold select_snapshots. split; [apply Sorted_merge_sort; apply _ |].
  intros r. rewrite merge_sort_Permutation, list_elem_of_filter. tauto.
Qed.

Lemma select_active_alerts_rows d :
  Sorted alert_desc (select_active_alerts d)
  /\ forall a, a ∈ select_active_alerts d
                <-> a ∈ Gorm.alerts d /\ Alert.Resolved a = false.
Proof.
  unfold select_active_alerts. split; [apply Sorted_merge_sort; apply _ |].
  intros a. rewrite merge_sort_Permutation, list_elem_of_filter. tauto.
Qed.

End StoreRoundTrips.

(** ** The inventory *)

Section Inventory.

Import KubernetesService.

Lemma getNodeStatus_range_cases (conditions : list Corev1.NodeCondition.t) :
  (getNodeStatus_range conditions = "Unknown" /\ no_ready_condition conditions)
  \/ exists c, first_ready_condition conditions c
               /\ ((Corev1.NodeCondition.Status c = Corev1.ConditionTrue
                    /\ getNodeStatus_range conditions = "Ready")
                   \/ (Corev1.NodeCondition.Status c <> Corev1.ConditionTrue
                       /\ getNodeStatus_range conditions = "NotReady")).
Proof.
  induction conditions as [| c conditions IH]; cbn [getNodeStatus_range].
  - left. split; [reflexivity | constructor].
  - destruct (String.eqb_spec (Corev1.NodeCondition.Type_ c) Corev1.NodeReady) as [Ht | Ht].
    + right. exists c. split.
      * exists [], conditions. split; [reflexivity |]. split; [constructor | exact Ht].
      * destruct (String.eqb_spec (Corev1.NodeCondition.Status c) Corev1.ConditionTrue);
          [left | right]; auto.
    + destruct IH as [[Hu Hno] | (c' & (before & after & -> & Hno & Ht') & Hc')].
      * left. split; [exact Hu | constructor; assumption].
      * right. exists c'. split; [| exact Hc'].
        exists (c :: before), after. split; [reflexivity |].
        split; [constructor; assumption | exact Ht'].
Qed.

Lemma first_ready_condition_unique conditions c c' :
  first_ready_condition conditions c -> first_ready_condition conditions c' -> c = c'.
Proof.
  intros (b1 & a1 & -> & Hn1 & Ht1) (b2 & a2 & Heq & Hn2 & Ht2).
  revert b2 Heq Hn2. induction b1 as [| x b1 IH]; intros [| y b2] Heq Hn2.
  - injection Heq. auto.
  - injection Heq as -> _. apply Forall_cons in Hn2 as [Hy _]. contradiction.
  - injection Heq as -> _. apply Forall_cons in Hn1 as [Hx _]. contradiction.
  - injection Heq as -> Heq. apply Forall_cons in Hn1 as [_ Hn1].
    apply Forall_cons in Hn2 as [_ Hn2]. eapply IH; eassumption.
Qed.

Lemma first_ready_not_none conditions c :
  first_ready_condition conditions c -> ~ no_ready_condition conditions.
Proof.
  intros (before & after & -> & _ & Ht) Hno.
  apply Forall_app in Hno as [_ Hno]. apply Forall_cons in Hno as [Hc _]. contradiction.
Qed.

(** X8.  The readiness of a node is decided by its first condition of
    type Ready alone: the status is Unknown exactly when there is no
    such condition, Ready exactly when the first one has status True,
    and NotReady exactly when the first one has any other status,
    whatever later conditions say. *)
Theorem getNodeStatus_first_ready (node : Corev1.Node.t) :
  (getNodeStatus node = "Unknown" <-> no_ready_condition (Corev1.Node.Conditions node))
  /\ (getNodeStatus node = "Ready" <->
      exists c, first_ready_condition (Corev1.Node.Conditions node) c
                /\ Corev1.NodeCondition.Status c = Corev1.ConditionTrue)
  /\ (getNodeStatus node = "NotReady" <->
      exists c, first_ready_condition (Corev1.Node.Conditions node) c
                /\ Corev1.NodeCondition.Status c <> Corev1.ConditionTrue).
Proof.
  unfold getNodeStatus.
  destruct (getNodeStatus_range_cases (Corev1.Node.Conditions node))
    as [[Hu Hno] | (c & Hc & [[Hs Hr] | [Hs Hr]])].
  - rewrite Hu. split; [tauto |].
    split; (split; [discriminate | intros (c & Hc & _)]);
      exfalso; eapply first_ready_not_none; eassumption.
  - rewrite Hr.
    split; [split; [discriminate | intros Hno; exfalso; eapply first_ready_not_none; eassumption] |].
    split; [split; [eauto | reflexivity] |].
    split; [discriminate |]. intros (c' & Hc' & Hs').
    rewrite (first_ready_condition_unique _ _ _ Hc' Hc) in Hs'. contradiction.
  - rewrite Hr.
    split; [split; [discriminate | intros Hno; exfalso; eapply first_ready_not_none; eassumption] |].
    split; [| split; [eauto | reflexivity]].
    split; [discriminate |]. intros (c' & Hc' & Hs').
    rewrite (first_ready_condition_unique _ _ _ Hc' Hc) in Hs'. contradiction.
Qed.

Lemma getNodeRoles_nonempty (node : Corev1.Node.t) : getNodeRoles node <> [].
Proof.
  unfold getNodeRoles, getNodeRoles_in.
  destruct (getNodeRoles_range _ []) as [| r rs]; simpl; discriminate.
Qed.

Lemma getNodeStatus_values (node : Corev1.Node.t) :
  getNodeStatus node = "Ready" \/ getNodeStatus node = "NotReady"
  \/ getNodeStatus node = "Unknown".
Proof.
  unfold getNodeStatus.
  destruct (getNodeStatus_range_cases (Corev1.Node.Conditions node))
    as [[Hu _] | (c & _ & [[_ Hr] | [_ Hr]])]; auto.
Qed.

Lemma GetNodes_range_listed items : forall nodes w,
  exists nodes', (GetNodes_range items nodes w).1 = nodes ++ nodes'
                 /\ Forall2 node_listed items nodes'.
Proof.
  induction items as [| n items IH]; intros nodes w.
  - exists []. split; [simpl; rewrite app_nil_r; reflexivity | constructor].
  - cbn [GetNodes_range]. rewrite bind_run.
    edestruct IH as (nodes' & Heq & Hall). rewrite Heq.
    eexists (_ :: nodes'). split; [rewrite <- app_assoc; reflexivity |].
    constructor; [| exact Hall].
    unfold node_listed. cbn.
    pose proof (getNodeRoles_nonempty n). pose proof (getNodeStatus_values n).
    repeat split; assumption.
Qed.

Lemma GetNodes_frame s name w : ticks_only w (GetNodes s name w).2.
Proof.
  unfold GetNodes.
  destruct (GetClient s name) as [client |]; [| apply ticks_only_refl].
  destruct (Clientset.Nodes_List client) as [err | items]; [apply ticks_only_refl |].
  rewrite bind_run. cbn [fst snd ret]. apply GetNodes_range_frame.
Qed.

(** X9.  GetNodes and GetNodeCount.  They fail with the message cluster
    NAME not found when the service holds no client for the name, and
    with the error of the listing, unchanged, when the cluster refuses
    it.  Otherwise GetNodes returns one node per listed node, in the
    order of the listing, with its name and version, a status that is
    Ready, NotReady or Unknown, a list of roles that is not empty and
    no metrics; and GetNodeCount returns the number of listed nodes.
    Neither touches the database or the log. *)
Theorem GetNodes_listing (s : t) (clusterName : string) (w : World) :
  ticks_only w (GetNodes s clusterName w).2
  /\ match (GetNodes s clusterName w).1 with
     | inr nodes =>
         exists client items,
           GetClient s clusterName = Some client
           /\ Clientset.Nodes_List client = inr items
           /\ Forall2 node_listed items nodes
           /\ (GetNodeCount s clusterName w).1 = inr (Z.of_nat (length items))
     | inl err =>
         (GetNodeCount s clusterName w).1 = inl err
         /\ ((GetClient s clusterName = None
              /\ err = "cluster " +:+ clusterName +:+ " not found")
             \/ exists client, GetClient s clusterName = Some client
                               /\ Clientset.Nodes_List client = inl err)
     end.
Proof.
  split; [apply GetNodes_frame |].
  unfold GetNodeCount. rewrite bind_run. unfold GetNodes.
  destruct (GetClient s clusterName) as [client |] eqn:Hc.
  - destruct (Clientset.Nodes_List client) as [err | items] eqn:Hl.
    + cbn. split; [reflexivity |]. right. eauto.
    + rewrite bind_run. cbn [fst snd ret].
      destruct (GetNodes_range_listed items [] w) as (nodes' & Heq & Hall).
      rewrite Heq. cbn [app].
      exists client, items. repeat split; try assumption.
      rewrite (Forall2_length _ _ _ Hall). reflexivity.
  - cbn. split; [reflexivity |]. left. auto.
Qed.

Lemma restarts_range_sum statuses : forall restarts,
  Forall (fun cs => 0 <= Corev1.ContainerStatus.RestartCount cs < 2 ^ 31) statuses ->
  0 <= restarts -> restarts + Z.of_nat (length statuses) * 2 ^ 31 <= Go.int_max ->
  restarts_range statuses restarts = restarts + total_restarts statuses.
Proof.
  unfold total_restarts.
  induction statuses as [| cs statuses IH]; intros restarts Hall Hr Hmax.
  - simpl. lia.
  - apply Forall_cons in Hall as [Hcs Hall]. cbn [restarts_range map fold_right].
    cbn [length] in Hmax.
    rewrite wrap_small by (unfold Go.int_min, Go.int_max in *; lia).
    rewrite IH; [lia | exact Hall | lia | lia].
Qed.

Lemma GetPods_range_listed items : forall pods w,
  exists pods', (GetPods_range items pods w).1 = pods ++ pods'
                /\ Forall2 pod_listed items pods'.
Proof.
  induction items as [| p items IH]; intros pods w.
  - exists []. split; [simpl; rewrite app_nil_r; reflexivity | constructor].
  - cbn [GetPods_range]. cbv zeta. rewrite bind_run.
    edestruct IH as (pods' & Heq & Hall). rewrite Heq.
    eexists (_ :: pods'). split; [rewrite <- app_assoc; reflexivity |].
    constructor; [| exact Hall].
    unfold pod_listed. cbn.
    repeat split.
    intros [Hall' Hlen]. rewrite restarts_range_sum; [lia | exact Hall' | lia |].
    unfold Go.int_max. nia.
Qed.

(** X10.  GetPods.  It fails with the message cluster NAME not found
    when the service holds no client for the name, and with the error of
    the listing, unchanged, when the cluster refuses it.  Otherwise it
    returns one pod per pod listed in the requested namespace (all
    namespaces when the filter is empty), in the order of the listing,
    with its name, namespace, phase and node, no metrics, and as restart
    count the sum of the restart counts of its containers.  It does not
    touch the database or the log. *)
Theorem GetPods_listing (s : t) (clusterName namespace : string) (w : World) :
  ticks_only w (GetPods s clusterName namespace w).2
  /\ match (GetPods s clusterName namespace w).1 with
     | inr pods =>
         exists client items,
           GetClient s clusterName = Some client
           /\ Clientset.Pods_List client namespace = inr items
           /\ Forall2 pod_listed items pods
     | inl err =>
         (GetClient s clusterName = None
          /\ err = "cluster " +:+ clusterName +:+ " not found")
         \/ exists client, GetClient s clusterName = Some client
                           /\ Clientset.Pods_List client namespace = inl err
     end.
Proof.
  assert (Hns : (if String.eqb namespace EmptyString then Corev1.NamespaceAll else namespace)
                = namespace).
  { destruct (String.eqb_spec namespace EmptyString) as [-> |]; reflexivity. }
  unfold GetPods. rewrite Hns.
  destruct (GetClient s clusterName) as [client |] eqn:Hc.
  - destruct (Clientset.Pods_List client namespace) as [err | items] eqn:Hl.
    + split; [apply ticks_only_refl |]. cbn. right. eauto.
    + rewrite bind_run. cbn [fst snd ret].
      split; [apply GetPods_range_frame |].
      destruct (GetPods_range_listed items [] w) as (pods' & Heq & Hall).
      rewrite Heq. cbn [app]. exists client, items. auto.
  - split; [apply ticks_only_refl |]. cbn. left. auto.
Qed.

End Inventory.

(** ** The metrics endpoint *)

Section Readings.

Import PrometheusService.

Variable Sscanf_f : string -> Go.result Go.float64.

Lemma Query_answers s prometheusURL query result :
  Query s prometheusURL query = inr result <-> answers s prometheusURL query result.
Proof.
  unfold Query, answers.
  destruct (httpClient s _ query) as [e | e | e | e | r];
    try (split; [discriminate | intros [[=] _]]).
  destruct (String.eqb_spec (PrometheusResult.Status r) "success") as [Hs | Hs]; cbn [negb].
  - split; [intros [= ->]; auto | intros [[= ->] _]; reflexivity].
  - split; [discriminate | intros [[= ->] Hs']; contradiction].
Qed.

Lemma extractFirstValue_error result :
  (extractFirstValue Sscanf_f result).2 <> None ->
  (extractFirstValue Sscanf_f result).1 = Go.fzero.
Proof.
  unfold extractFirstValue.
  destruct (PrometheusResult.Result result) as [| first rest]; [reflexivity |].
  destruct (Z.of_nat (length (Sample.Value first)) <? 2); [reflexivity |].
  destruct (nth_error (Sample.Value first) 1) as [v |]; [| reflexivity].
  destruct (Go.as_string v) as [valueStr |]; [| reflexivity].
  destruct (Sscanf_f valueStr) as [err | value]; [reflexivity |].
  cbn. congruence.
Qed.

Lemma reading_cases s prometheusURL query :
  let reading :=
    match Query s prometheusURL query with
    | inl err => (Go.fzero, Some err)
    | inr result => extractFirstValue Sscanf_f result
    end in
  (reading.2 <> None -> reading.1 = Go.fzero)
  /\ (forall result, answers s prometheusURL query result ->
        reading = extractFirstValue Sscanf_f result
        /\ (PrometheusResult.Result result = [] -> reading = (Go.fzero, None)))
  /\ ((forall result, ~ answers s prometheusURL query result) -> reading.2 <> None).
Proof.
  cbv zeta.
  destruct (Query s prometheusURL query) as [err | result] eqn:HQ.
  - split; [reflexivity |]. split; [| discriminate].
    intros result Ha. apply Query_answers in Ha. congruence.
  - split; [apply extractFirstValue_error |]. split.
    + intros result' Ha. apply Query_answers in Ha.
      assert (result' = result) as -> by congruence.
      split; [reflexivity |]. intros Hempty. unfold extractFirstValue.
      rewrite Hempty. reflexivity.
    + intros Hno. exfalso. apply (Hno result). apply Query_answers. exact HQ.
Qed.

(** X11.  The six readings of the metrics endpoint (cluster, pod and
    node CPU and memory).  A reading that comes with an error has the
    value zero.  When the endpoint answers the query of the reading with
    status success, the reading is the first value of that answer; in
    particular an answer with no series reads as zero without an error.
    When it does not answer with status success, the reading is an
    error.  The endpoint counts as reachable exactly when it answers the
    query up with status success. *)
Theorem readings_of_endpoint (s : t) (prometheusURL namespace podName nodeName : string) :
  Forall (fun '(query, reading) =>
            (reading.2 <> None -> reading.1 = Go.fzero)
            /\ (forall result, answers s prometheusURL query result ->
                  reading = extractFirstValue Sscanf_f result
                  /\ (PrometheusResult.Result result = [] -> reading = (Go.fzero, None)))
            /\ ((forall result, ~ answers s prometheusURL query result) ->
                reading.2 <> None))
         (readings Sscanf_f s prometheusURL namespace podName nodeName)
  /\ (CheckConnectivity s prometheusURL = true <->
      exists result, answers s prometheusURL "up" result).
Proof.
  split.
  - unfold readings, GetCPUUsage, GetMemoryUsage, GetPodCPUUsage, GetPodMemoryUsage,
      GetNodeCPUUsage, GetNodeMemoryUsage.
    do 6 (constructor; [apply reading_cases |]). constructor.
  - unfold CheckConnectivity.
    destruct (Query s prometheusURL "up") as [err | result] eqn:HQ.
    + split; [discriminate |]. intros (result & Ha). apply Query_answers in Ha. congruence.
    + split; [| reflexivity]. intros _. exists result. apply Query_answers. exact HQ.
Qed.

End Readings.

(** ** The clients of the Kubernetes service *)

Section Clients.

Import Models KubernetesService.

Variable h : Host.t.
Variable kubeconfig : string.

Lemma initializeClients_range_step cfg cfgs s w :
  exists s1 w1,
    initializeClients_range h kubeconfig (cfg :: cfgs) s w
    = initializeClients_range h kubeconfig cfgs s1 w1
    /\ configs s1 = configs s
    /\ clock w1 = clock w /\ ticks w1 = ticks w /\ db w1 = db w
    /\ (if ClusterConfig.Enabled cfg then
          match client_built h kubeconfig cfg with
          | Some client =>
              clients s1 = <[ClusterConfig.Name cfg := client]> (clients s)
              /\ logs w1 = logs w
          | None => clients s1 = clients s /\ exists line, logs w1 = logs w ++ [line]
          end
        else clients s1 = clients s /\ logs w1 = logs w).
Proof.
  cbn [initializeClients_range]. unfold client_built.
  destruct (ClusterConfig.Enabled cfg); cbn [negb].
  - destruct (Host.ClientConfig h kubeconfig _) as [err | config].
    + rewrite bind_run. eexists s, _. split; [reflexivity |]. cbn. eauto 10.
    + destruct (Host.NewForConfig h config) as [err | clientset].
      * rewrite bind_run. eexists s, _. split; [reflexivity |]. cbn. eauto 10.
      * eexists _, w. split; [reflexivity |]. cbn. auto 10.
  - exists s, w. auto 10.
Qed.

Lemma initializeClients_range_clients cfgs : forall s w,
  let s' := (initializeClients_range h kubeconfig cfgs s w).1 in
  let w' := (initializeClients_range h kubeconfig cfgs s w).2 in
  (forall name client,
      clients s' !! name = Some client ->
      clients s !! name = Some client
      \/ exists cfg, cfg ∈ cfgs /\ ClusterConfig.Enabled cfg = true
                     /\ ClusterConfig.Name cfg = name
                     /\ client_built h kubeconfig cfg = Some client)
  /\ (forall name, is_Some (clients s !! name) -> is_Some (clients s' !! name))
  /\ (forall cfg, cfg ∈ cfgs -> ClusterConfig.Enabled cfg = true ->
                  is_Some (client_built h kubeconfig cfg) ->
                  is_Some (clients s' !! ClusterConfig.Name cfg))
  /\ (exists warnings,
        logs w' = logs w ++ warnings
        /\ length warnings = length (filter (fun cfg => client_fails h kubeconfig cfg = true) cfgs))
  /\ clock w' = clock w /\ ticks w' = ticks w /\ db w' = db w.
Proof.
  induction cfgs as [| cfg cfgs IH]; intros s w; cbv zeta.
  - cbn. split; [auto |]. split; [auto |].
    split; [intros cfg Hin; inversion Hin |].
    split; [exists []; rewrite app_nil_r; auto | auto].
  - destruct (initializeClients_range_step cfg cfgs s w)
      as (s1 & w1 & -> & Hcfg & Hclk & Htk & Hdb & Hstep).
    specialize (IH s1 w1). cbv zeta in IH.
    destruct IH as (IHa & IHb & IHc & (warnings & IHlog & IHlen) & IHclk & IHtk & IHdb).
    assert (Hmono : forall name, is_Some (clients s !! name) -> is_Some (clients s1 !! name)).
    { intros name Hs. destruct (ClusterConfig.Enabled cfg).
      - destruct (client_built h kubeconfig cfg) as [client |].
        + destruct Hstep as [-> _].
          destruct (decide (ClusterConfig.Name cfg = name)) as [<- | Hne].
          * rewrite lookup_insert_eq. eauto.
          * rewrite lookup_insert_ne by exact Hne. exact Hs.
        + destruct Hstep as [-> _]. exact Hs.
      - destruct Hstep as [-> _]. exact Hs. }
    split; [| split; [| split; [| split]]].
    + intros name client Hl. destruct (IHa name client Hl) as [H1 | (cfg' & Hin & He & Hn & Hb)].
      * destruct (ClusterConfig.Enabled cfg) eqn:Hen.
        -- destruct (client_built h kubeconfig cfg) as [client' |] eqn:Hbuilt.
           ++ destruct Hstep as [Hs1 _]. rewrite Hs1 in H1.
              destruct (decide (ClusterConfig.Name cfg = name)) as [Heq | Hne].
              ** rewrite <- Heq, lookup_insert_eq in H1. injection H1 as <-.
                 right. exists cfg. split; [left |]. auto.
              ** rewrite lookup_insert_ne in H1 by exact Hne. auto.
           ++ destruct Hstep as [Hs1 _]. rewrite Hs1 in H1. auto.
        -- destruct Hstep as [Hs1 _]. rewrite Hs1 in H1. auto.
      * right. exists cfg'. split; [right; exact Hin | auto].
    + intros name Hs. apply IHb, Hmono, Hs.
    + intros cfg' Hin He Hb. apply elem_of_cons in Hin as [-> | Hin]; [| auto].
      apply IHb. rewrite He in Hstep. destruct Hb as [client Hb]. rewrite Hb in Hstep.
      destruct Hstep as [-> _]. rewrite lookup_insert_eq. eauto.
    + destruct (ClusterConfig.Enabled cfg) eqn:Hen.
      * destruct (client_built h kubeconfig cfg) as [client |] eqn:Hbuilt.
        -- destruct Hstep as [_ Hl].
           rewrite filter_cons_False
             by (unfold client_fails; rewrite Hen, Hbuilt; discriminate).
           exists warnings. rewrite IHlog, Hl. auto.
        -- destruct Hstep as [_ [line Hl]].
           rewrite filter_cons_True
             by (unfold client_fails; rewrite Hen, Hbuilt; reflexivity).
           exists (line :: warnings). rewrite IHlog, Hl, <- app_assoc. cbn. auto.
      * destruct Hstep as [_ Hl].
        rewrite filter_cons_False by (unfold client_fails; rewrite Hen; discriminate).
        exists warnings. rewrite IHlog, Hl. auto.
    + repeat split; congruence.
Qed.

End Clients.

(** X12.  The clients of a new Kubernetes service.  The service holds a
    client for a name only if an enabled configuration of that name had
    its client built, and it is that client; it holds one for every
    enabled configuration whose client could be built.  A cluster that
    is disabled, or whose client cannot be built, is left without a
    client and does not make the constructor fail: each failure of an
    enabled cluster is logged as one warning, nothing else is logged,
    and the database is not touched. *)
Theorem NewKubernetesService_clients (h : Host.t) (configPath : string) (w : World)
  (svc : KubernetesService.t) :
  (KubernetesService.NewKubernetesService h configPath w).1 = inr svc ->
  let w' := (KubernetesService.NewKubernetesService h configPath w).2 in
  let configs := KubernetesService.GetConfigs svc in
  (forall name client,
      KubernetesService.GetClient svc name = Some client ->
      exists cfg, cfg ∈ configs /\ Models.ClusterConfig.Enabled cfg = true
                  /\ Models.ClusterConfig.Name cfg = name
                  /\ client_built h (kubeconfig_path h) cfg = Some client)
  /\ (forall cfg, cfg ∈ configs -> Models.ClusterConfig.Enabled cfg = true ->
                  is_Some (client_built h (kubeconfig_path h) cfg) ->
                  is_Some (KubernetesService.GetClient svc (Models.ClusterConfig.Name cfg)))
  /\ (exists warnings,
        logs w' = logs w ++ warnings
        /\ length warnings
           = length (filter (fun cfg => client_fails h (kubeconfig_path h) cfg = true) configs))
  /\ db w' = db w.
Proof.
  unfold KubernetesService.NewKubernetesService, KubernetesService.loadConfigs,
    KubernetesService.GetClient, KubernetesService.GetConfigs.
  cbn [KubernetesService.configPath KubernetesService.clients].
  destruct (Host.ReadFile h configPath) as [err | data]; [discriminate |].
  destruct (Host.yaml_Unmarshal h data) as [err | config]; [discriminate |].
  rewrite bind_run. unfold KubernetesService.initializeClients. rewrite bind_run.
  cbn [fst snd ret KubernetesService.configs].
  fold (kubeconfig_path h).
  set (s0 := KubernetesService.mk ∅ (Models.ClustersConfig.Clusters config) configPath).
  intros [= <-]. cbv zeta.
  pose proof (initializeClients_range_clients h (kubeconfig_path h)
                (Models.ClustersConfig.Clusters config) s0 w) as Hr.
  cbv zeta in Hr. destruct Hr as (Ha & _ & Hc & Hlog & _ & _ & Hdb).
  rewrite (initializeClients_range_configs h (kubeconfig_path h) _ s0 w).
  cbn [KubernetesService.configs s0].
  split; [| split; [| split]]; [| exact Hc | exact Hlog | exact Hdb].
  intros name client Hl. destruct (Ha name client Hl) as [He | Hex]; [| exact Hex].
  subst s0. cbn in He. rewrite lookup_empty in He. discriminate.
Qed.

(** ** The handlers of the dashboard *)

Section Dashboard.

Import Models Handlers.

Variable Sscanf_f : string -> Go.result Go.float64.
Variable Nodes_List_limit1 : Clientset.t -> option Go.error.

Lemma determineClusterStatus_values cpu mem pending failed :
  determineClusterStatus cpu mem pending failed = "Healthy"
  \/ determineClusterStatus cpu mem pending failed = "Warning"
  \/ determineClusterStatus cpu mem pending failed = "Critical".
Proof.
  unfold determineClusterStatus.
  destruct (_ || _ || _); [auto |]. destruct (_ || _ || _); auto.
Qed.

Lemma GetPodSummary_error s name w cnts e :
  (KubernetesService.GetPodSummary s name w).1 = (cnts, Some e) -> cnts = (0, 0, 0, 0).
Proof.
  unfold KubernetesService.GetPodSummary. rewrite bind_run.
  destruct (KubernetesService.GetPods s name EmptyString w).1; cbn; congruence.
Qed.

Lemma GetCPUUsage_value prom url :
  match PrometheusService.GetCPUUsage Sscanf_f prom url with
  | (cpu, None) => cpu
  | (_, Some _) => Go.fzero
  end = (PrometheusService.GetCPUUsage Sscanf_f prom url).1.
Proof.
  pose proof (reading_cases Sscanf_f prom url PrometheusService.cpu_query) as [H _].
  unfold PrometheusService.GetCPUUsage. cbv zeta in H.
  destruct (match PrometheusService.Query prom url _ with inl _ => _ | inr _ => _ end)
    as [v [e |]]; cbn in *; [symmetry; apply H; discriminate | reflexivity].
Qed.

Lemma GetMemoryUsage_value prom url :
  match PrometheusService.GetMemoryUsage Sscanf_f prom url with
  | (mem, None) => mem
  | (_, Some _) => Go.fzero
  end = (PrometheusService.GetMemoryUsage Sscanf_f prom url).1.
Proof.
  pose proof (reading_cases Sscanf_f prom url PrometheusService.memory_query) as [H _].
  unfold PrometheusService.GetMemoryUsage. cbv zeta in H.
  destruct (match PrometheusService.Query prom url _ with inl _ => _ | inr _ => _ end)
    as [v [e |]]; cbn in *; [symmetry; apply H; discriminate | reflexivity].
Qed.

Lemma find_config_first configs name :
  match find_config configs name with
  | Some cfg => first_named configs name cfg
  | None => Forall (fun c => ClusterConfig.Name c <> name) configs
  end.
Proof.
  induction configs as [| c configs IH]; cbn [find_config]; [constructor |].
  destruct (String.eqb_spec (ClusterConfig.Name c) name) as [Heq | Hne].
  - exists [], configs. split; [reflexivity |]. split; [constructor | exact Heq].
  - destruct (find_config configs name) as [cfg |].
    + destruct IH as (before & after & -> & Hb & Hn).
      exists (c :: before), after. split; [reflexivity |]. split; [constructor |]; assumption.
    + constructor; assumption.
Qed.

Section Entries.

Variable k8s : KubernetesService.t.
Variable prom : PrometheusService.t.
Variable w : World.

(** The entry that both cluster handlers build for a configuration. *)
Lemma reachable_entry cfg lastUpdated w1 w2 r k :
  KubernetesService.CheckConnectivity Nodes_List_limit1 k8s (ClusterConfig.Name cfg) = true ->
  lastUpdated = clock w k ->
  r = (KubernetesService.GetPodSummary k8s (ClusterConfig.Name cfg) w2).1 ->
  let nodeCount :=
    match (KubernetesService.GetNodeCount k8s (ClusterConfig.Name cfg) w1).1 with
    | inr nodeCount => nodeCount
    | inl _ => 0
    end in
  let cpuUsage :=
    if PrometheusService.CheckConnectivity prom (ClusterConfig.PrometheusURL cfg)
    then (PrometheusService.GetCPUUsage Sscanf_f prom (ClusterConfig.PrometheusURL cfg)).1
    else Go.fzero in
  let memUsage :=
    if PrometheusService.CheckConnectivity prom (ClusterConfig.PrometheusURL cfg)
    then (PrometheusService.GetMemoryUsage Sscanf_f prom (ClusterConfig.PrometheusURL cfg)).1
    else Go.fzero in
  cluster_entry Sscanf_f Nodes_List_limit1 k8s prom w cfg
    (Cluster.mk (ClusterConfig.Name cfg) (ClusterConfig.DisplayName cfg)
       (determineClusterStatus cpuUsage memUsage r.1.1.1.2 r.1.1.2)
       cpuUsage memUsage nodeCount r.1.2 (ClusterConfig.Context cfg) lastUpdated).
Proof.
  intros Hreach -> ->. cbv zeta. unfold cluster_entry. rewrite Hreach.
  cbn [Cluster.Name Cluster.DisplayName Cluster.Context Cluster.LastUpdated Cluster.Status
         Cluster.NodeCount Cluster.PodCount Cluster.CPUUsage Cluster.MemoryUsage].
  rewrite (GetPodSummary_result k8s (ClusterConfig.Name cfg) w2 w).
  rewrite (GetNodeCount_result k8s (ClusterConfig.Name cfg) w1 w).
  destruct (KubernetesService.GetPodSummary k8s (ClusterConfig.Name cfg) w).1
    as [[[[running pending] failed] total] err].
  cbn [fst snd].
  split; [reflexivity |]. split; [reflexivity |]. split; [reflexivity |].
  split; [eauto |]. split; [apply determineClusterStatus_values |].
  repeat split.
Qed.

Lemma unreachable_entry cfg k :
  KubernetesService.CheckConnectivity Nodes_List_limit1 k8s (ClusterConfig.Name cfg) = false ->
  cluster_entry Sscanf_f Nodes_List_limit1 k8s prom w cfg
    (Cluster.mk (ClusterConfig.Name cfg) (ClusterConfig.DisplayName cfg) "Critical"
       Go.fzero Go.fzero 0 0 (ClusterConfig.Context cfg) (clock w k)).
Proof.
  intros Hreach. unfold cluster_entry. rewrite Hreach. cbn.
  split; [reflexivity |]. split; [reflexivity |]. split; [reflexivity |].
  split; [eauto |]. split; [auto |]. repeat split.
Qed.

Lemma GetClusters_range_entries configs : forall clusters w1,
  clock w1 = clock w ->
  exists entries,
    (GetClusters_range Sscanf_f Nodes_List_limit1 k8s prom configs clusters w1).1
    = clusters ++ entries
    /\ Forall2 (cluster_entry Sscanf_f Nodes_List_limit1 k8s prom w)
               (filter (fun cfg => ClusterConfig.Enabled cfg = true) configs) entries
    /\ ticks_only w1
         (GetClusters_range Sscanf_f Nodes_List_limit1 k8s prom configs clusters w1).2.
Proof.
  induction configs as [| cfg configs IH]; intros clusters w1 Hclk.
  - exists []. cbn. rewrite app_nil_r. split; [reflexivity |].
    split; [constructor | apply ticks_only_refl].
  - cbn [GetClusters_range].
    destruct (ClusterConfig.Enabled cfg) eqn:Hen; cbn [negb].
    + rewrite filter_cons_True by exact Hen. rewrite bind_run.
      set (w1' := (time_Now w1).2).
      assert (Hfr0 : ticks_only w1 w1') by (repeat split).
      change (time_Now w1).1 with (clock w1 (ticks w1)). rewrite Hclk.
      destruct (KubernetesService.CheckConnectivity Nodes_List_limit1 k8s
                  (ClusterConfig.Name cfg)) eqn:Hreach; cbn [negb].
      * rewrite bind_run.
        pose proof (GetNodeCount_frame k8s (ClusterConfig.Name cfg) w1') as Hfr1.
        set (w2 := (KubernetesService.GetNodeCount k8s (ClusterConfig.Name cfg) w1').2) in *.
        rewrite bind_run.
        pose proof (GetPodSummary_frame k8s (ClusterConfig.Name cfg) w2) as Hfr2.
        set (w3 := (KubernetesService.GetPodSummary k8s (ClusterConfig.Name cfg) w2).2) in *.
        pose proof (reachable_entry cfg _ w1' w2 _ (ticks w1) Hreach eq_refl eq_refl) as Hentry.
        cbv zeta in Hentry.
        pose proof (GetPodSummary_error k8s (ClusterConfig.Name cfg) w2) as Herr.
        destruct (KubernetesService.GetPodSummary k8s (ClusterConfig.Name cfg) w2).1
          as [[[[running pending] failed] total] err].
        cbn [fst snd] in Hentry.
        assert (Htotal : match err with None => total | Some _ => 0 end = total).
        { destruct err as [e |]; [| reflexivity].
          specialize (Herr _ _ eq_refl). congruence. }
        rewrite Htotal.
        destruct (PrometheusService.CheckConnectivity prom (ClusterConfig.PrometheusURL cfg)).
        -- rewrite GetCPUUsage_value, GetMemoryUsage_value. cbv beta iota zeta.
           match goal with
           | |- context [GetClusters_range _ _ _ _ _ (clusters ++ [?c]) _] =>
               destruct (IH (clusters ++ [c]) w3) as (entries & Heq & Hall & Hfr)
           end.
           { destruct Hfr0 as [H0 _], Hfr1 as [H1 _], Hfr2 as [H2 _]. congruence. }
           rewrite Heq. eexists (_ :: entries). rewrite <- app_assoc.
           split; [reflexivity |]. split; [constructor; [exact Hentry | exact Hall] |].
           eapply ticks_only_trans; [| exact Hfr].
           eapply ticks_only_trans; [exact Hfr0 |].
           eapply ticks_only_trans; eassumption.
        -- cbv beta iota zeta.
           match goal with
           | |- context [GetClusters_range _ _ _ _ _ (clusters ++ [?c]) _] =>
               destruct (IH (clusters ++ [c]) w3) as (entries & Heq & Hall & Hfr)
           end.
           { destruct Hfr0 as [H0 _], Hfr1 as [H1 _], Hfr2 as [H2 _]. congruence. }
           rewrite Heq. eexists (_ :: entries). rewrite <- app_assoc.
           split; [reflexivity |]. split; [constructor; [exact Hentry | exact Hall] |].
           eapply ticks_only_trans; [| exact Hfr].
           eapply ticks_only_trans; [exact Hfr0 |].
           eapply ticks_only_trans; eassumption.
      * match goal with
        | |- context [GetClusters_range _ _ _ _ _ (clusters ++ [?c]) _] =>
            destruct (IH (clusters ++ [c]) w1') as (entries & Heq & Hall & Hfr)
        end.
        { destruct Hfr0 as [H0 _]. congruence. }
        rewrite Heq. eexists (_ :: entries). rewrite <- app_assoc.
        split; [reflexivity |].
        split; [constructor; [apply unreachable_entry; exact Hreach | exact Hall] |].
        eapply ticks_only_trans; [exact Hfr0 | exact Hfr].
    + rewrite filter_cons_False by (rewrite Hen; discriminate). apply IH. exact Hclk.
Qed.

End Entries.

(** X13.  GetClusters, for a handler that holds a Kubernetes service.
    It always answers 200, with one entry per enabled configuration, in
    the order of the configuration file, and their number as count.  An
    entry carries the name, display name and context of its
    configuration.  For a cluster that is not reachable the status is
    Critical and counts and percentages are zero; otherwise the node
    count is that of GetNodeCount, or zero when it fails, the pod count
    is the total of the pod summary, the percentages are the values of
    the two readings, or zero when the metrics endpoint is not
    reachable, and the status is determineClusterStatus of the values
    of the entry; it is never left at Unknown.  The database and the
    log are not touched. *)
Theorem GetClusters_entries (k8s : KubernetesService.t) (prom : PrometheusService.t)
  (metricsStore : Store.MetricsStore) (w : World) :
  let h := mkAPIHandler (Some k8s) prom metricsStore in
  exists clusters,
    (GetClusters Sscanf_f Nodes_List_limit1 h w).1
    = JSON StatusOK (ClustersBody clusters (Z.of_nat (length clusters)))
    /\ Forall2 (cluster_entry Sscanf_f Nodes_List_limit1 k8s prom w)
               (filter (fun cfg => ClusterConfig.Enabled cfg = true)
                       (KubernetesService.GetConfigs k8s))
               clusters
    /\ Forall (fun c => Cluster.Status c <> "Unknown") clusters
    /\ ticks_only w (GetClusters Sscanf_f Nodes_List_limit1 h w).2.
Proof.
  cbv zeta. unfold GetClusters. cbn [k8sService promService]. rewrite bind_run.
  destruct (GetClusters_range_entries k8s prom w (KubernetesService.GetConfigs k8s) [] w
              eq_refl) as (entries & Heq & Hall & Hfr).
  rewrite Heq. cbn [app ret fst snd]. exists entries.
  split; [reflexivity |]. split; [exact Hall |]. split; [| exact Hfr].
  clear Heq Hfr. induction Hall as [| cfg c cfgs cs Hc _ IH]; constructor; [| exact IH].
  destruct Hc as (_ & _ & _ & _ & [-> | [-> | ->]] & _); discriminate.
Qed.

(** X14.  GetClusterDetails, for a handler that holds a Kubernetes
    service.  It answers 404 with the message cluster not found exactly
    when no configuration has the requested name.  Otherwise it answers
    200 for the first configuration of that name, enabled or not, with
    the same entry that GetClusters builds: alone when the cluster is not
    reachable, and together with the running, pending and failed counts
    of the pod summary when it is.  The database and the log are not
    touched. *)
Theorem GetClusterDetails_outcomes (k8s : KubernetesService.t) (prom : PrometheusService.t)
  (metricsStore : Store.MetricsStore) (clusterName : string) (w : World) :
  let h := mkAPIHandler (Some k8s) prom metricsStore in
  let response := (GetClusterDetails Sscanf_f Nodes_List_limit1 h clusterName w).1 in
  ticks_only w (GetClusterDetails Sscanf_f Nodes_List_limit1 h clusterName w).2
  /\ ((Forall (fun cfg => ClusterConfig.Name cfg <> clusterName)
              (KubernetesService.GetConfigs k8s)
       /\ response = JSON StatusNotFound (ErrorBody "cluster not found"))
      \/ exists cfg c,
           first_named (KubernetesService.GetConfigs k8s) clusterName cfg
           /\ cluster_entry Sscanf_f Nodes_List_limit1 k8s prom w cfg c
           /\ if KubernetesService.CheckConnectivity Nodes_List_limit1 k8s clusterName
              then exists running pending failed err,
                  response = JSON StatusOK (ClusterDetailsBody c running pending failed)
                  /\ (KubernetesService.GetPodSummary k8s clusterName w).1
                     = (running, pending, failed, Cluster.PodCount c, err)
              else response = JSON StatusOK (ClusterBody c)).
Proof.
  cbv zeta. unfold GetClusterDetails. cbn [k8sService promService].
  pose proof (find_config_first (KubernetesService.GetConfigs k8s) clusterName) as Hfind.
  destruct (find_config (KubernetesService.GetConfigs k8s) clusterName) as [cfg |].
  2: { split; [apply ticks_only_refl |]. left. split; [exact Hfind | reflexivity]. }
  assert (Hname : ClusterConfig.Name cfg = clusterName)
    by (destruct Hfind as (? & ? & _ & _ & H); exact H).
  rewrite bind_run. set (w1 := (time_Now w).2).
  assert (Hfr0 : ticks_only w w1) by (repeat split).
  change (time_Now w).1 with (clock w (ticks w)).
  destruct (KubernetesService.CheckConnectivity Nodes_List_limit1 k8s
              (ClusterConfig.Name cfg)) eqn:Hreach; cbn [negb].
  - rewrite bind_run.
    pose proof (GetNodeCount_frame k8s (ClusterConfig.Name cfg) w1) as Hfr1.
    set (w2 := (KubernetesService.GetNodeCount k8s (ClusterConfig.Name cfg) w1).2) in *.
    rewrite bind_run.
    pose proof (GetPodSummary_frame k8s (ClusterConfig.Name cfg) w2) as Hfr2.
    set (w3 := (KubernetesService.GetPodSummary k8s (ClusterConfig.Name cfg) w2).2) in *.
    pose proof (reachable_entry k8s prom w cfg _ w1 w2 _ (ticks w) Hreach eq_refl eq_refl)
      as Hentry.
    cbv zeta in Hentry.
    pose proof (GetPodSummary_result k8s (ClusterConfig.Name cfg) w2 w) as Hres.
    destruct (KubernetesService.GetPodSummary k8s (ClusterConfig.Name cfg) w2).1
      as [[[[running pending] failed] total] err].
    cbn [fst snd] in Hentry.
    rewrite <- Hname, Hreach, <- Hres.
    destruct (PrometheusService.CheckConnectivity prom (ClusterConfig.PrometheusURL cfg));
      cbv beta iota zeta; cbn [ret fst snd];
      (split; [eapply ticks_only_trans; [exact Hfr0 |];
               eapply ticks_only_trans; [exact Hfr1 | exact Hfr2] |]);
      right; eexists cfg, _; (split; [rewrite Hname; exact Hfind |]);
      (split; [exact Hentry |]); exists running, pending, failed, err; split; reflexivity.
  - cbn [ret fst snd]. split; [exact Hfr0 |].
    right. eexists cfg, _. split; [exact Hfind |].
    split; [apply (unreachable_entry k8s prom w cfg (ticks w)); exact Hreach |].
    rewrite <- Hname, Hreach. reflexivity.
Qed.

Lemma GetNodes_cases s name w :
  match KubernetesService.GetClient s name with
  | None => (KubernetesService.GetNodes s name w).1
            = inl ("cluster " +:+ name +:+ " not found")
  | Some client =>
      match Clientset.Nodes_List client with
      | inl err => (KubernetesService.GetNodes s name w).1 = inl err
      | inr items =>
          exists nodes, (KubernetesService.GetNodes s name w).1 = inr nodes
                        /\ Forall2 node_listed items nodes
      end
  end.
Proof.
  unfold KubernetesService.GetNodes.
  destruct (KubernetesService.GetClient s name) as [client |]; [| reflexivity].
  destruct (Clientset.Nodes_List client) as [err | items]; [reflexivity |].
  rewrite bind_run. cbn [fst snd ret].
  destruct (GetNodes_range_listed items [] w) as (nodes & Heq & Hall).
  rewrite Heq. exists nodes. auto.
Qed.

Lemma GetPods_cases s name namespace w :
  ticks_only w (KubernetesService.GetPods s name namespace w).2
  /\ match KubernetesService.GetClient s name with
     | None => (KubernetesService.GetPods s name namespace w).1
               = inl ("cluster " +:+ name +:+ " not found")
     | Some client =>
         match Clientset.Pods_List client namespace with
         | inl err => (KubernetesService.GetPods s name namespace w).1 = inl err
         | inr items =>
             exists pods, (KubernetesService.GetPods s name namespace w).1 = inr pods
                          /\ Forall2 pod_listed items pods
         end
     end.
Proof.
  assert (Hns : (if String.eqb namespace EmptyString then Corev1.NamespaceAll else namespace)
                = namespace).
  { destruct (String.eqb_spec namespace EmptyString) as [-> |]; reflexivity. }
  unfold KubernetesService.GetPods. rewrite Hns.
  destruct (KubernetesService.GetClient s name) as [client |];
    [| split; [apply ticks_only_refl | reflexivity]].
  destruct (Clientset.Pods_List client namespace) as [err | items];
    [split; [apply ticks_only_refl | reflexivity] |].
  rewrite bind_run. cbn [fst snd ret]. split; [apply GetPods_range_frame |].
  destruct (GetPods_range_listed items [] w) as (pods & Heq & Hall).
  rewrite Heq. exists pods. auto.
Qed.

Lemma Forall2_map_r {A B C : Type} (R : A -> B -> Prop) (S : A -> C -> Prop) (f : B -> C)
  (l : list A) (k : list B) :
  (forall x y, R x y -> S x (f y)) -> Forall2 R l k -> Forall2 S l (map f k).
Proof. intros HRS H. induction H; cbn [map]; constructor; auto. Qed.

(** X15.  GetClusterNodes and GetClusterPods, for a handler that holds
    a Kubernetes service.  A name for which the service holds no client
    is answered with 500 and the message cluster NAME not found (not with
    404), and a listing that the cluster refuses with 500 and the error
    of the listing.  Otherwise the answer is 200 with one entry per
    listed node, respectively pod, in the order of the listing, and
    their number as count; a node carries the two percentages read from
    the metrics endpoint of the first configuration of that name when
    that endpoint is reachable, and zeros otherwise.  The database and
    the log are not touched. *)
Theorem nodes_and_pods_responses (k8s : KubernetesService.t) (prom : PrometheusService.t)
  (metricsStore : Store.MetricsStore) (clusterName namespace : string) (w : World) :
  let h := mkAPIHandler (Some k8s) prom metricsStore in
  let nodes_response := GetClusterNodes Sscanf_f h clusterName w in
  let pods_response := GetClusterPods h clusterName namespace w in
  let promURL := find_promURL (KubernetesService.GetConfigs k8s) clusterName in
  ticks_only w nodes_response.2 /\ ticks_only w pods_response.2
  /\ match KubernetesService.GetClient k8s clusterName with
     | None =>
         nodes_response.1
         = JSON StatusInternalServerError
             (ErrorBody ("cluster " +:+ clusterName +:+ " not found"))
         /\ pods_response.1
            = JSON StatusInternalServerError
                (ErrorBody ("cluster " +:+ clusterName +:+ " not found"))
     | Some client =>
         match Clientset.Nodes_List client with
         | inl err => nodes_response.1 = JSON StatusInternalServerError (ErrorBody err)
         | inr items =>
             exists nodes,
               nodes_response.1 = JSON StatusOK (NodesBody nodes (Z.of_nat (length items)))
               /\ Forall2 (node_served Sscanf_f prom promURL) items nodes
         end
         /\ match Clientset.Pods_List client namespace with
            | inl err => pods_response.1 = JSON StatusInternalServerError (ErrorBody err)
            | inr items =>
                exists pods,
                  pods_response.1 = JSON StatusOK (PodsBody pods (Z.of_nat (length items)))
                  /\ Forall2 pod_listed items pods
            end
     end.
Proof.
  cbv zeta. unfold GetClusterNodes, GetClusterPods. cbn [k8sService promService].
  rewrite !bind_run.
  pose proof (GetNodes_frame k8s clusterName w) as HfrN.
  pose proof (GetNodes_cases k8s clusterName w) as HN.
  pose proof (GetPods_cases k8s clusterName namespace w) as [HfrP HP].
  split; [| split].
  - destruct (KubernetesService.GetNodes k8s clusterName w).1; exact HfrN.
  - destruct (KubernetesService.GetPods k8s clusterName namespace w).1; exact HfrP.
  - destruct (KubernetesService.GetClient k8s clusterName) as [client |].
    + split.
      * destruct (Clientset.Nodes_List client) as [err | items].
        -- rewrite HN. reflexivity.
        -- destruct HN as (nodes & -> & Hall). cbn [ret fst].
           rewrite (Forall2_length _ _ _ Hall). unfold node_served.
           destruct (negb (String.eqb (find_promURL (KubernetesService.GetConfigs k8s)
                                          clusterName) EmptyString)
                     && PrometheusService.CheckConnectivity prom
                          (find_promURL (KubernetesService.GetConfigs k8s) clusterName)).
           ++ eexists. split; [rewrite length_map; reflexivity |].
              eapply Forall2_map_r; [| exact Hall].
              intros n node (Hn & Hv & Hs & Hr & _ & _ & _ & _ & Hp). cbn.
              rewrite Hn. auto 10.
           ++ eexists. split; [reflexivity |].
              eapply Forall2_impl; [exact Hall |].
              intros n node (Hn & Hv & Hs & Hr & _ & _ & Hc & Hm & Hp). auto 10.
      * destruct (Clientset.Pods_List client namespace) as [err | items].
        -- rewrite HP. reflexivity.
        -- destruct HP as (pods & -> & Hall). cbn [ret fst]. exists pods.
           split; [| exact Hall]. rewrite (Forall2_length _ _ _ Hall). reflexivity.
    + rewrite HN, HP. split; reflexivity.
Qed.

(** X16.  GetAlerts and GetClusterHistory, with or without a Kubernetes
    service.  When the engine refuses the statement the answer is 500
    with the error of the engine.  Otherwise GetAlerts answers 200 with
    exactly the unresolved alerts, newest first, and GetClusterHistory
    answers 200 with exactly the snapshots of the cluster that are newer
    than 24 hours before the request, oldest first, each with the number
    of rows as count.  The tables are not changed. *)
Theorem alerts_and_history (h : APIHandler) (clusterName : string) (w : World) :
  db (GetAlerts h w).2 = db w
  /\ db (GetClusterHistory h clusterName w).2 = db w
  /\ match db_fault w (stmts w) with
     | Some err =>
         (GetAlerts h w).1 = JSON StatusInternalServerError (ErrorBody err)
         /\ (GetClusterHistory h clusterName w).1
            = JSON StatusInternalServerError (ErrorBody err)
     | None =>
         (exists alerts,
             (GetAlerts h w).1 = JSON StatusOK (AlertsBody alerts (Z.of_nat (length alerts)))
             /\ Sorted Store.alert_desc alerts
             /\ forall a, a ∈ alerts
                          <-> a ∈ Gorm.alerts (db w) /\ Alert.Resolved a = false)
         /\ (exists snapshots,
                (GetClusterHistory h clusterName w).1
                = JSON StatusOK (SnapshotsBody snapshots (Z.of_nat (length snapshots)))
                /\ Sorted Store.snapshot_asc snapshots
                /\ forall r, r ∈ snapshots
                             <-> r ∈ Gorm.metric_snapshots (db w)
                                 /\ MetricSnapshot.Cluster r = clusterName
                                 /\ clock w (ticks w) - 24 * Time.Hour
                                    < MetricSnapshot.Timestamp r)
     end.
Proof.
  assert (Hcut : forall now, Time.Add now (Go.neg (24 * Time.Hour)) = now - 24 * Time.Hour).
  { intros now. apply cutoff_minus. unfold Go.int_min, Go.int_max, Time.Hour, Time.Minute,
      Time.Second. lia. }
  unfold GetAlerts, GetClusterHistory, Store.GetActiveAlerts, Store.GetSnapshots,
    bind, time_Now, db_exec.
  cbn [db_fault stmts db clock ticks]. rewrite Hcut.
  destruct (db_fault w (stmts w)) as [err |]; cbn [fst snd ret db].
  - repeat split.
  - split; [reflexivity |]. split; [reflexivity |]. split.
    + eexists. split; [reflexivity |]. apply select_active_alerts_rows.
    + eexists. split; [reflexivity |]. apply select_snapshots_rows.
Qed.

End Dashboard.

(** X17.  Limited functionality.  When the configuration cannot be
    loaded and main nevertheless starts to serve, it serves with no
    Kubernetes service.  From then on a collection cycle does nothing,
    the four handlers that ask the Kubernetes service panic instead of
    answering, and the alerts and history handlers answer as they do
    with a service. *)
Theorem limited_functionality (Sscanf_f : string -> Go.result Go.float64)
  (Sprintf_1f : Go.float64 -> string) (Nodes_List_limit1 : Clientset.t -> option Go.error)
  (host : Host.t) (w : World)
  (k8sService : option KubernetesService.t) (metricsStore : Store.MetricsStore) :
  ~ config_loads host (Server.getEnv host "CLUSTER_CONFIG" "k8s-configs/clusters.yaml") ->
  (Server.main host w).1 = Server.Serving k8sService metricsStore ->
  k8sService = None
  /\ forall (prom : PrometheusService.t) (k8s : KubernetesService.t)
            (clusterName namespace : string) (w' : World),
      let h := Handlers.mkAPIHandler k8sService prom metricsStore in
      Server.collectMetrics Sscanf_f Sprintf_1f k8sService prom metricsStore w' = (tt, w')
      /\ Handlers.GetClusters Sscanf_f Nodes_List_limit1 h w' = (Handlers.Panic, w')
      /\ Handlers.GetClusterDetails Sscanf_f Nodes_List_limit1 h clusterName w'
         = (Handlers.Panic, w')
      /\ Handlers.GetClusterNodes Sscanf_f h clusterName w' = (Handlers.Panic, w')
      /\ Handlers.GetClusterPods h clusterName namespace w' = (Handlers.Panic, w')
      /\ Handlers.GetAlerts h w'
         = Handlers.GetAlerts (Handlers.mkAPIHandler (Some k8s) prom metricsStore) w'
      /\ Handlers.GetClusterHistory h clusterName w'
         = Handlers.GetClusterHistory (Handlers.mkAPIHandler (Some k8s) prom metricsStore)
             clusterName w'.
Proof.
  intros Hno Hmain.
  assert (Hk : k8sService = None).
  { revert Hmain. unfold Server.main. cbv zeta.
    destruct (Host.MkdirAll host _) as [err |]; [discriminate |].
    rewrite bind_run. cbn [fst snd Printf]. rewrite bind_run.
    match goal with
    | |- context [KubernetesService.NewKubernetesService host ?p ?w1] =>
        pose proof (NewKubernetesService_result host p w1) as Hres;
        destruct (KubernetesService.NewKubernetesService host p w1) as [[err | svc] w2]
    end; cbn [fst snd] in *.
    - rewrite !bind_run. cbn [fst snd ret Printf].
      match goal with
      | |- context [Store.NewMetricsStore host ?p ?w3] =>
          destruct (Store.NewMetricsStore host p w3) as [[err' | st] w4]
      end; cbn [fst snd ret].
      + rewrite bind_run. discriminate.
      + intros [= <- _]. reflexivity.
    - exfalso. apply Hno. destruct Hres as (data & config & Hr & Hy & _).
      exists data, config. auto. }
  split; [exact Hk |]. subst k8sService. intros prom k8s clusterName namespace w'.
  cbv zeta. repeat split.
Qed.

(** ** Status and alerts *)

(** X18.  The alerts of a collection agree with the status of the
    dashboard.  On a database that runs the statements,
    checkAndCreateAlerts appends at most three alerts; it appends none
    exactly when the status of the same figures, pending pods left out
    of account, is Healthy (pending pods alone never raise an alert);
    and whenever the status is Critical it appends at least one. *)
Theorem alerts_follow_status (Sprintf_1f : Go.float64 -> string)
  (metricsStore : Store.MetricsStore) (cluster : string)
  (cpuUsage memUsage : Go.float64) (pending failed : Z) (w : World) :
  db_sound w ->
  exists w' alerts,
    Server.checkAndCreateAlerts Sprintf_1f metricsStore cluster cpuUsage memUsage failed w
    = (tt, w')
    /\ grows w w' [] alerts
    /\ (length alerts <= 3)%nat
    /\ (alerts = [] <->
        Handlers.determineClusterStatus cpuUsage memUsage 0 failed = "Healthy")
    /\ (Handlers.determineClusterStatus cpuUsage memUsage pending failed = "Critical" ->
        alerts <> []).
Proof.
  intros Hdb.
  destruct (checkAndCreateAlerts_run Sprintf_1f metricsStore cluster cpuUsage memUsage
              failed w Hdb)
    as (w' & cpuAlerts & memAlerts & podAlerts & Hrun & Hgrows & Hcpu & Hmem & Hpod).
  exists w', (cpuAlerts ++ memAlerts ++ podAlerts).
  split; [exact Hrun |]. split; [exact Hgrows |].
  unfold usage_alerts, raised in Hcpu, Hmem, Hpod. unfold Handlers.determineClusterStatus.
  destruct (Go.fgt cpuUsage (Go.float64_of_int 95)), (Go.fgt cpuUsage (Go.float64_of_int 80)),
    (Go.fgt memUsage (Go.float64_of_int 95)), (Go.fgt memUsage (Go.float64_of_int 80)),
    (0 <? failed), (5 <? pending);
    repeat match goal with
      | H : exists a, _ = [a] /\ _ |- _ => destruct H as (? & -> & _)
      | H : ?l = [] |- _ => subst l
      end;
    cbn; (split; [lia |]); split; try (split; intros; (discriminate || reflexivity));
    intros; discriminate.
Qed.

(** ** The properties on the deployment *)

Lemma deployment_keys_wf : keys_wf (db Deployment.world).
Proof.
  unfold keys_wf, table_keys. cbn.
  repeat split; try lia; apply (bool_decide_unpack _); vm_compute; exact I.
Qed.

(** The tables of the deployment have well-formed keys, and keep them
    through a collection followed by a cleanup. *)
Lemma store_keys_kept_witness :
  keys_wf (db Deployment.world)
  /\ keys_wf
       (db (Server.startMetricsCollector scan_decimal Deployment.Sprintf_1f
              (Some Deployment.k8s) Deployment.prom Deployment.store
              [Server.ticker; Server.cleanupTicker] Deployment.world).2).
Proof.
  assert (H : keys_wf (db Deployment.world)).
  { exact deployment_keys_wf. }
  split; [exact H |].
  destruct (store_keys_kept scan_decimal Deployment.Sprintf_1f Deployment.store
              Deployment.world H) as (_ & _ & _ & _ & Hrun).
  apply Hrun.
Defined.

(** A snapshot of production saved on the deployment is found again in
    its history of the last hour. *)
Lemma SaveSnapshot_then_GetSnapshots_witness :
  let snapshot := Deployment.snapshot 0 "production" 0 in
  Models.MetricSnapshot.ID snapshot = 0
  /\ Go.int_min < Time.Hour <= Go.int_max
  /\ (Store.SaveSnapshot Deployment.store snapshot Deployment.world).1.1
     ∈ (Store.GetSnapshots Deployment.store "production" Time.Hour
          (Store.SaveSnapshot Deployment.store snapshot Deployment.world).2).1.1.
Proof.
  cbv zeta.
  assert (Hd : Go.int_min < Time.Hour <= Go.int_max) by (vm_compute; split; congruence).
  assert (Hclk : Deployment.world.(clock) (S (ticks Deployment.world)) - Time.Hour
                 < Deployment.world.(clock) (ticks Deployment.world))
    by (vm_compute; reflexivity).
  pose proof (SaveSnapshot_then_GetSnapshots Deployment.store
                (Deployment.snapshot 0 "production" 0) Time.Hour Deployment.world
                eq_refl eq_refl eq_refl Hd Hclk) as H.
  split; [reflexivity |]. split; [exact Hd |].
  change (Models.MetricSnapshot.Cluster (Deployment.snapshot 0 "production" 0))
    with "production" in H.
  destruct (Store.SaveSnapshot Deployment.store (Deployment.snapshot 0 "production" 0)
              Deployment.world) as [[saved err] w1].
  cbn [fst snd].
  destruct (Store.GetSnapshots Deployment.store "production" Time.Hour w1)
    as [[found err'] w2].
  destruct H as (_ & _ & _ & Hin & _). exact Hin.
Defined.

(** An alert raised and then resolved on the deployment: both calls
    succeed, and the alert ends up in the table, resolved. *)
Lemma SaveAlert_then_ResolveAlert_witness :
  let alert := Deployment.alert 0 "production" "Warning" 0 false in
  let saved := (Store.SaveAlert Deployment.store alert Deployment.world).1.1 in
  let w1 := (Store.SaveAlert Deployment.store alert Deployment.world).2 in
  keys_wf (db Deployment.world)
  /\ Models.Alert.ID alert = 0 /\ Models.Alert.Resolved alert = false
  /\ Gorm.alerts (db (Store.ResolveAlert Deployment.store (Models.Alert.ID saved) w1).2)
     = Gorm.alerts (db Deployment.world) ++ [Models.Alert.with_Resolved true saved].
Proof.
  cbv zeta.
  assert (Hk : keys_wf (db Deployment.world)).
  { exact deployment_keys_wf. }
  pose proof (SaveAlert_then_ResolveAlert Deployment.store
                (Deployment.alert 0 "production" "Warning" 0 false) Deployment.world
                Hk eq_refl eq_refl eq_refl eq_refl eq_refl) as H.
  split; [exact Hk |]. split; [reflexivity |]. split; [reflexivity |].
  destruct (Store.SaveAlert Deployment.store
              (Deployment.alert 0 "production" "Warning" 0 false) Deployment.world)
    as [[saved err] w1].
  cbv zeta in H. cbn [fst snd].
  destruct (Store.ResolveAlert Deployment.store (Models.Alert.ID saved) w1) as [err2 w2].
  destruct H as (_ & _ & _ & _ & _ & Halerts). exact Halerts.
Defined.

(** The alerts of the last two hours of the deployment. *)
Lemma GetRecentAlerts_window_witness :
  0 <= 2 <= 2562047
  /\ (Store.GetRecentAlerts Deployment.store 2 Deployment.world).1.2 = None
  /\ Sorted Store.alert_desc (Store.GetRecentAlerts Deployment.store 2 Deployment.world).1.1.
Proof.
  assert (Hh : 0 <= 2 <= 2562047) by lia.
  pose proof (GetRecentAlerts_window Deployment.store 2 Deployment.world Hh eq_refl) as H.
  split; [exact Hh |].
  destruct (Store.GetRecentAlerts Deployment.store 2 Deployment.world) as [[alerts err] w'].
  destruct H as (Herr & _ & Hsorted & _). split; [exact Herr | exact Hsorted].
Defined.


(** On a host where every client can be built, the new service holds a
    client for each of the three enabled clusters of the deployment and
    logs no warning. *)
Lemma NewKubernetesService_clients_witness :
  exists svc,
    (KubernetesService.NewKubernetesService Deployment.host_without_database
       "k8s-configs/clusters.yaml" Deployment.world).1 = inr svc
    /\ Forall (fun cfg =>
                 Models.ClusterConfig.Enabled cfg = true ->
                 is_Some (KubernetesService.GetClient svc (Models.ClusterConfig.Name cfg)))
              Deployment.configs
    /\ db (KubernetesService.NewKubernetesService Deployment.host_without_database
             "k8s-configs/clusters.yaml" Deployment.world).2 = db Deployment.world.
Proof.
  pose proof (NewKubernetesService_result Deployment.host_without_database
                "k8s-configs/clusters.yaml" Deployment.world) as Hres.
  pose proof (NewKubernetesService_clients Deployment.host_without_database
                "k8s-configs/clusters.yaml" Deployment.world) as Hclients.
  destruct (KubernetesService.NewKubernetesService Deployment.host_without_database
              "k8s-configs/clusters.yaml" Deployment.world).1 as [err | svc].
  - exfalso. apply Hres.
    exists "clusters: []", (Models.ClustersConfig.mk Deployment.configs).
    split; reflexivity.
  - exists svc. split; [reflexivity |].
    destruct Hres as (data & config & _ & Hyaml & Hconfigs).
    injection Hyaml as <-. cbn in Hconfigs.
    destruct (Hclients svc eq_refl) as (_ & Hall & _ & Hdb).
    unfold KubernetesService.GetConfigs in Hall. rewrite Hconfigs in Hall.
    split; [| exact Hdb].
    apply Forall_forall. intros cfg Hin Hen. apply Hall; [exact Hin | exact Hen |].
    unfold client_built. cbn. eauto.
Defined.

(** On the host without a configuration file main serves without a
    Kubernetes service, and the list of clusters panics. *)
Lemma limited_functionality_witness :
  (Server.main Deployment.host_without_config Deployment.world).1
  = Server.Serving None (Store.mk "data/metrics.db")
  /\ Handlers.GetClusters scan_decimal (fun _ => None)
       (Handlers.mkAPIHandler None Deployment.prom (Store.mk "data/metrics.db"))
       Deployment.world
     = (Handlers.Panic, Deployment.world).
Proof.
  assert (Hmain : (Server.main Deployment.host_without_config Deployment.world).1
                  = Server.Serving None (Store.mk "data/metrics.db")) by reflexivity.
  assert (Hno : ~ config_loads Deployment.host_without_config
                    (Server.getEnv Deployment.host_without_config "CLUSTER_CONFIG"
                       "k8s-configs/clusters.yaml")).
  { intros (data & config & Hread & _). discriminate Hread. }
  split; [exact Hmain |].
  destruct (limited_functionality scan_decimal Deployment.Sprintf_1f (fun _ => None)
              Deployment.host_without_config Deployment.world None
              (Store.mk "data/metrics.db") Hno Hmain) as [_ H].
  destruct (H Deployment.prom Deployment.k8s "production" EmptyString Deployment.world)
    as (_ & Hclusters & _).
  exact Hclusters.
Defined.

(** Production at 97.5 % CPU with one failed pod: the status is Critical
    and alerts are raised. *)
Lemma alerts_follow_status_witness :
  db_sound Deployment.world
  /\ Gorm.alerts
       (db (Server.checkAndCreateAlerts Deployment.Sprintf_1f Deployment.store "production"
              (Go.fdiv (Go.float64_of_int 975) (Go.float64_of_int 10)) f42_5 1
              Deployment.world).2)
     <> Gorm.alerts (db Deployment.world).
Proof.
  assert (Hdb : db_sound Deployment.world) by (intros k; reflexivity).
  split; [exact Hdb |].
  destruct (alerts_follow_status Deployment.Sprintf_1f Deployment.store "production"
              (Go.fdiv (Go.float64_of_int 975) (Go.float64_of_int 10)) f42_5 0 1
              Deployment.world Hdb)
    as (w' & alerts & Hrun & Hgrows & _ & _ & Hcritical).
  rewrite Hrun. cbn [snd]. rewrite (grows_alerts _ _ _ _ Hgrows).
  intros Heq. apply Hcritical; [vm_compute; reflexivity |].
  apply (app_inv_head (Gorm.alerts (db Deployment.world))). rewrite app_nil_r. exact Heq.
Defined.
